(** * Excel comparator (app.py): matching engine and result assembler

    A shallow embedding of the comparison core of [app.py]: the two
    normalisers [clean_date] and [clean_number], the comparator
    [compare_values], the all-pairs matching loop and the flattening of
    the result records, followed by the properties established about
    them. *)

From Stdlib Require Import ZArith List Bool Lia.
From Stdlib Require Import Strings.Byte Strings.Ascii Strings.String.
From Stdlib Require Import Floats.SpecFloat DecimalString DecimalPos.
Import ListNotations.

Local Open Scope Z_scope.

(** ** Strings

    A Python string is a sequence of Unicode code points. String
    literals are read as UTF-8. *)

Inductive string : Type :=
| EmptyString
| String (c : Z) (s : string).

Fixpoint of_list (l : list Z) : string :=
  match l with
  | [] => EmptyString
  | c :: l' => String c (of_list l')
  end.

Fixpoint to_list (s : string) : list Z :=
  match s with
  | EmptyString => []
  | String c s' => c :: to_list s'
  end.

Definition byte_code (b : byte) : Z := Z.of_N (Byte.to_N b).

Definition continuation (b : byte) : option Z :=
  let n := byte_code b in
  if (128 <=? n) && (n <? 192) then Some (n - 128) else None.

Fixpoint decode_utf8 (l : list byte) : option (list Z) :=
  match l with
  | [] => Some []
  | b :: l1 =>
      let n := byte_code b in
      if n <? 128 then option_map (cons n) (decode_utf8 l1)
      else if n <? 192 then None
      else if n <? 224 then
        match l1 with
        | b1 :: l2 =>
            match continuation b1 with
            | Some c1 => option_map (cons ((n - 192) * 64 + c1)) (decode_utf8 l2)
            | None => None
            end
        | _ => None
        end
      else if n <? 240 then
        match l1 with
        | b1 :: b2 :: l3 =>
            match continuation b1, continuation b2 with
            | Some c1, Some c2 =>
                option_map (cons ((n - 224) * 4096 + c1 * 64 + c2)) (decode_utf8 l3)
            | _, _ => None
            end
        | _ => None
        end
      else
        match l1 with
        | b1 :: b2 :: b3 :: l4 =>
            match continuation b1, continuation b2, continuation b3 with
            | Some c1, Some c2, Some c3 =>
                option_map (cons ((n - 240) * 262144 + c1 * 4096 + c2 * 64 + c3))
                           (decode_utf8 l4)
            | _, _, _ => None
            end
        | _ => None
        end
  end.

Definition byte_of (n : Z) : byte :=
  match Byte.of_N (Z.to_N n) with
  | Some b => b
  | None => x00
  end.

Definition encode_char (c : Z) : list byte :=
  if c <? 128 then [byte_of c]
  else if c <? 2048 then [byte_of (192 + c / 64); byte_of (128 + c mod 64)]
  else if c <? 65536 then
    [byte_of (224 + c / 4096); byte_of (128 + (c / 64) mod 64);
     byte_of (128 + c mod 64)]
  else
    [byte_of (240 + c / 262144); byte_of (128 + (c / 4096) mod 64);
     byte_of (128 + (c / 64) mod 64); byte_of (128 + c mod 64)].

Fixpoint encode_utf8 (s : string) : list byte :=
  match s with
  | EmptyString => []
  | String c s' => encode_char c ++ encode_utf8 s'
  end.

Definition string_of_bytes (l : list byte) : option string :=
  option_map of_list (decode_utf8 l).

Definition bytes_of_string (s : string) : option (list byte) :=
  Some (encode_utf8 s).

Declare Scope pystr_scope.
Delimit Scope pystr_scope with pystr.
Bind Scope pystr_scope with string.
String Notation string string_of_bytes bytes_of_string : pystr_scope.
Local Open Scope pystr_scope.

Module String.

Fixpoint eqb (s1 s2 : string) : bool :=
  match s1, s2 with
  | EmptyString, EmptyString => true
  | String c1 s1', String c2 s2' => (c1 =? c2) && eqb s1' s2'
  | _, _ => false
  end.

Fixpoint append (s1 s2 : string) : string :=
  match s1 with
  | EmptyString => s2
  | String c s1' => String c (append s1' s2)
  end.

Fixpoint length (s : string) : nat :=
  match s with
  | EmptyString => O
  | String _ s' => S (length s')
  end.

(** [substring n m s]: the [m] code points of [s] from position [n]. *)
Fixpoint substring (n m : nat) (s : string) : string :=
  match n, m, s with
  | O, O, _ => EmptyString
  | O, S m', EmptyString => s
  | O, S m', String c s' => String c (substring O m' s')
  | S n', _, EmptyString => s
  | S n', _, String _ s' => substring n' m s'
  end.

End String.

Notation "s1 ++ s2" := (String.append s1 s2) : pystr_scope.

(** The text of a character string of the standard library. *)
Fixpoint of_ascii (s : Strings.String.string) : string :=
  match s with
  | Strings.String.EmptyString => EmptyString
  | Strings.String.String a s' => String (Z.of_N (N_of_ascii a)) (of_ascii s')
  end.

(** ** Exceptions and fallible computations *)

Inductive exn : Type :=
| KeyError (key : string)
| ValueError
| TypeError
| OverflowError
| OtherError.

Inductive result (A : Type) : Type :=
| Ok (a : A)
| Raise (e : exn).

Arguments Ok {A} a.
Arguments Raise {A} e.

Definition bind {A B : Type} (c : result A) (k : A -> result B) : result B :=
  match c with
  | Ok a => k a
  | Raise e => Raise e
  end.

Notation "x <- c ;; k" := (bind c (fun x => k))
  (at level 61, c at next level, right associativity).

(** [try: body except: handler] with a bare [except]: every exception
    raised by the body is caught. *)
Definition try_except {A : Type} (body : result A) (handler : result A) : result A :=
  match body with
  | Ok a => Ok a
  | Raise _ => handler
  end.

Fixpoint mapM {A B : Type} (f : A -> result B) (l : list A) : result (list B) :=
  match l with
  | [] => Ok []
  | a :: l' => b <- f a ;; bs <- mapM f l' ;; Ok (b :: bs)
  end.

(** ** Operations on strings *)

Definition in_ranges (c : Z) (ranges : list (Z * Z)) : bool :=
  existsb (fun r => (fst r <=? c) && (c <=? snd r)) ranges.

Fixpoint lookup (c : Z) (table : list (Z * list Z)) : option (list Z) :=
  match table with
  | [] => None
  | (k, v) :: table' => if c =? k then Some v else lookup c table'
  end.

(** [str.isspace] on a character: the whitespace of [str.strip()]. *)
Definition isspace (c : Z) : bool :=
  ((9 <=? c) && (c <=? 13))
  || ((28 <=? c) && (c <=? 32))
  || (c =? 133) || (c =? 160) || (c =? 5760)
  || ((8192 <=? c) && (c <=? 8202))
  || (c =? 8232) || (c =? 8233) || (c =? 8239) || (c =? 8287)
  || (c =? 12288).

(** The ASCII digits. *)
Definition isdigit (c : Z) : bool :=
  (48 <=? c) && (c <=? 57).

(** The code points that [str.lower] changes, with what it puts for
    each (Unicode 14.0, the simple and special lower-case mappings). *)
Definition lower_table : list (Z * list Z) :=
  [
   (65, [97]); (66, [98]); (67, [99]); (68, [100]); (69, [101]); (70, [102]);
   (71, [103]); (72, [104]); (73, [105]); (74, [106]); (75, [107]);
   (76, [108]); (77, [109]); (78, [110]); (79, [111]); (80, [112]);
   (81, [113]); (82, [114]); (83, [115]); (84, [116]); (85, [117]);
   (86, [118]); (87, [119]); (88, [120]); (89, [121]); (90, [122]);
   (192, [224]); (193, [225]); (194, [226]); (195, [227]); (196, [228]);
   (197, [229]); (198, [230]); (199, [231]); (200, [232]); (201, [233]);
   (202, [234]); (203, [235]); (204, [236]); (205, [237]); (206, [238]);
   (207, [239]); (208, [240]); (209, [241]); (210, [242]); (211, [243]);
   (212, [244]); (213, [245]); (214, [246]); (216, [248]); (217, [249]);
   (218, [250]); (219, [251]); (220, [252]); (221, [253]); (222, [254]);
   (256, [257]); (258, [259]); (260, [261]); (262, [263]); (264, [265]);
   (266, [267]); (268, [269]); (270, [271]); (272, [273]); (274, [275]);
   (276, [277]); (278, [279]); (280, [281]); (282, [283]); (284, [285]);
   (286, [287]); (288, [289]); (290, [291]); (292, [293]); (294, [295]);
   (296, [297]); (298, [299]); (300, [301]); (302, [303]); (304, [105; 775]);
   (306, [307]); (308, [309]); (310, [311]); (313, [314]); (315, [316]);
   (317, [318]); (319, [320]); (321, [322]); (323, [324]); (325, [326]);
   (327, [328]); (330, [331]); (332, [333]); (334, [335]); (336, [337]);
   (338, [339]); (340, [341]); (342, [343]); (344, [345]); (346, [347]);
   (348, [349]); (350, [351]); (352, [353]); (354, [355]); (356, [357]);
   (358, [359]); (360, [361]); (362, [363]); (364, [365]); (366, [367]);
   (368, [369]); (370, [371]); (372, [373]); (374, [375]); (376, [255]);
   (377, [378]); (379, [380]); (381, [382]); (385, [595]); (386, [387]);
   (388, [389]); (390, [596]); (391, [392]); (393, [598]); (394, [599]);
   (395, [396]); (398, [477]); (399, [601]); (400, [603]); (401, [402]);
   (403, [608]); (404, [611]); (406, [617]); (407, [616]); (408, [409]);
   (412, [623]); (413, [626]); (415, [629]); (416, [417]); (418, [419]);
   (420, [421]); (422, [640]); (423, [424]); (425, [643]); (428, [429]);
   (430, [648]); (431, [432]); (433, [650]); (434, [651]); (435, [436]);
   (437, [438]); (439, [658]); (440, [441]); (444, [445]); (452, [454]);
   (453, [454]); (455, [457]); (456, [457]); (458, [460]); (459, [460]);
   (461, [462]); (463, [464]); (465, [466]); (467, [468]); (469, [470]);
   (471, [472]); (473, [474]); (475, [476]); (478, [479]); (480, [481]);
   (482, [483]); (484, [485]); (486, [487]); (488, [489]); (490, [491]);
   (492, [493]); (494, [495]); (497, [499]); (498, [499]); (500, [501]);
   (502, [405]); (503, [447]); (504, [505]); (506, [507]); (508, [509]);
   (510, [511]); (512, [513]); (514, [515]); (516, [517]); (518, [519]);
   (520, [521]); (522, [523]); (524, [525]); (526, [527]); (528, [529]);
   (530, [531]); (532, [533]); (534, [535]); (536, [537]); (538, [539]);
   (540, [541]); (542, [543]); (544, [414]); (546, [547]); (548, [549]);
   (550, [551]); (552, [553]); (554, [555]); (556, [557]); (558, [559]);
   (560, [561]); (562, [563]); (570, [11365]); (571, [572]); (573, [410]);
   (574, [11366]); (577, [578]); (579, [384]); (580, [649]); (581, [652]);
   (582, [583]); (584, [585]); (586, [587]); (588, [589]); (590, [591]);
   (880, [881]); (882, [883]); (886, [887]); (895, [1011]); (902, [940]);
   (904, [941]); (905, [942]); (906, [943]); (908, [972]); (910, [973]);
   (911, [974]); (913, [945]); (914, [946]); (915, [947]); (916, [948]);
   (917, [949]); (918, [950]); (919, [951]); (920, [952]); (921, [953]);
   (922, [954]); (923, [955]); (924, [956]); (925, [957]); (926, [958]);
   (927, [959]); (928, [960]); (929, [961]); (931, [963]); (932, [964]);
   (933, [965]); (934, [966]); (935, [967]); (936, [968]); (937, [969]);
   (938, [970]); (939, [971]); (975, [983]); (984, [985]); (986, [987]);
   (988, [989]); (990, [991]); (992, [993]); (994, [995]); (996, [997]);
   (998, [999]); (1000, [1001]); (1002, [1003]); (1004, [1005]);
   (1006, [1007]); (1012, [952]); (1015, [1016]); (1017, [1010]);
   (1018, [1019]); (1021, [891]); (1022, [892]); (1023, [893]);
   (1024, [1104]); (1025, [1105]); (1026, [1106]); (1027, [1107]);
   (1028, [1108]); (1029, [1109]); (1030, [1110]); (1031, [1111]);
   (1032, [1112]); (1033, [1113]); (1034, [1114]); (1035, [1115]);
   (1036, [1116]); (1037, [1117]); (1038, [1118]); (1039, [1119]);
   (1040, [1072]); (1041, [1073]); (1042, [1074]); (1043, [1075]);
   (1044, [1076]); (1045, [1077]); (1046, [1078]); (1047, [1079]);
   (1048, [1080]); (1049, [1081]); (1050, [1082]); (1051, [1083]);
   (1052, [1084]); (1053, [1085]); (1054, [1086]); (1055, [1087]);
   (1056, [1088]); (1057, [1089]); (1058, [1090]); (1059, [1091]);
   (1060, [1092]); (1061, [1093]); (1062, [1094]); (1063, [1095]);
   (1064, [1096]); (1065, [1097]); (1066, [1098]); (1067, [1099]);
   (1068, [1100]); (1069, [1101]); (1070, [1102]); (1071, [1103]);
   (1120, [1121]); (1122, [1123]); (1124, [1125]); (1126, [1127]);
   (1128, [1129]); (1130, [1131]); (1132, [1133]); (1134, [1135]);
   (1136, [1137]); (1138, [1139]); (1140, [1141]); (1142, [1143]);
   (1144, [1145]); (1146, [1147]); (1148, [1149]); (1150, [1151]);
   (1152, [1153]); (1162, [1163]); (1164, [1165]); (1166, [1167]);
   (1168, [1169]); (1170, [1171]); (1172, [1173]); (1174, [1175]);
   (1176, [1177]); (1178, [1179]); (1180, [1181]); (1182, [1183]);
   (1184, [1185]); (1186, [1187]); (1188, [1189]); (1190, [1191]);
   (1192, [1193]); (1194, [1195]); (1196, [1197]); (1198, [1199]);
   (1200, [1201]); (1202, [1203]); (1204, [1205]); (1206, [1207]);
   (1208, [1209]); (1210, [1211]); (1212, [1213]); (1214, [1215]);
   (1216, [1231]); (1217, [1218]); (1219, [1220]); (1221, [1222]);
   (1223, [1224]); (1225, [1226]); (1227, [1228]); (1229, [1230]);
   (1232, [1233]); (1234, [1235]); (1236, [1237]); (1238, [1239]);
   (1240, [1241]); (1242, [1243]); (1244, [1245]); (1246, [1247]);
   (1248, [1249]); (1250, [1251]); (1252, [1253]); (1254, [1255]);
   (1256, [1257]); (1258, [1259]); (1260, [1261]); (1262, [1263]);
   (1264, [1265]); (1266, [1267]); (1268, [1269]); (1270, [1271]);
   (1272, [1273]); (1274, [1275]); (1276, [1277]); (1278, [1279]);
   (1280, [1281]); (1282, [1283]); (1284, [1285]); (1286, [1287]);
   (1288, [1289]); (1290, [1291]); (1292, [1293]); (1294, [1295]);
   (1296, [1297]); (1298, [1299]); (1300, [1301]); (1302, [1303]);
   (1304, [1305]); (1306, [1307]); (1308, [1309]); (1310, [1311]);
   (1312, [1313]); (1314, [1315]); (1316, [1317]); (1318, [1319]);
   (1320, [1321]); (1322, [1323]); (1324, [1325]); (1326, [1327]);
   (1329, [1377]); (1330, [1378]); (1331, [1379]); (1332, [1380]);
   (1333, [1381]); (1334, [1382]); (1335, [1383]); (1336, [1384]);
   (1337, [1385]); (1338, [1386]); (1339, [1387]); (1340, [1388]);
   (1341, [1389]); (1342, [1390]); (1343, [1391]); (1344, [1392]);
   (1345, [1393]); (1346, [1394]); (1347, [1395]); (1348, [1396]);
   (1349, [1397]); (1350, [1398]); (1351, [1399]); (1352, [1400]);
   (1353, [1401]); (1354, [1402]); (1355, [1403]); (1356, [1404]);
   (1357, [1405]); (1358, [1406]); (1359, [1407]); (1360, [1408]);
   (1361, [1409]); (1362, [1410]); (1363, [1411]); (1364, [1412]);
   (1365, [1413]); (1366, [1414]); (4256, [11520]); (4257, [11521]);
   (4258, [11522]); (4259, [11523]); (4260, [11524]); (4261, [11525]);
   (4262, [11526]); (4263, [11527]); (4264, [11528]); (4265, [11529]);
   (4266, [11530]); (4267, [11531]); (4268, [11532]); (4269, [11533]);
   (4270, [11534]); (4271, [11535]); (4272, [11536]); (4273, [11537]);
   (4274, [11538]); (4275, [11539]); (4276, [11540]); (4277, [11541]);
   (4278, [11542]); (4279, [11543]); (4280, [11544]); (4281, [11545]);
   (4282, [11546]); (4283, [11547]); (4284, [11548]); (4285, [11549]);
   (4286, [11550]); (4287, [11551]); (4288, [11552]); (4289, [11553]);
   (4290, [11554]); (4291, [11555]); (4292, [11556]); (4293, [11557]);
   (4295, [11559]); (4301, [11565]); (5024, [43888]); (5025, [43889]);
   (5026, [43890]); (5027, [43891]); (5028, [43892]); (5029, [43893]);
   (5030, [43894]); (5031, [43895]); (5032, [43896]); (5033, [43897]);
   (5034, [43898]); (5035, [43899]); (5036, [43900]); (5037, [43901]);
   (5038, [43902]); (5039, [43903]); (5040, [43904]); (5041, [43905]);
   (5042, [43906]); (5043, [43907]); (5044, [43908]); (5045, [43909]);
   (5046, [43910]); (5047, [43911]); (5048, [43912]); (5049, [43913]);
   (5050, [43914]); (5051, [43915]); (5052, [43916]); (5053, [43917]);
   (5054, [43918]); (5055, [43919]); (5056, [43920]); (5057, [43921]);
   (5058, [43922]); (5059, [43923]); (5060, [43924]); (5061, [43925]);
   (5062, [43926]); (5063, [43927]); (5064, [43928]); (5065, [43929]);
   (5066, [43930]); (5067, [43931]); (5068, [43932]); (5069, [43933]);
   (5070, [43934]); (5071, [43935]); (5072, [43936]); (5073, [43937]);
   (5074, [43938]); (5075, [43939]); (5076, [43940]); (5077, [43941]);
   (5078, [43942]); (5079, [43943]); (5080, [43944]); (5081, [43945]);
   (5082, [43946]); (5083, [43947]); (5084, [43948]); (5085, [43949]);
   (5086, [43950]); (5087, [43951]); (5088, [43952]); (5089, [43953]);
   (5090, [43954]); (5091, [43955]); (5092, [43956]); (5093, [43957]);
   (5094, [43958]); (5095, [43959]); (5096, [43960]); (5097, [43961]);
   (5098, [43962]); (5099, [43963]); (5100, [43964]); (5101, [43965]);
   (5102, [43966]); (5103, [43967]); (5104, [5112]); (5105, [5113]);
   (5106, [5114]); (5107, [5115]); (5108, [5116]); (5109, [5117]);
   (7312, [4304]); (7313, [4305]); (7314, [4306]); (7315, [4307]);
   (7316, [4308]); (7317, [4309]); (7318, [4310]); (7319, [4311]);
   (7320, [4312]); (7321, [4313]); (7322, [4314]); (7323, [4315]);
   (7324, [4316]); (7325, [4317]); (7326, [4318]); (7327, [4319]);
   (7328, [4320]); (7329, [4321]); (7330, [4322]); (7331, [4323]);
   (7332, [4324]); (7333, [4325]); (7334, [4326]); (7335, [4327]);
   (7336, [4328]); (7337, [4329]); (7338, [4330]); (7339, [4331]);
   (7340, [4332]); (7341, [4333]); (7342, [4334]); (7343, [4335]);
   (7344, [4336]); (7345, [4337]); (7346, [4338]); (7347, [4339]);
   (7348, [4340]); (7349, [4341]); (7350, [4342]); (7351, [4343]);
   (7352, [4344]); (7353, [4345]); (7354, [4346]); (7357, [4349]);
   (7358, [4350]); (7359, [4351]); (7680, [7681]); (7682, [7683]);
   (7684, [7685]); (7686, [7687]); (7688, [7689]); (7690, [7691]);
   (7692, [7693]); (7694, [7695]); (7696, [7697]); (7698, [7699]);
   (7700, [7701]); (7702, [7703]); (7704, [7705]); (7706, [7707]);
   (7708, [7709]); (7710, [7711]); (7712, [7713]); (7714, [7715]);
   (7716, [7717]); (7718, [7719]); (7720, [7721]); (7722, [7723]);
   (7724, [7725]); (7726, [7727]); (7728, [7729]); (7730, [7731]);
   (7732, [7733]); (7734, [7735]); (7736, [7737]); (7738, [7739]);
   (7740, [7741]); (7742, [7743]); (7744, [7745]); (7746, [7747]);
   (7748, [7749]); (7750, [7751]); (7752, [7753]); (7754, [7755]);
   (7756, [7757]); (7758, [7759]); (7760, [7761]); (7762, [7763]);
   (7764, [7765]); (7766, [7767]); (7768, [7769]); (7770, [7771]);
   (7772, [7773]); (7774, [7775]); (7776, [7777]); (7778, [7779]);
   (7780, [7781]); (7782, [7783]); (7784, [7785]); (7786, [7787]);
   (7788, [7789]); (7790, [7791]); (7792, [7793]); (7794, [7795]);
   (7796, [7797]); (7798, [7799]); (7800, [7801]); (7802, [7803]);
   (7804, [7805]); (7806, [7807]); (7808, [7809]); (7810, [7811]);
   (7812, [7813]); (7814, [7815]); (7816, [7817]); (7818, [7819]);
   (7820, [7821]); (7822, [7823]); (7824, [7825]); (7826, [7827]);
   (7828, [7829]); (7838, [223]); (7840, [7841]); (7842, [7843]);
   (7844, [7845]); (7846, [7847]); (7848, [7849]); (7850, [7851]);
   (7852, [7853]); (7854, [7855]); (7856, [7857]); (7858, [7859]);
   (7860, [7861]); (7862, [7863]); (7864, [7865]); (7866, [7867]);
   (7868, [7869]); (7870, [7871]); (7872, [7873]); (7874, [7875]);
   (7876, [7877]); (7878, [7879]); (7880, [7881]); (7882, [7883]);
   (7884, [7885]); (7886, [7887]); (7888, [7889]); (7890, [7891]);
   (7892, [7893]); (7894, [7895]); (7896, [7897]); (7898, [7899]);
   (7900, [7901]); (7902, [7903]); (7904, [7905]); (7906, [7907]);
   (7908, [7909]); (7910, [7911]); (7912, [7913]); (7914, [7915]);
   (7916, [7917]); (7918, [7919]); (7920, [7921]); (7922, [7923]);
   (7924, [7925]); (7926, [7927]); (7928, [7929]); (7930, [7931]);
   (7932, [7933]); (7934, [7935]); (7944, [7936]); (7945, [7937]);
   (7946, [7938]); (7947, [7939]); (7948, [7940]); (7949, [7941]);
   (7950, [7942]); (7951, [7943]); (7960, [7952]); (7961, [7953]);
   (7962, [7954]); (7963, [7955]); (7964, [7956]); (7965, [7957]);
   (7976, [7968]); (7977, [7969]); (7978, [7970]); (7979, [7971]);
   (7980, [7972]); (7981, [7973]); (7982, [7974]); (7983, [7975]);
   (7992, [7984]); (7993, [7985]); (7994, [7986]); (7995, [7987]);
   (7996, [7988]); (7997, [7989]); (7998, [7990]); (7999, [7991]);
   (8008, [8000]); (8009, [8001]); (8010, [8002]); (8011, [8003]);
   (8012, [8004]); (8013, [8005]); (8025, [8017]); (8027, [8019]);
   (8029, [8021]); (8031, [8023]); (8040, [8032]); (8041, [8033]);
   (8042, [8034]); (8043, [8035]); (8044, [8036]); (8045, [8037]);
   (8046, [8038]); (8047, [8039]); (8072, [8064]); (8073, [8065]);
   (8074, [8066]); (8075, [8067]); (8076, [8068]); (8077, [8069]);
   (8078, [8070]); (8079, [8071]); (8088, [8080]); (8089, [8081]);
   (8090, [8082]); (8091, [8083]); (8092, [8084]); (8093, [8085]);
   (8094, [8086]); (8095, [8087]); (8104, [8096]); (8105, [8097]);
   (8106, [8098]); (8107, [8099]); (8108, [8100]); (8109, [8101]);
   (8110, [8102]); (8111, [8103]); (8120, [8112]); (8121, [8113]);
   (8122, [8048]); (8123, [8049]); (8124, [8115]); (8136, [8050]);
   (8137, [8051]); (8138, [8052]); (8139, [8053]); (8140, [8131]);
   (8152, [8144]); (8153, [8145]); (8154, [8054]); (8155, [8055]);
   (8168, [8160]); (8169, [8161]); (8170, [8058]); (8171, [8059]);
   (8172, [8165]); (8184, [8056]); (8185, [8057]); (8186, [8060]);
   (8187, [8061]); (8188, [8179]); (8486, [969]); (8490, [107]);
   (8491, [229]); (8498, [8526]); (8544, [8560]); (8545, [8561]);
   (8546, [8562]); (8547, [8563]); (8548, [8564]); (8549, [8565]);
   (8550, [8566]); (8551, [8567]); (8552, [8568]); (8553, [8569]);
   (8554, [8570]); (8555, [8571]); (8556, [8572]); (8557, [8573]);
   (8558, [8574]); (8559, [8575]); (8579, [8580]); (9398, [9424]);
   (9399, [9425]); (9400, [9426]); (9401, [9427]); (9402, [9428]);
   (9403, [9429]); (9404, [9430]); (9405, [9431]); (9406, [9432]);
   (9407, [9433]); (9408, [9434]); (9409, [9435]); (9410, [9436]);
   (9411, [9437]); (9412, [9438]); (9413, [9439]); (9414, [9440]);
   (9415, [9441]); (9416, [9442]); (9417, [9443]); (9418, [9444]);
   (9419, [9445]); (9420, [9446]); (9421, [9447]); (9422, [9448]);
   (9423, [9449]); (11264, [11312]); (11265, [11313]); (11266, [11314]);
   (11267, [11315]); (11268, [11316]); (11269, [11317]); (11270, [11318]);
   (11271, [11319]); (11272, [11320]); (11273, [11321]); (11274, [11322]);
   (11275, [11323]); (11276, [11324]); (11277, [11325]); (11278, [11326]);
   (11279, [11327]); (11280, [11328]); (11281, [11329]); (11282, [11330]);
   (11283, [11331]); (11284, [11332]); (11285, [11333]); (11286, [11334]);
   (11287, [11335]); (11288, [11336]); (11289, [11337]); (11290, [11338]);
   (11291, [11339]); (11292, [11340]); (11293, [11341]); (11294, [11342]);
   (11295, [11343]); (11296, [11344]); (11297, [11345]); (11298, [11346]);
   (11299, [11347]); (11300, [11348]); (11301, [11349]); (11302, [11350]);
   (11303, [11351]); (11304, [11352]); (11305, [11353]); (11306, [11354]);
   (11307, [11355]); (11308, [11356]); (11309, [11357]); (11310, [11358]);
   (11311, [11359]); (11360, [11361]); (11362, [619]); (11363, [7549]);
   (11364, [637]); (11367, [11368]); (11369, [11370]); (11371, [11372]);
   (11373, [593]); (11374, [625]); (11375, [592]); (11376, [594]);
   (11378, [11379]); (11381, [11382]); (11390, [575]); (11391, [576]);
   (11392, [11393]); (11394, [11395]); (11396, [11397]); (11398, [11399]);
   (11400, [11401]); (11402, [11403]); (11404, [11405]); (11406, [11407]);
   (11408, [11409]); (11410, [11411]); (11412, [11413]); (11414, [11415]);
   (11416, [11417]); (11418, [11419]); (11420, [11421]); (11422, [11423]);
   (11424, [11425]); (11426, [11427]); (11428, [11429]); (11430, [11431]);
   (11432, [11433]); (11434, [11435]); (11436, [11437]); (11438, [11439]);
   (11440, [11441]); (11442, [11443]); (11444, [11445]); (11446, [11447]);
   (11448, [11449]); (11450, [11451]); (11452, [11453]); (11454, [11455]);
   (11456, [11457]); (11458, [11459]); (11460, [11461]); (11462, [11463]);
   (11464, [11465]); (11466, [11467]); (11468, [11469]); (11470, [11471]);
   (11472, [11473]); (11474, [11475]); (11476, [11477]); (11478, [11479]);
   (11480, [11481]); (11482, [11483]); (11484, [11485]); (11486, [11487]);
   (11488, [11489]); (11490, [11491]); (11499, [11500]); (11501, [11502]);
   (11506, [11507]); (42560, [42561]); (42562, [42563]); (42564, [42565]);
   (42566, [42567]); (42568, [42569]); (42570, [42571]); (42572, [42573]);
   (42574, [42575]); (42576, [42577]); (42578, [42579]); (42580, [42581]);
   (42582, [42583]); (42584, [42585]); (42586, [42587]); (42588, [42589]);
   (42590, [42591]); (42592, [42593]); (42594, [42595]); (42596, [42597]);
   (42598, [42599]); (42600, [42601]); (42602, [42603]); (42604, [42605]);
   (42624, [42625]); (42626, [42627]); (42628, [42629]); (42630, [42631]);
   (42632, [42633]); (42634, [42635]); (42636, [42637]); (42638, [42639]);
   (42640, [42641]); (42642, [42643]); (42644, [42645]); (42646, [42647]);
   (42648, [42649]); (42650, [42651]); (42786, [42787]); (42788, [42789]);
   (42790, [42791]); (42792, [42793]); (42794, [42795]); (42796, [42797]);
   (42798, [42799]); (42802, [42803]); (42804, [42805]); (42806, [42807]);
   (42808, [42809]); (42810, [42811]); (42812, [42813]); (42814, [42815]);
   (42816, [42817]); (42818, [42819]); (42820, [42821]); (42822, [42823]);
   (42824, [42825]); (42826, [42827]); (42828, [42829]); (42830, [42831]);
   (42832, [42833]); (42834, [42835]); (42836, [42837]); (42838, [42839]);
   (42840, [42841]); (42842, [42843]); (42844, [42845]); (42846, [42847]);
   (42848, [42849]); (42850, [42851]); (42852, [42853]); (42854, [42855]);
   (42856, [42857]); (42858, [42859]); (42860, [42861]); (42862, [42863]);
   (42873, [42874]); (42875, [42876]); (42877, [7545]); (42878, [42879]);
   (42880, [42881]); (42882, [42883]); (42884, [42885]); (42886, [42887]);
   (42891, [42892]); (42893, [613]); (42896, [42897]); (42898, [42899]);
   (42902, [42903]); (42904, [42905]); (42906, [42907]); (42908, [42909]);
   (42910, [42911]); (42912, [42913]); (42914, [42915]); (42916, [42917]);
   (42918, [42919]); (42920, [42921]); (42922, [614]); (42923, [604]);
   (42924, [609]); (42925, [620]); (42926, [618]); (42928, [670]);
   (42929, [647]); (42930, [669]); (42931, [43859]); (42932, [42933]);
   (42934, [42935]); (42936, [42937]); (42938, [42939]); (42940, [42941]);
   (42942, [42943]); (42944, [42945]); (42946, [42947]); (42948, [42900]);
   (42949, [642]); (42950, [7566]); (42951, [42952]); (42953, [42954]);
   (42960, [42961]); (42966, [42967]); (42968, [42969]); (42997, [42998]);
   (65313, [65345]); (65314, [65346]); (65315, [65347]); (65316, [65348]);
   (65317, [65349]); (65318, [65350]); (65319, [65351]); (65320, [65352]);
   (65321, [65353]); (65322, [65354]); (65323, [65355]); (65324, [65356]);
   (65325, [65357]); (65326, [65358]); (65327, [65359]); (65328, [65360]);
   (65329, [65361]); (65330, [65362]); (65331, [65363]); (65332, [65364]);
   (65333, [65365]); (65334, [65366]); (65335, [65367]); (65336, [65368]);
   (65337, [65369]); (65338, [65370]); (66560, [66600]); (66561, [66601]);
   (66562, [66602]); (66563, [66603]); (66564, [66604]); (66565, [66605]);
   (66566, [66606]); (66567, [66607]); (66568, [66608]); (66569, [66609]);
   (66570, [66610]); (66571, [66611]); (66572, [66612]); (66573, [66613]);
   (66574, [66614]); (66575, [66615]); (66576, [66616]); (66577, [66617]);
   (66578, [66618]); (66579, [66619]); (66580, [66620]); (66581, [66621]);
   (66582, [66622]); (66583, [66623]); (66584, [66624]); (66585, [66625]);
   (66586, [66626]); (66587, [66627]); (66588, [66628]); (66589, [66629]);
   (66590, [66630]); (66591, [66631]); (66592, [66632]); (66593, [66633]);
   (66594, [66634]); (66595, [66635]); (66596, [66636]); (66597, [66637]);
   (66598, [66638]); (66599, [66639]); (66736, [66776]); (66737, [66777]);
   (66738, [66778]); (66739, [66779]); (66740, [66780]); (66741, [66781]);
   (66742, [66782]); (66743, [66783]); (66744, [66784]); (66745, [66785]);
   (66746, [66786]); (66747, [66787]); (66748, [66788]); (66749, [66789]);
   (66750, [66790]); (66751, [66791]); (66752, [66792]); (66753, [66793]);
   (66754, [66794]); (66755, [66795]); (66756, [66796]); (66757, [66797]);
   (66758, [66798]); (66759, [66799]); (66760, [66800]); (66761, [66801]);
   (66762, [66802]); (66763, [66803]); (66764, [66804]); (66765, [66805]);
   (66766, [66806]); (66767, [66807]); (66768, [66808]); (66769, [66809]);
   (66770, [66810]); (66771, [66811]); (66928, [66967]); (66929, [66968]);
   (66930, [66969]); (66931, [66970]); (66932, [66971]); (66933, [66972]);
   (66934, [66973]); (66935, [66974]); (66936, [66975]); (66937, [66976]);
   (66938, [66977]); (66940, [66979]); (66941, [66980]); (66942, [66981]);
   (66943, [66982]); (66944, [66983]); (66945, [66984]); (66946, [66985]);
   (66947, [66986]); (66948, [66987]); (66949, [66988]); (66950, [66989]);
   (66951, [66990]); (66952, [66991]); (66953, [66992]); (66954, [66993]);
   (66956, [66995]); (66957, [66996]); (66958, [66997]); (66959, [66998]);
   (66960, [66999]); (66961, [67000]); (66962, [67001]); (66964, [67003]);
   (66965, [67004]); (68736, [68800]); (68737, [68801]); (68738, [68802]);
   (68739, [68803]); (68740, [68804]); (68741, [68805]); (68742, [68806]);
   (68743, [68807]); (68744, [68808]); (68745, [68809]); (68746, [68810]);
   (68747, [68811]); (68748, [68812]); (68749, [68813]); (68750, [68814]);
   (68751, [68815]); (68752, [68816]); (68753, [68817]); (68754, [68818]);
   (68755, [68819]); (68756, [68820]); (68757, [68821]); (68758, [68822]);
   (68759, [68823]); (68760, [68824]); (68761, [68825]); (68762, [68826]);
   (68763, [68827]); (68764, [68828]); (68765, [68829]); (68766, [68830]);
   (68767, [68831]); (68768, [68832]); (68769, [68833]); (68770, [68834]);
   (68771, [68835]); (68772, [68836]); (68773, [68837]); (68774, [68838]);
   (68775, [68839]); (68776, [68840]); (68777, [68841]); (68778, [68842]);
   (68779, [68843]); (68780, [68844]); (68781, [68845]); (68782, [68846]);
   (68783, [68847]); (68784, [68848]); (68785, [68849]); (68786, [68850]);
   (71840, [71872]); (71841, [71873]); (71842, [71874]); (71843, [71875]);
   (71844, [71876]); (71845, [71877]); (71846, [71878]); (71847, [71879]);
   (71848, [71880]); (71849, [71881]); (71850, [71882]); (71851, [71883]);
   (71852, [71884]); (71853, [71885]); (71854, [71886]); (71855, [71887]);
   (71856, [71888]); (71857, [71889]); (71858, [71890]); (71859, [71891]);
   (71860, [71892]); (71861, [71893]); (71862, [71894]); (71863, [71895]);
   (71864, [71896]); (71865, [71897]); (71866, [71898]); (71867, [71899]);
   (71868, [71900]); (71869, [71901]); (71870, [71902]); (71871, [71903]);
   (93760, [93792]); (93761, [93793]); (93762, [93794]); (93763, [93795]);
   (93764, [93796]); (93765, [93797]); (93766, [93798]); (93767, [93799]);
   (93768, [93800]); (93769, [93801]); (93770, [93802]); (93771, [93803]);
   (93772, [93804]); (93773, [93805]); (93774, [93806]); (93775, [93807]);
   (93776, [93808]); (93777, [93809]); (93778, [93810]); (93779, [93811]);
   (93780, [93812]); (93781, [93813]); (93782, [93814]); (93783, [93815]);
   (93784, [93816]); (93785, [93817]); (93786, [93818]); (93787, [93819]);
   (93788, [93820]); (93789, [93821]); (93790, [93822]); (93791, [93823]);
   (125184, [125218]); (125185, [125219]); (125186, [125220]);
   (125187, [125221]); (125188, [125222]); (125189, [125223]);
   (125190, [125224]); (125191, [125225]); (125192, [125226]);
   (125193, [125227]); (125194, [125228]); (125195, [125229]);
   (125196, [125230]); (125197, [125231]); (125198, [125232]);
   (125199, [125233]); (125200, [125234]); (125201, [125235]);
   (125202, [125236]); (125203, [125237]); (125204, [125238]);
   (125205, [125239]); (125206, [125240]); (125207, [125241]);
   (125208, [125242]); (125209, [125243]); (125210, [125244]);
   (125211, [125245]); (125212, [125246]); (125213, [125247]);
   (125214, [125248]); (125215, [125249]); (125216, [125250]);
   (125217, [125251])
  ].

(** The cased code points, as inclusive ranges. *)
Definition cased_ranges : list (Z * Z) :=
  [
   (65, 90); (97, 122); (170, 170); (181, 181); (186, 186); (192, 214);
   (216, 246); (248, 442); (444, 447); (452, 659); (661, 696); (704, 705);
   (736, 740); (837, 837); (880, 883); (886, 887); (890, 893); (895, 895);
   (902, 902); (904, 906); (908, 908); (910, 929); (931, 1013); (1015, 1153);
   (1162, 1327); (1329, 1366); (1376, 1416); (4256, 4293); (4295, 4295);
   (4301, 4301); (4304, 4346); (4349, 4351); (5024, 5109); (5112, 5117);
   (7296, 7304); (7312, 7354); (7357, 7359); (7424, 7615); (7680, 7957);
   (7960, 7965); (7968, 8005); (8008, 8013); (8016, 8023); (8025, 8025);
   (8027, 8027); (8029, 8029); (8031, 8061); (8064, 8116); (8118, 8124);
   (8126, 8126); (8130, 8132); (8134, 8140); (8144, 8147); (8150, 8155);
   (8160, 8172); (8178, 8180); (8182, 8188); (8305, 8305); (8319, 8319);
   (8336, 8348); (8450, 8450); (8455, 8455); (8458, 8467); (8469, 8469);
   (8473, 8477); (8484, 8484); (8486, 8486); (8488, 8488); (8490, 8493);
   (8495, 8500); (8505, 8505); (8508, 8511); (8517, 8521); (8526, 8526);
   (8544, 8575); (8579, 8580); (9398, 9449); (11264, 11492); (11499, 11502);
   (11506, 11507); (11520, 11557); (11559, 11559); (11565, 11565);
   (42560, 42605); (42624, 42653); (42786, 42887); (42891, 42894);
   (42896, 42954); (42960, 42961); (42963, 42963); (42965, 42969);
   (42997, 42998); (43000, 43002); (43824, 43866); (43868, 43880);
   (43888, 43967); (64256, 64262); (64275, 64279); (65313, 65338);
   (65345, 65370); (66560, 66639); (66736, 66771); (66776, 66811);
   (66928, 66938); (66940, 66954); (66956, 66962); (66964, 66965);
   (66967, 66977); (66979, 66993); (66995, 67001); (67003, 67004);
   (67456, 67456); (67459, 67461); (67463, 67504); (67506, 67514);
   (68736, 68786); (68800, 68850); (71840, 71903); (93760, 93823);
   (119808, 119892); (119894, 119964); (119966, 119967); (119970, 119970);
   (119973, 119974); (119977, 119980); (119982, 119993); (119995, 119995);
   (119997, 120003); (120005, 120069); (120071, 120074); (120077, 120084);
   (120086, 120092); (120094, 120121); (120123, 120126); (120128, 120132);
   (120134, 120134); (120138, 120144); (120146, 120485); (120488, 120512);
   (120514, 120538); (120540, 120570); (120572, 120596); (120598, 120628);
   (120630, 120654); (120656, 120686); (120688, 120712); (120714, 120744);
   (120746, 120770); (120772, 120779); (122624, 122633); (122635, 122654);
   (125184, 125251); (127280, 127305); (127312, 127337); (127344, 127369)
  ].

(** The case-ignorable code points, as inclusive ranges. *)
Definition case_ignorable_ranges : list (Z * Z) :=
  [
   (39, 39); (46, 46); (58, 58); (94, 94); (96, 96); (168, 168); (173, 173);
   (175, 175); (180, 180); (183, 184); (688, 879); (884, 885); (890, 890);
   (900, 901); (903, 903); (1155, 1161); (1369, 1369); (1375, 1375);
   (1425, 1469); (1471, 1471); (1473, 1474); (1476, 1477); (1479, 1479);
   (1524, 1524); (1536, 1541); (1552, 1562); (1564, 1564); (1600, 1600);
   (1611, 1631); (1648, 1648); (1750, 1757); (1759, 1768); (1770, 1773);
   (1807, 1807); (1809, 1809); (1840, 1866); (1958, 1968); (2027, 2037);
   (2042, 2042); (2045, 2045); (2070, 2093); (2137, 2139); (2184, 2184);
   (2192, 2193); (2200, 2207); (2249, 2306); (2362, 2362); (2364, 2364);
   (2369, 2376); (2381, 2381); (2385, 2391); (2402, 2403); (2417, 2417);
   (2433, 2433); (2492, 2492); (2497, 2500); (2509, 2509); (2530, 2531);
   (2558, 2558); (2561, 2562); (2620, 2620); (2625, 2626); (2631, 2632);
   (2635, 2637); (2641, 2641); (2672, 2673); (2677, 2677); (2689, 2690);
   (2748, 2748); (2753, 2757); (2759, 2760); (2765, 2765); (2786, 2787);
   (2810, 2815); (2817, 2817); (2876, 2876); (2879, 2879); (2881, 2884);
   (2893, 2893); (2901, 2902); (2914, 2915); (2946, 2946); (3008, 3008);
   (3021, 3021); (3072, 3072); (3076, 3076); (3132, 3132); (3134, 3136);
   (3142, 3144); (3146, 3149); (3157, 3158); (3170, 3171); (3201, 3201);
   (3260, 3260); (3263, 3263); (3270, 3270); (3276, 3277); (3298, 3299);
   (3328, 3329); (3387, 3388); (3393, 3396); (3405, 3405); (3426, 3427);
   (3457, 3457); (3530, 3530); (3538, 3540); (3542, 3542); (3633, 3633);
   (3636, 3642); (3654, 3662); (3761, 3761); (3764, 3772); (3782, 3782);
   (3784, 3789); (3864, 3865); (3893, 3893); (3895, 3895); (3897, 3897);
   (3953, 3966); (3968, 3972); (3974, 3975); (3981, 3991); (3993, 4028);
   (4038, 4038); (4141, 4144); (4146, 4151); (4153, 4154); (4157, 4158);
   (4184, 4185); (4190, 4192); (4209, 4212); (4226, 4226); (4229, 4230);
   (4237, 4237); (4253, 4253); (4348, 4348); (4957, 4959); (5906, 5908);
   (5938, 5939); (5970, 5971); (6002, 6003); (6068, 6069); (6071, 6077);
   (6086, 6086); (6089, 6099); (6103, 6103); (6109, 6109); (6155, 6159);
   (6211, 6211); (6277, 6278); (6313, 6313); (6432, 6434); (6439, 6440);
   (6450, 6450); (6457, 6459); (6679, 6680); (6683, 6683); (6742, 6742);
   (6744, 6750); (6752, 6752); (6754, 6754); (6757, 6764); (6771, 6780);
   (6783, 6783); (6823, 6823); (6832, 6862); (6912, 6915); (6964, 6964);
   (6966, 6970); (6972, 6972); (6978, 6978); (7019, 7027); (7040, 7041);
   (7074, 7077); (7080, 7081); (7083, 7085); (7142, 7142); (7144, 7145);
   (7149, 7149); (7151, 7153); (7212, 7219); (7222, 7223); (7288, 7293);
   (7376, 7378); (7380, 7392); (7394, 7400); (7405, 7405); (7412, 7412);
   (7416, 7417); (7468, 7530); (7544, 7544); (7579, 7679); (8125, 8125);
   (8127, 8129); (8141, 8143); (8157, 8159); (8173, 8175); (8189, 8190);
   (8203, 8207); (8216, 8217); (8228, 8228); (8231, 8231); (8234, 8238);
   (8288, 8292); (8294, 8303); (8305, 8305); (8319, 8319); (8336, 8348);
   (8400, 8432); (11388, 11389); (11503, 11505); (11631, 11631);
   (11647, 11647); (11744, 11775); (11823, 11823); (12293, 12293);
   (12330, 12333); (12337, 12341); (12347, 12347); (12441, 12446);
   (12540, 12542); (40981, 40981); (42232, 42237); (42508, 42508);
   (42607, 42610); (42612, 42621); (42623, 42623); (42652, 42655);
   (42736, 42737); (42752, 42785); (42864, 42864); (42888, 42890);
   (42994, 42996); (43000, 43001); (43010, 43010); (43014, 43014);
   (43019, 43019); (43045, 43046); (43052, 43052); (43204, 43205);
   (43232, 43249); (43263, 43263); (43302, 43309); (43335, 43345);
   (43392, 43394); (43443, 43443); (43446, 43449); (43452, 43453);
   (43471, 43471); (43493, 43494); (43561, 43566); (43569, 43570);
   (43573, 43574); (43587, 43587); (43596, 43596); (43632, 43632);
   (43644, 43644); (43696, 43696); (43698, 43700); (43703, 43704);
   (43710, 43711); (43713, 43713); (43741, 43741); (43756, 43757);
   (43763, 43764); (43766, 43766); (43867, 43871); (43881, 43883);
   (44005, 44005); (44008, 44008); (44013, 44013); (64286, 64286);
   (64434, 64450); (65024, 65039); (65043, 65043); (65056, 65071);
   (65106, 65106); (65109, 65109); (65279, 65279); (65287, 65287);
   (65294, 65294); (65306, 65306); (65342, 65342); (65344, 65344);
   (65392, 65392); (65438, 65439); (65507, 65507); (65529, 65531);
   (66045, 66045); (66272, 66272); (66422, 66426); (67456, 67461);
   (67463, 67504); (67506, 67514); (68097, 68099); (68101, 68102);
   (68108, 68111); (68152, 68154); (68159, 68159); (68325, 68326);
   (68900, 68903); (69291, 69292); (69446, 69456); (69506, 69509);
   (69633, 69633); (69688, 69702); (69744, 69744); (69747, 69748);
   (69759, 69761); (69811, 69814); (69817, 69818); (69821, 69821);
   (69826, 69826); (69837, 69837); (69888, 69890); (69927, 69931);
   (69933, 69940); (70003, 70003); (70016, 70017); (70070, 70078);
   (70089, 70092); (70095, 70095); (70191, 70193); (70196, 70196);
   (70198, 70199); (70206, 70206); (70367, 70367); (70371, 70378);
   (70400, 70401); (70459, 70460); (70464, 70464); (70502, 70508);
   (70512, 70516); (70712, 70719); (70722, 70724); (70726, 70726);
   (70750, 70750); (70835, 70840); (70842, 70842); (70847, 70848);
   (70850, 70851); (71090, 71093); (71100, 71101); (71103, 71104);
   (71132, 71133); (71219, 71226); (71229, 71229); (71231, 71232);
   (71339, 71339); (71341, 71341); (71344, 71349); (71351, 71351);
   (71453, 71455); (71458, 71461); (71463, 71467); (71727, 71735);
   (71737, 71738); (71995, 71996); (71998, 71998); (72003, 72003);
   (72148, 72151); (72154, 72155); (72160, 72160); (72193, 72202);
   (72243, 72248); (72251, 72254); (72263, 72263); (72273, 72278);
   (72281, 72283); (72330, 72342); (72344, 72345); (72752, 72758);
   (72760, 72765); (72767, 72767); (72850, 72871); (72874, 72880);
   (72882, 72883); (72885, 72886); (73009, 73014); (73018, 73018);
   (73020, 73021); (73023, 73029); (73031, 73031); (73104, 73105);
   (73109, 73109); (73111, 73111); (73459, 73460); (78896, 78904);
   (92912, 92916); (92976, 92982); (92992, 92995); (94031, 94031);
   (94095, 94111); (94176, 94177); (94179, 94180); (110576, 110579);
   (110581, 110587); (110589, 110590); (113821, 113822); (113824, 113827);
   (118528, 118573); (118576, 118598); (119143, 119145); (119155, 119170);
   (119173, 119179); (119210, 119213); (119362, 119364); (121344, 121398);
   (121403, 121452); (121461, 121461); (121476, 121476); (121499, 121503);
   (121505, 121519); (122880, 122886); (122888, 122904); (122907, 122913);
   (122915, 122916); (122918, 122922); (123184, 123197); (123566, 123566);
   (123628, 123631); (125136, 125142); (125252, 125259); (127995, 127999);
   (917505, 917505); (917536, 917631); (917760, 917999)
  ].

(** The code points of the digit zero of each block of ten decimal
    digits. *)
Definition decimal_zeros : list Z :=
  [
   48; 1632; 1776; 1984; 2406; 2534; 2662; 2790; 2918; 3046; 3174; 3302;
   3430; 3558; 3664; 3792; 3872; 4160; 4240; 6112; 6160; 6470; 6608; 6784;
   6800; 6992; 7088; 7232; 7248; 42528; 43216; 43264; 43472; 43504; 43600;
   44016; 65296; 66720; 68912; 69734; 69872; 69942; 70096; 70384; 70736;
   70864; 71248; 71360; 71472; 71904; 72016; 72784; 73040; 73120; 92768;
   92864; 93008; 120782; 120792; 120802; 120812; 120822; 123200; 123632;
   125264; 130032
  ].

Definition cased (c : Z) : bool := in_ranges c cased_ranges.

Definition case_ignorable (c : Z) : bool := in_ranges c case_ignorable_ranges.

(** The lower case of one character out of context. *)
Definition lower_char (c : Z) : string :=
  match lookup c lower_table with
  | Some out => of_list out
  | None => String c EmptyString
  end.

(** What follows a capital sigma lets it be final: no cased letter
    comes next, case-ignorable characters skipped. *)
Fixpoint final_after (s : string) : bool :=
  match s with
  | EmptyString => true
  | String c s' => if case_ignorable c then final_after s' else negb (cased c)
  end.

Definition sigma : Z := 931.
Definition small_sigma : Z := 963.
Definition final_sigma : Z := 962.

(** Whether the nearest character before that is not case-ignorable
    is cased, once [c] has been read. *)
Definition next_state (before : bool) (c : Z) : bool :=
  if case_ignorable c then before else cased c.

(** The lower case of [c] in its context: a capital sigma after a cased
    letter and before no cased letter is a final sigma. *)
Definition lower_at (before : bool) (c : Z) (rest : string) : string :=
  if c =? sigma then
    String (if before && final_after rest then final_sigma else small_sigma)
           EmptyString
  else lower_char c.

Fixpoint lower_from (before : bool) (s : string) : string :=
  match s with
  | EmptyString => EmptyString
  | String c s' => lower_at before c s' ++ lower_from (next_state before c) s'
  end.

(** [s.lower()] *)
Definition lower (s : string) : string := lower_from false s.

Fixpoint lstrip (s : string) : string :=
  match s with
  | EmptyString => EmptyString
  | String c s' => if isspace c then lstrip s' else s
  end.

Fixpoint rstrip (s : string) : string :=
  match s with
  | EmptyString => EmptyString
  | String c s' =>
      match rstrip s' with
      | EmptyString => if isspace c then EmptyString else String c EmptyString
      | t => String c t
      end
  end.

(** [s.strip()] *)
Definition strip (s : string) : string := rstrip (lstrip s).

Definition comma : Z := 44.

(** [s.replace(",", "")] *)
Fixpoint remove_commas (s : string) : string :=
  match s with
  | EmptyString => EmptyString
  | String c s' =>
      if c =? comma then remove_commas s' else String c (remove_commas s')
  end.

Fixpoint all_space (s : string) : bool :=
  match s with
  | EmptyString => true
  | String c s' => isspace c && all_space s'
  end.

Definition first_char (s : string) : option Z :=
  match s with
  | EmptyString => None
  | String c _ => Some c
  end.

Fixpoint last_char (s : string) : option Z :=
  match s with
  | EmptyString => None
  | String c EmptyString => Some c
  | String _ s' => last_char s'
  end.

Fixpoint contains_char (c : Z) (s : string) : bool :=
  match s with
  | EmptyString => false
  | String d s' => (c =? d) || contains_char c s'
  end.

(** [str(n)] for a Python integer. *)
Definition str_int (n : Z) : string :=
  of_ascii (NilZero.string_of_int (Z.to_int n)).

(** ** Floating-point numbers

    Python's [float] is IEEE 754 binary64, taken from the reference
    definition of the operations in [SpecFloat]. *)

Definition float : Type := spec_float.

Definition prec : Z := 53.
Definition emax : Z := 1024.

Definition fsub : float -> float -> float := SFsub prec emax.
Definition fabs : float -> float := SFabs.
Definition fltb : float -> float -> bool := SFltb.

Definition is_nan (f : float) : bool :=
  match f with
  | S754_nan => true
  | _ => false
  end.

(** The value [m * 10^e] (with [m > 0]) rounded to the nearest binary64,
    ties to even, as [float(str)] does. *)
Definition float_of_decimal (neg : bool) (m e : Z) : float :=
  match m with
  | Z0 => S754_zero neg
  | Zneg _ => S754_nan
  | Zpos p =>
      if 0 <=? e then binary_round prec emax neg (Z.to_pos (m * 10 ^ e)) 0
      else
        let '(q, e', loc) := SFdiv_core_binary prec emax m 0 (10 ^ (- e)) 0 in
        binary_round_aux prec emax neg q e' loc
  end.

(** *** The grammar accepted by [float(str)] *)

(** The decimal digit that a character stands for, in any script. *)
Definition decimal_value (c : Z) : option Z :=
  match find (fun z => (z <=? c) && (c <=? z + 9)) decimal_zeros with
  | Some z => Some (c - z)
  | None => None
  end.

(** Before it is read, the text is put in ASCII: whitespace becomes a
    space and a decimal digit its ASCII digit; any other character
    that is not ASCII becomes a question mark, which no number has. *)
Definition ascii_char (c : Z) : Z :=
  if c <? 127 then c
  else if isspace c then 32
  else
    match decimal_value c with
    | Some d => 48 + d
    | None => 63
    end.

Fixpoint ascii_form (s : string) : string :=
  match s with
  | EmptyString => EmptyString
  | String c s' => String (ascii_char c) (ascii_form s')
  end.

(** The whitespace that [float] itself skips around the number. *)
Definition isspace_ascii (c : Z) : bool :=
  ((9 <=? c) && (c <=? 13)) || (c =? 32).

Fixpoint lstrip_ascii (s : string) : string :=
  match s with
  | EmptyString => EmptyString
  | String c s' => if isspace_ascii c then lstrip_ascii s' else s
  end.

Fixpoint rstrip_ascii (s : string) : string :=
  match s with
  | EmptyString => EmptyString
  | String c s' =>
      match rstrip_ascii s' with
      | EmptyString => if isspace_ascii c then EmptyString else String c EmptyString
      | t => String c t
      end
  end.

Definition lower_ascii_char (c : Z) : Z :=
  if (65 <=? c) && (c <=? 90) then c + 32 else c.

Fixpoint lower_ascii (s : string) : string :=
  match s with
  | EmptyString => EmptyString
  | String c s' => String (lower_ascii_char c) (lower_ascii s')
  end.

Fixpoint take_digits (s : string) : list Z * string :=
  match s with
  | EmptyString => ([], EmptyString)
  | String c s' =>
      if isdigit c then
        let '(ds, rest) := take_digits s' in (c - 48 :: ds, rest)
      else ([], s)
  end.

Definition digits_value (ds : list Z) : Z :=
  fold_left (fun acc d => 10 * acc + d) ds 0.

Definition underscore : Z := 95.

(** Underscores may only appear between two digits; they are removed
    before the number is read. *)
Fixpoint strip_underscores (prev : Z) (s : string) : option string :=
  match s with
  | EmptyString => if prev =? underscore then None else Some EmptyString
  | String c s' =>
      if c =? underscore then
        if isdigit prev then strip_underscores c s' else None
      else if (prev =? underscore) && negb (isdigit c) then None
      else
        match strip_underscores c s' with
        | Some t => Some (String c t)
        | None => None
        end
  end.

(** A leading [-] (45) or [+] (43). *)
Definition take_sign (s : string) : bool * string :=
  match s with
  | String 45 s' => (true, s')
  | String 43 s' => (false, s')
  | _ => (false, s)
  end.

(** The exponent: [e] (101) or [E] (69), a sign and digits. *)
Definition parse_exponent (s : string) : option Z :=
  match s with
  | EmptyString => Some 0
  | String c s' =>
      if (c =? 101) || (c =? 69) then
        let '(neg, s'') := take_sign s' in
        match take_digits s'' with
        | (d :: ds, EmptyString) =>
            let n := digits_value (d :: ds) in
            Some (if neg then - n else n)
        | _ => None
        end
      else None
  end.

(** Digits, a point (46) and digits, an exponent. *)
Definition parse_decimal (neg : bool) (s : string) : option float :=
  let '(ip, rest) := take_digits s in
  let '(fp, rest') :=
    match rest with
    | String 46 r => take_digits r
    | _ => ([], rest)
    end in
  match (ip ++ fp)%list with
  | [] => None
  | ds =>
      match parse_exponent rest' with
      | Some e => Some (float_of_decimal neg (digits_value ds) (e - Z.of_nat (List.length fp)))
      | None => None
      end
  end.

Definition parse_float_body (s : string) : option float :=
  let '(neg, body) := take_sign s in
  let l := lower_ascii body in
  if String.eqb l "inf" || String.eqb l "infinity" then Some (S754_infinity neg)
  else if String.eqb l "nan" then Some S754_nan
  else parse_decimal neg body.

(** [float(s)] for a string [s]: [ValueError] when [s] is not a number. *)
Definition py_float (s : string) : result float :=
  match strip_underscores 0 (rstrip_ascii (lstrip_ascii (ascii_form s))) with
  | None => Raise ValueError
  | Some t =>
      match parse_float_body t with
      | Some f => Ok f
      | None => Raise ValueError
      end
  end.

(** The literal [1e-6] of the numeric tolerance. *)
Definition eps : float := S754_finite false 4722366482869645 (-72).

(** [float(n)] for an integer [n]. *)
Definition float_of_int (n : Z) : float := binary_normalize prec emax n 0 false.

(** ** Calendar dates

    A [datetime.date] is identified by its proleptic Gregorian ordinal
    (0001-01-01 is day 1, 9999-12-31 is day 3652059). *)

Record date : Type := { toordinal : Z }.

Definition min_ordinal : Z := 1.
Definition max_ordinal : Z := 3652059.

Definition is_leap (y : Z) : bool :=
  (y mod 4 =? 0) && (negb (y mod 100 =? 0) || (y mod 400 =? 0)).

Definition days_before_year (y : Z) : Z :=
  let p := y - 1 in p * 365 + p / 4 - p / 100 + p / 400.

Definition days_in_month (y m : Z) : Z :=
  if m =? 2 then (if is_leap y then 29 else 28)
  else if (m =? 4) || (m =? 6) || (m =? 9) || (m =? 11) then 30
  else 31.

Fixpoint days_before_month_aux (y : Z) (k : nat) : Z :=
  match k with
  | O => 0
  | S k' => days_before_month_aux y k' + days_in_month y (Z.of_nat k)
  end.

Definition days_before_month (y m : Z) : Z :=
  days_before_month_aux y (Z.to_nat (m - 1)).

(** [datetime.date(y, m, d)] *)
Definition mkdate (y m d : Z) : result date :=
  if (1 <=? y) && (y <=? 9999) && (1 <=? m) && (m <=? 12)
     && (1 <=? d) && (d <=? days_in_month y m)
  then Ok {| toordinal := days_before_year y + days_before_month y m + d |}
  else Raise ValueError.

Definition date_eqb (a b : date) : bool := toordinal a =? toordinal b.

(** [d + timedelta(days=n)]: [OverflowError] outside the supported
    range of dates. *)
Definition date_add_days (d : date) (n : Z) : result date :=
  let o := toordinal d + n in
  if (min_ordinal <=? o) && (o <=? max_ordinal)
  then Ok {| toordinal := o |}
  else Raise OverflowError.

(** A [pandas.Timestamp]: a calendar day and the time within it. *)
Record Timestamp : Type := { ts_date : date; ts_nanos : Z }.

(** ** Cell values *)

Inductive value : Type :=
| VNone
| VNaT
| VBool (b : bool)
| VInt (n : Z)
| VFloat (f : float)
| VStr (s : string)
| VDate (d : date)
| VTimestamp (t : Timestamp).

(** [pd.isna] on a scalar: [None], [NaT] and the float [nan]. *)
Definition isna (v : value) : bool :=
  match v with
  | VNone | VNaT => true
  | VFloat f => is_nan f
  | _ => false
  end.

(** ** Rows, frames and dictionaries *)

Definition Series : Type := list (string * value).

Definition dict : Type := list (string * value).

(** [row[k]] *)
Fixpoint getitem (row : Series) (k : string) : result value :=
  match row with
  | [] => Raise (KeyError k)
  | (k', v) :: row' => if String.eqb k k' then Ok v else getitem row' k
  end.

(** [d[k] = v]: an existing key keeps its position. *)
Fixpoint dict_set (d : dict) (k : string) (v : value) : dict :=
  match d with
  | [] => [(k, v)]
  | (k', v') :: d' =>
      if String.eqb k k' then (k', v) :: d' else (k', v') :: dict_set d' k v
  end.

Fixpoint dict_get (d : dict) (k : string) : option value :=
  match d with
  | [] => None
  | (k', v) :: d' => if String.eqb k k' then Some v else dict_get d' k
  end.

Definition keys (d : dict) : list string := map fst d.

(** [dict(row)] *)
Definition dict_of (row : Series) : dict :=
  fold_left (fun d kv => dict_set d (fst kv) (snd kv)) row [].

Record DataFrame : Type := {
  columns : list string;
  data : list (list value)
}.

Definition well_formed (df : DataFrame) : Prop :=
  NoDup (columns df)
  /\ Forall (fun r => List.length r = List.length (columns df)) (data df).

Fixpoint enumerate {A : Type} (i : Z) (l : list A) : list (Z * A) :=
  match l with
  | [] => []
  | x :: l' => (i, x) :: enumerate (i + 1) l'
  end.

(** [df.iterrows()] on a frame read by [pd.read_excel]: the index is the
    default one, 0, 1, 2, ..., and [data] holds the cells as the rows
    yielded carry them. *)
Definition iterrows (df : DataFrame) : list (Z * Series) :=
  enumerate 0 (map (combine (columns df)) (data df)).

(** The column mapping [col_map]: for a column of the first sheet, the
    matched column of the second, the comparison type and the fuzzy
    flag, in insertion order. *)
Definition ColumnMapping : Type := list (string * (string * string * bool)).

Record MatchRecord : Type := {
  Excel1_Index : Z;
  Excel1_Data : dict;
  Matched : string;
  Excel2_Match : option dict
}.

Definition yes : string := "✅ Yes".
Definition no : string := "❌ No".

(** ** The comparison core of [app.py]

    The formatting of floats, dates and timestamps by [str], the date
    parser [pd.to_datetime(_, errors="coerce")] and the similarity score
    [fuzz.partial_ratio] belong to Python and its libraries; the
    program is embedded over them. [to_datetime] yields a timestamp,
    [None] for [NaT], or raises. *)

Class Externals : Type := {
  float_str : float -> string;
  date_str : date -> string;
  timestamp_str : Timestamp -> string;
  to_datetime : string -> result (option Timestamp);
  partial_ratio : string -> string -> Z
}.

Section Comparator.

Context {ext : Externals}.

(** [str(v)] *)
Definition py_str (v : value) : string :=
  match v with
  | VNone => "None"
  | VNaT => "NaT"
  | VBool b => if b then "True" else "False"
  | VInt n => str_int n
  | VFloat f => float_str f
  | VStr s => s
  | VDate d => date_str d
  | VTimestamp t => timestamp_str t
  end.

(** [Timestamp.date()]; [NaT.date()] is [NaT]. *)
Definition date_of (t : option Timestamp) : value :=
  match t with
  | Some ts => VDate (ts_date ts)
  | None => VNaT
  end.

Definition clean_date (val : value) : result value :=
  if isna val then Ok VNone
  else
    try_except
      (t <- to_datetime (py_str val) ;; Ok (date_of t))
      (Ok VNone).

Definition clean_number (val : value) : result value :=
  if isna val then Ok VNone
  else
    try_except
      (f <- py_float (strip (remove_commas (py_str val))) ;; Ok (VFloat f))
      (Ok VNone).

(** The [Date] and [Number] branches are given on the operands the
    normalisers produce (dates, floats); the null values are answered
    by the first test. *)
Definition compare_values (v1 v2 : value) (col_type : string) (fuzzy : bool)
  : result bool :=
  if isna v1 || isna v2 then Ok false
  else if String.eqb col_type "Date" then
    match v1, v2 with
    | VDate d1, VDate d2 =>
        if date_eqb d1 d2 then Ok true
        else
          next <- date_add_days d2 1 ;;
          if date_eqb d1 next then Ok true
          else
            prev <- date_add_days d2 (-1) ;;
            Ok (date_eqb d1 prev)
    | _, _ => Raise TypeError
    end
  else if String.eqb col_type "Number" then
    match v1, v2 with
    | VFloat a, VFloat b => Ok (fltb (fabs (fsub a b)) eps)
    | _, _ => Raise TypeError
    end
  else if String.eqb col_type "Text" then
    if fuzzy then
      Ok (80 <=? partial_ratio (lower (py_str v1)) (lower (py_str v2)))
    else
      Ok (String.eqb (lower (strip (py_str v1))) (lower (strip (py_str v2))))
  else Ok (String.eqb (py_str v1) (py_str v2)).

(** The normalisation step of the inner loop. *)
Definition normalize (col_type : string) (v : value) : result value :=
  if String.eqb col_type "Date" then clean_date v
  else if String.eqb col_type "Number" then clean_number v
  else Ok v.

(** One iteration of the loop over [col_map.items()]. *)
Definition compare_cell (row1 row2 : Series)
    (entry : string * (string * string * bool)) : result bool :=
  let '(col1, (col2, col_type, fuzzy)) := entry in
  v1 <- getitem row1 col1 ;;
  v2 <- getitem row2 col2 ;;
  v1 <- normalize col_type v1 ;;
  v2 <- normalize col_type v2 ;;
  compare_values v1 v2 col_type fuzzy.

Definition comparisons (col_map : ColumnMapping) (row1 row2 : Series)
  : result (list bool) :=
  mapM (compare_cell row1 row2) col_map.

Definition all (l : list bool) : bool := forallb (fun b => b) l.

(** The loop over [df2.iterrows()] for one row of the first sheet: the
    final values of [match_found] and [best_match]. *)
Fixpoint scan (col_map : ColumnMapping) (row1 : Series)
    (rows2 : list (Z * Series)) : result (bool * option Series) :=
  match rows2 with
  | [] => Ok (false, None)
  | (_, row2) :: rest =>
      cs <- comparisons col_map row1 row2 ;;
      if all cs then Ok (true, Some row2)
      else scan col_map row1 rest
  end.

Definition record_of (i : Z) (row1 : Series) (st : bool * option Series)
  : MatchRecord :=
  {| Excel1_Index := i;
     Excel1_Data := dict_of row1;
     Matched := if fst st then yes else no;
     Excel2_Match := option_map dict_of (snd st) |}.

(** The loop over [df1.iterrows()], building [results]. *)
Fixpoint match_rows (col_map : ColumnMapping) (rows1 rows2 : list (Z * Series))
  : result (list MatchRecord) :=
  match rows1 with
  | [] => Ok []
  | (i, row1) :: rest =>
      st <- scan col_map row1 rows2 ;;
      rs <- match_rows col_map rest rows2 ;;
      Ok (record_of i row1 st :: rs)
  end.

Definition run_match (df1 df2 : DataFrame) (col_map : ColumnMapping)
  : result (list MatchRecord) :=
  match_rows col_map (iterrows df1) (iterrows df2).

(** Whether a row of the second sheet matches on every mapped pair. *)
Definition full_match (col_map : ColumnMapping) (row1 row2 : Series) : result bool :=
  cs <- comparisons col_map row1 row2 ;; Ok (all cs).

End Comparator.

(** ** The result table *)

Definition prefix_items (p : string) (items : dict) (row : dict) : dict :=
  fold_left (fun row kv => dict_set row (p ++ fst kv) (snd kv)) items row.

(** The truth value of a dictionary: empty is false. *)
Definition truthy (d : dict) : bool :=
  match d with
  | [] => false
  | _ :: _ => true
  end.

Definition flat_row (r : MatchRecord) : dict :=
  let row := [("Excel1_Index", VInt (Excel1_Index r)); ("Matched", VStr (Matched r))] in
  let row := prefix_items "Excel1_" (Excel1_Data r) row in
  match Excel2_Match r with
  | Some d => if truthy d then prefix_items "Excel2_" d row else row
  | None => row
  end.

Definition flat_results (results : list MatchRecord) : list dict :=
  map flat_row results.

(** The fields of a match record that the flat record is built from. *)
Inductive field : Type :=
| FIndex
| FMatched
| FLeft (k : string)
| FRight (k : string).

(** The key under which [flat_row] stores a field. *)
Definition flat_key (f : field) : string :=
  match f with
  | FIndex => "Excel1_Index"
  | FMatched => "Matched"
  | FLeft k => "Excel1_" ++ k
  | FRight k => "Excel2_" ++ k
  end.

(** ** A small instance of the external functions

    Dates are read in the form [YYYY-MM-DD] only and kept when they lie
    within the range of a nanosecond timestamp; the similarity score is
    100 on equal strings and 0 otherwise. *)

Module Sample.

Definition timestamp_min : Z := 612411.   (* 1677-09-21 *)
Definition timestamp_max : Z := 825914.   (* 2262-04-11 *)

Definition number (s : string) : option Z :=
  match take_digits s with
  | (d :: ds, EmptyString) => Some (digits_value (d :: ds))
  | _ => None
  end.

Definition read_date (s : string) : result (option Timestamp) :=
  if negb (Nat.eqb (String.length s) 10) then Ok None
  else
    match number (String.substring 0 4 s), number (String.substring 5 2 s),
          number (String.substring 8 2 s) with
    | Some y, Some m, Some d =>
        if String.eqb (String.substring 4 1 s) "-"
           && String.eqb (String.substring 7 1 s) "-" then
          match mkdate y m d with
          | Ok dt =>
              if (timestamp_min <=? toordinal dt) && (toordinal dt <=? timestamp_max)
              then Ok (Some {| ts_date := dt; ts_nanos := 0 |})
              else Ok None
          | Raise _ => Ok None
          end
        else Ok None
    | _, _, _ => Ok None
    end.

Definition ratio (a b : string) : Z := if String.eqb a b then 100 else 0.

#[export] Instance ext : Externals := {|
  float_str := fun _ => "float";
  date_str := fun d => str_int (toordinal d);
  timestamp_str := fun t => str_int (toordinal (ts_date t));
  to_datetime := read_date;
  partial_ratio := ratio
|}.

Definition df1 : DataFrame :=
  {| columns := ["id"; "name"; "amt"];
     data := [[VInt 1; VStr "Bob"; VStr "500,00"]] |}.

Definition df2 : DataFrame :=
  {| columns := ["id"; "name"; "amt"];
     data := [[VInt 1; VStr "bob"; VStr "50000"]] |}.

Definition col_map : ColumnMapping :=
  [("name", ("name", "Text", false)); ("amt", ("amt", "Number", false))].

End Sample.

(** ** An instance that reads dates over the whole calendar

    As the sample instance, with timestamps of a unit coarser than the
    nanosecond: every date of [datetime.date] is read. *)

Module FullRange.

Definition read_date (s : string) : result (option Timestamp) :=
  if negb (Nat.eqb (String.length s) 10) then Ok None
  else
    match Sample.number (String.substring 0 4 s),
          Sample.number (String.substring 5 2 s),
          Sample.number (String.substring 8 2 s) with
    | Some y, Some m, Some d =>
        if String.eqb (String.substring 4 1 s) "-"
           && String.eqb (String.substring 7 1 s) "-" then
          match mkdate y m d with
          | Ok dt => Ok (Some {| ts_date := dt; ts_nanos := 0 |})
          | Raise _ => Ok None
          end
        else Ok None
    | _, _, _ => Ok None
    end.

#[export] Instance ext : Externals := {|
  float_str := fun _ => "float";
  date_str := fun d => str_int (toordinal d);
  timestamp_str := fun t => str_int (toordinal (ts_date t));
  to_datetime := read_date;
  partial_ratio := Sample.ratio
|}.

End FullRange.

(** ** The column mapping built from the selection widgets

    The widgets are the user's answers: [selectbox] and [radio] give one
    of the options they are shown, [checkbox] a boolean. They are asked
    per column of the first sheet; [radio] is also shown the column
    selected for it. *)

Record Widgets : Type := {
  selectbox : string -> list string -> string;
  radio : string -> string -> list string -> string;
  checkbox : string -> bool
}.

Definition none_option : string := "-- None --".

Definition col_types : list string := ["Text"; "Number"; "Date"].

(** [m[k] = v] on a dictionary with values of any type. *)
Fixpoint assoc_set {V : Type} (m : list (string * V)) (k : string) (v : V)
  : list (string * V) :=
  match m with
  | [] => [(k, v)]
  | (k', v') :: m' =>
      if String.eqb k k' then (k', v) :: m' else (k', v') :: assoc_set m' k v
  end.

(** The body of the loop over [df1.columns]. *)
Definition select_column (w : Widgets) (df2 : DataFrame)
    (col_map : ColumnMapping) (col : string) : ColumnMapping :=
  let matched := selectbox w col (none_option :: columns df2) in
  if negb (String.eqb matched none_option) then
    let col_type := radio w col matched col_types in
    let fuzzy := if String.eqb col_type "Text" then checkbox w col else false in
    assoc_set col_map col (matched, col_type, fuzzy)
  else col_map.

Definition build_col_map (w : Widgets) (df1 df2 : DataFrame) : ColumnMapping :=
  fold_left (select_column w df2) (columns df1) [].

(** The widgets answer with one of their options. *)
Definition answers_in_options (w : Widgets) : Prop :=
  (forall col options, options <> [] -> In (selectbox w col options) options)
  /\ (forall col matched options,
        options <> [] -> In (radio w col matched options) options).

(** The entry that the loop writes for a column. *)
Definition entry_of (w : Widgets) (df2 : DataFrame) (col : string)
  : string * (string * string * bool) :=
  let matched := selectbox w col (none_option :: columns df2) in
  let col_type := radio w col matched col_types in
  (col, (matched, col_type,
         if String.eqb col_type "Text" then checkbox w col else false)).

Definition selected (w : Widgets) (df2 : DataFrame) (col : string) : bool :=
  negb (String.eqb (selectbox w col (none_option :: columns df2)) none_option).

(** Widgets that pair every column with the column of the same name,
    when there is one, as text without fuzzy matching. *)
Module SampleUI.

Definition same_name : Widgets := {|
  selectbox := fun col options =>
    if existsb (String.eqb col) options then col else hd none_option options;
  radio := fun _ _ options => hd "Text" options;
  checkbox := fun _ => false
|}.

End SampleUI.

(** ** Further notions used in the statements *)

Definition type_of (entry : string * (string * string * bool)) : string :=
  snd (fst (snd entry)).

Definition fuzzy_of (entry : string * (string * string * bool)) : bool :=
  snd (snd entry).

Definition in_range (d : date) : Prop :=
  min_ordinal <= toordinal d <= max_ordinal.

Definition interior (d : date) : Prop :=
  min_ordinal < toordinal d < max_ordinal.

Definition is_finite (f : float) : bool :=
  match f with
  | S754_zero _ | S754_finite _ _ _ => true
  | _ => false
  end.

Fixpoint all_digits (s : string) : bool :=
  match s with
  | EmptyString => true
  | String c s' => isdigit c && all_digits s'
  end.

(** Only whitespace and commas. *)
Fixpoint blank (s : string) : bool :=
  match s with
  | EmptyString => true
  | String c s' => (isspace c || (c =? comma)) && blank s'
  end.

(** ** Notions used in the statements *)

(** The whitespace characters, listed: the characters of Unicode whose
    bidirectional class is WS, B or S or whose category is Zs (tab to
    carriage return, the four information separators, the space, the
    next-line and no-break-space characters and the spaces of
    U+1680, U+2000 to U+200A, U+2028, U+2029, U+202F, U+205F and
    U+3000). *)
Definition whitespace : list Z :=
  [9; 10; 11; 12; 13; 28; 29; 30; 31; 32; 133; 160; 5760;
   8192; 8193; 8194; 8195; 8196; 8197; 8198; 8199; 8200; 8201; 8202;
   8232; 8233; 8239; 8287; 12288].

Fixpoint all_whitespace (s : string) : Prop :=
  match s with
  | EmptyString => True
  | String c s' => In c whitespace /\ all_whitespace s'
  end.

Definition not_whitespace (o : option Z) : Prop :=
  match o with
  | Some c => ~ In c whitespace
  | None => True
  end.

(** [t] is [s] without its leading and trailing whitespace. *)
Definition trimmed (s t : string) : Prop :=
  exists l r,
    s = l ++ t ++ r
    /\ all_whitespace l /\ all_whitespace r
    /\ not_whitespace (first_char t) /\ not_whitespace (last_char t).

Definition no_space_at (o : option Z) : Prop :=
  match o with
  | Some c => isspace c = false
  | None => True
  end.

Definition no_ascii_space_at (o : option Z) : Prop :=
  match o with
  | Some c => isspace_ascii c = false
  | None => True
  end.

(** What [strip] leaves of [s], in terms of [isspace]. *)
Definition stripped (s t : string) : Prop :=
  exists l r,
    s = l ++ t ++ r
    /\ all_space l = true /\ all_space r = true
    /\ no_space_at (first_char t) /\ no_space_at (last_char t).

Definition left_column (entry : string * (string * string * bool)) : string :=
  fst entry.

Definition right_column (entry : string * (string * string * bool)) : string :=
  fst (fst (snd entry)).

(** Every pair of the mapping names a column of the first sheet and a
    column of the second. *)
Definition valid_mapping (df1 df2 : DataFrame) (col_map : ColumnMapping) : Prop :=
  Forall (fun entry => In (left_column entry) (columns df1)
                       /\ In (right_column entry) (columns df2)) col_map.

(** The dates read by [to_datetime] are neither the first nor the last
    representable day; nanosecond timestamps span 1677 to 2262. *)
Definition dates_interior (ext : Externals) : Prop :=
  forall s ts, to_datetime s = Ok (Some ts) ->
               min_ordinal < toordinal (ts_date ts) < max_ordinal.

(** The rows paired by the loops have the columns of the mapping. *)
Definition has_columns (col_map : ColumnMapping) (row1 row2 : Series) : Prop :=
  Forall (fun entry =>
            (exists v, getitem row1 (left_column entry) = Ok v)
            /\ (exists v, getitem row2 (right_column entry) = Ok v)) col_map.


(** Case folding, as the specification names it: Unicode's full case
    folding, applied character by character ([str.casefold]). The
    table holds the code points that it changes, with their foldings
    (Unicode 14.0). *)
Definition casefold_table : list (Z * list Z) :=
  [
   (65, [97]); (66, [98]); (67, [99]); (68, [100]); (69, [101]); (70, [102]);
   (71, [103]); (72, [104]); (73, [105]); (74, [106]); (75, [107]);
   (76, [108]); (77, [109]); (78, [110]); (79, [111]); (80, [112]);
   (81, [113]); (82, [114]); (83, [115]); (84, [116]); (85, [117]);
   (86, [118]); (87, [119]); (88, [120]); (89, [121]); (90, [122]);
   (181, [956]); (192, [224]); (193, [225]); (194, [226]); (195, [227]);
   (196, [228]); (197, [229]); (198, [230]); (199, [231]); (200, [232]);
   (201, [233]); (202, [234]); (203, [235]); (204, [236]); (205, [237]);
   (206, [238]); (207, [239]); (208, [240]); (209, [241]); (210, [242]);
   (211, [243]); (212, [244]); (213, [245]); (214, [246]); (216, [248]);
   (217, [249]); (218, [250]); (219, [251]); (220, [252]); (221, [253]);
   (222, [254]); (223, [115; 115]); (256, [257]); (258, [259]); (260, [261]);
   (262, [263]); (264, [265]); (266, [267]); (268, [269]); (270, [271]);
   (272, [273]); (274, [275]); (276, [277]); (278, [279]); (280, [281]);
   (282, [283]); (284, [285]); (286, [287]); (288, [289]); (290, [291]);
   (292, [293]); (294, [295]); (296, [297]); (298, [299]); (300, [301]);
   (302, [303]); (304, [105; 775]); (306, [307]); (308, [309]); (310, [311]);
   (313, [314]); (315, [316]); (317, [318]); (319, [320]); (321, [322]);
   (323, [324]); (325, [326]); (327, [328]); (329, [700; 110]); (330, [331]);
   (332, [333]); (334, [335]); (336, [337]); (338, [339]); (340, [341]);
   (342, [343]); (344, [345]); (346, [347]); (348, [349]); (350, [351]);
   (352, [353]); (354, [355]); (356, [357]); (358, [359]); (360, [361]);
   (362, [363]); (364, [365]); (366, [367]); (368, [369]); (370, [371]);
   (372, [373]); (374, [375]); (376, [255]); (377, [378]); (379, [380]);
   (381, [382]); (383, [115]); (385, [595]); (386, [387]); (388, [389]);
   (390, [596]); (391, [392]); (393, [598]); (394, [599]); (395, [396]);
   (398, [477]); (399, [601]); (400, [603]); (401, [402]); (403, [608]);
   (404, [611]); (406, [617]); (407, [616]); (408, [409]); (412, [623]);
   (413, [626]); (415, [629]); (416, [417]); (418, [419]); (420, [421]);
   (422, [640]); (423, [424]); (425, [643]); (428, [429]); (430, [648]);
   (431, [432]); (433, [650]); (434, [651]); (435, [436]); (437, [438]);
   (439, [658]); (440, [441]); (444, [445]); (452, [454]); (453, [454]);
   (455, [457]); (456, [457]); (458, [460]); (459, [460]); (461, [462]);
   (463, [464]); (465, [466]); (467, [468]); (469, [470]); (471, [472]);
   (473, [474]); (475, [476]); (478, [479]); (480, [481]); (482, [483]);
   (484, [485]); (486, [487]); (488, [489]); (490, [491]); (492, [493]);
   (494, [495]); (496, [106; 780]); (497, [499]); (498, [499]); (500, [501]);
   (502, [405]); (503, [447]); (504, [505]); (506, [507]); (508, [509]);
   (510, [511]); (512, [513]); (514, [515]); (516, [517]); (518, [519]);
   (520, [521]); (522, [523]); (524, [525]); (526, [527]); (528, [529]);
   (530, [531]); (532, [533]); (534, [535]); (536, [537]); (538, [539]);
   (540, [541]); (542, [543]); (544, [414]); (546, [547]); (548, [549]);
   (550, [551]); (552, [553]); (554, [555]); (556, [557]); (558, [559]);
   (560, [561]); (562, [563]); (570, [11365]); (571, [572]); (573, [410]);
   (574, [11366]); (577, [578]); (579, [384]); (580, [649]); (581, [652]);
   (582, [583]); (584, [585]); (586, [587]); (588, [589]); (590, [591]);
   (837, [953]); (880, [881]); (882, [883]); (886, [887]); (895, [1011]);
   (902, [940]); (904, [941]); (905, [942]); (906, [943]); (908, [972]);
   (910, [973]); (911, [974]); (912, [953; 776; 769]); (913, [945]);
   (914, [946]); (915, [947]); (916, [948]); (917, [949]); (918, [950]);
   (919, [951]); (920, [952]); (921, [953]); (922, [954]); (923, [955]);
   (924, [956]); (925, [957]); (926, [958]); (927, [959]); (928, [960]);
   (929, [961]); (931, [963]); (932, [964]); (933, [965]); (934, [966]);
   (935, [967]); (936, [968]); (937, [969]); (938, [970]); (939, [971]);
   (944, [965; 776; 769]); (962, [963]); (975, [983]); (976, [946]);
   (977, [952]); (981, [966]); (982, [960]); (984, [985]); (986, [987]);
   (988, [989]); (990, [991]); (992, [993]); (994, [995]); (996, [997]);
   (998, [999]); (1000, [1001]); (1002, [1003]); (1004, [1005]);
   (1006, [1007]); (1008, [954]); (1009, [961]); (1012, [952]);
   (1013, [949]); (1015, [1016]); (1017, [1010]); (1018, [1019]);
   (1021, [891]); (1022, [892]); (1023, [893]); (1024, [1104]);
   (1025, [1105]); (1026, [1106]); (1027, [1107]); (1028, [1108]);
   (1029, [1109]); (1030, [1110]); (1031, [1111]); (1032, [1112]);
   (1033, [1113]); (1034, [1114]); (1035, [1115]); (1036, [1116]);
   (1037, [1117]); (1038, [1118]); (1039, [1119]); (1040, [1072]);
   (1041, [1073]); (1042, [1074]); (1043, [1075]); (1044, [1076]);
   (1045, [1077]); (1046, [1078]); (1047, [1079]); (1048, [1080]);
   (1049, [1081]); (1050, [1082]); (1051, [1083]); (1052, [1084]);
   (1053, [1085]); (1054, [1086]); (1055, [1087]); (1056, [1088]);
   (1057, [1089]); (1058, [1090]); (1059, [1091]); (1060, [1092]);
   (1061, [1093]); (1062, [1094]); (1063, [1095]); (1064, [1096]);
   (1065, [1097]); (1066, [1098]); (1067, [1099]); (1068, [1100]);
   (1069, [1101]); (1070, [1102]); (1071, [1103]); (1120, [1121]);
   (1122, [1123]); (1124, [1125]); (1126, [1127]); (1128, [1129]);
   (1130, [1131]); (1132, [1133]); (1134, [1135]); (1136, [1137]);
   (1138, [1139]); (1140, [1141]); (1142, [1143]); (1144, [1145]);
   (1146, [1147]); (1148, [1149]); (1150, [1151]); (1152, [1153]);
   (1162, [1163]); (1164, [1165]); (1166, [1167]); (1168, [1169]);
   (1170, [1171]); (1172, [1173]); (1174, [1175]); (1176, [1177]);
   (1178, [1179]); (1180, [1181]); (1182, [1183]); (1184, [1185]);
   (1186, [1187]); (1188, [1189]); (1190, [1191]); (1192, [1193]);
   (1194, [1195]); (1196, [1197]); (1198, [1199]); (1200, [1201]);
   (1202, [1203]); (1204, [1205]); (1206, [1207]); (1208, [1209]);
   (1210, [1211]); (1212, [1213]); (1214, [1215]); (1216, [1231]);
   (1217, [1218]); (1219, [1220]); (1221, [1222]); (1223, [1224]);
   (1225, [1226]); (1227, [1228]); (1229, [1230]); (1232, [1233]);
   (1234, [1235]); (1236, [1237]); (1238, [1239]); (1240, [1241]);
   (1242, [1243]); (1244, [1245]); (1246, [1247]); (1248, [1249]);
   (1250, [1251]); (1252, [1253]); (1254, [1255]); (1256, [1257]);
   (1258, [1259]); (1260, [1261]); (1262, [1263]); (1264, [1265]);
   (1266, [1267]); (1268, [1269]); (1270, [1271]); (1272, [1273]);
   (1274, [1275]); (1276, [1277]); (1278, [1279]); (1280, [1281]);
   (1282, [1283]); (1284, [1285]); (1286, [1287]); (1288, [1289]);
   (1290, [1291]); (1292, [1293]); (1294, [1295]); (1296, [1297]);
   (1298, [1299]); (1300, [1301]); (1302, [1303]); (1304, [1305]);
   (1306, [1307]); (1308, [1309]); (1310, [1311]); (1312, [1313]);
   (1314, [1315]); (1316, [1317]); (1318, [1319]); (1320, [1321]);
   (1322, [1323]); (1324, [1325]); (1326, [1327]); (1329, [1377]);
   (1330, [1378]); (1331, [1379]); (1332, [1380]); (1333, [1381]);
   (1334, [1382]); (1335, [1383]); (1336, [1384]); (1337, [1385]);
   (1338, [1386]); (1339, [1387]); (1340, [1388]); (1341, [1389]);
   (1342, [1390]); (1343, [1391]); (1344, [1392]); (1345, [1393]);
   (1346, [1394]); (1347, [1395]); (1348, [1396]); (1349, [1397]);
   (1350, [1398]); (1351, [1399]); (1352, [1400]); (1353, [1401]);
   (1354, [1402]); (1355, [1403]); (1356, [1404]); (1357, [1405]);
   (1358, [1406]); (1359, [1407]); (1360, [1408]); (1361, [1409]);
   (1362, [1410]); (1363, [1411]); (1364, [1412]); (1365, [1413]);
   (1366, [1414]); (1415, [1381; 1410]); (4256, [11520]); (4257, [11521]);
   (4258, [11522]); (4259, [11523]); (4260, [11524]); (4261, [11525]);
   (4262, [11526]); (4263, [11527]); (4264, [11528]); (4265, [11529]);
   (4266, [11530]); (4267, [11531]); (4268, [11532]); (4269, [11533]);
   (4270, [11534]); (4271, [11535]); (4272, [11536]); (4273, [11537]);
   (4274, [11538]); (4275, [11539]); (4276, [11540]); (4277, [11541]);
   (4278, [11542]); (4279, [11543]); (4280, [11544]); (4281, [11545]);
   (4282, [11546]); (4283, [11547]); (4284, [11548]); (4285, [11549]);
   (4286, [11550]); (4287, [11551]); (4288, [11552]); (4289, [11553]);
   (4290, [11554]); (4291, [11555]); (4292, [11556]); (4293, [11557]);
   (4295, [11559]); (4301, [11565]); (5112, [5104]); (5113, [5105]);
   (5114, [5106]); (5115, [5107]); (5116, [5108]); (5117, [5109]);
   (7296, [1074]); (7297, [1076]); (7298, [1086]); (7299, [1089]);
   (7300, [1090]); (7301, [1090]); (7302, [1098]); (7303, [1123]);
   (7304, [42571]); (7312, [4304]); (7313, [4305]); (7314, [4306]);
   (7315, [4307]); (7316, [4308]); (7317, [4309]); (7318, [4310]);
   (7319, [4311]); (7320, [4312]); (7321, [4313]); (7322, [4314]);
   (7323, [4315]); (7324, [4316]); (7325, [4317]); (7326, [4318]);
   (7327, [4319]); (7328, [4320]); (7329, [4321]); (7330, [4322]);
   (7331, [4323]); (7332, [4324]); (7333, [4325]); (7334, [4326]);
   (7335, [4327]); (7336, [4328]); (7337, [4329]); (7338, [4330]);
   (7339, [4331]); (7340, [4332]); (7341, [4333]); (7342, [4334]);
   (7343, [4335]); (7344, [4336]); (7345, [4337]); (7346, [4338]);
   (7347, [4339]); (7348, [4340]); (7349, [4341]); (7350, [4342]);
   (7351, [4343]); (7352, [4344]); (7353, [4345]); (7354, [4346]);
   (7357, [4349]); (7358, [4350]); (7359, [4351]); (7680, [7681]);
   (7682, [7683]); (7684, [7685]); (7686, [7687]); (7688, [7689]);
   (7690, [7691]); (7692, [7693]); (7694, [7695]); (7696, [7697]);
   (7698, [7699]); (7700, [7701]); (7702, [7703]); (7704, [7705]);
   (7706, [7707]); (7708, [7709]); (7710, [7711]); (7712, [7713]);
   (7714, [7715]); (7716, [7717]); (7718, [7719]); (7720, [7721]);
   (7722, [7723]); (7724, [7725]); (7726, [7727]); (7728, [7729]);
   (7730, [7731]); (7732, [7733]); (7734, [7735]); (7736, [7737]);
   (7738, [7739]); (7740, [7741]); (7742, [7743]); (7744, [7745]);
   (7746, [7747]); (7748, [7749]); (7750, [7751]); (7752, [7753]);
   (7754, [7755]); (7756, [7757]); (7758, [7759]); (7760, [7761]);
   (7762, [7763]); (7764, [7765]); (7766, [7767]); (7768, [7769]);
   (7770, [7771]); (7772, [7773]); (7774, [7775]); (7776, [7777]);
   (7778, [7779]); (7780, [7781]); (7782, [7783]); (7784, [7785]);
   (7786, [7787]); (7788, [7789]); (7790, [7791]); (7792, [7793]);
   (7794, [7795]); (7796, [7797]); (7798, [7799]); (7800, [7801]);
   (7802, [7803]); (7804, [7805]); (7806, [7807]); (7808, [7809]);
   (7810, [7811]); (7812, [7813]); (7814, [7815]); (7816, [7817]);
   (7818, [7819]); (7820, [7821]); (7822, [7823]); (7824, [7825]);
   (7826, [7827]); (7828, [7829]); (7830, [104; 817]); (7831, [116; 776]);
   (7832, [119; 778]); (7833, [121; 778]); (7834, [97; 702]); (7835, [7777]);
   (7838, [115; 115]); (7840, [7841]); (7842, [7843]); (7844, [7845]);
   (7846, [7847]); (7848, [7849]); (7850, [7851]); (7852, [7853]);
   (7854, [7855]); (7856, [7857]); (7858, [7859]); (7860, [7861]);
   (7862, [7863]); (7864, [7865]); (7866, [7867]); (7868, [7869]);
   (7870, [7871]); (7872, [7873]); (7874, [7875]); (7876, [7877]);
   (7878, [7879]); (7880, [7881]); (7882, [7883]); (7884, [7885]);
   (7886, [7887]); (7888, [7889]); (7890, [7891]); (7892, [7893]);
   (7894, [7895]); (7896, [7897]); (7898, [7899]); (7900, [7901]);
   (7902, [7903]); (7904, [7905]); (7906, [7907]); (7908, [7909]);
   (7910, [7911]); (7912, [7913]); (7914, [7915]); (7916, [7917]);
   (7918, [7919]); (7920, [7921]); (7922, [7923]); (7924, [7925]);
   (7926, [7927]); (7928, [7929]); (7930, [7931]); (7932, [7933]);
   (7934, [7935]); (7944, [7936]); (7945, [7937]); (7946, [7938]);
   (7947, [7939]); (7948, [7940]); (7949, [7941]); (7950, [7942]);
   (7951, [7943]); (7960, [7952]); (7961, [7953]); (7962, [7954]);
   (7963, [7955]); (7964, [7956]); (7965, [7957]); (7976, [7968]);
   (7977, [7969]); (7978, [7970]); (7979, [7971]); (7980, [7972]);
   (7981, [7973]); (7982, [7974]); (7983, [7975]); (7992, [7984]);
   (7993, [7985]); (7994, [7986]); (7995, [7987]); (7996, [7988]);
   (7997, [7989]); (7998, [7990]); (7999, [7991]); (8008, [8000]);
   (8009, [8001]); (8010, [8002]); (8011, [8003]); (8012, [8004]);
   (8013, [8005]); (8016, [965; 787]); (8018, [965; 787; 768]);
   (8020, [965; 787; 769]); (8022, [965; 787; 834]); (8025, [8017]);
   (8027, [8019]); (8029, [8021]); (8031, [8023]); (8040, [8032]);
   (8041, [8033]); (8042, [8034]); (8043, [8035]); (8044, [8036]);
   (8045, [8037]); (8046, [8038]); (8047, [8039]); (8064, [7936; 953]);
   (8065, [7937; 953]); (8066, [7938; 953]); (8067, [7939; 953]);
   (8068, [7940; 953]); (8069, [7941; 953]); (8070, [7942; 953]);
   (8071, [7943; 953]); (8072, [7936; 953]); (8073, [7937; 953]);
   (8074, [7938; 953]); (8075, [7939; 953]); (8076, [7940; 953]);
   (8077, [7941; 953]); (8078, [7942; 953]); (8079, [7943; 953]);
   (8080, [7968; 953]); (8081, [7969; 953]); (8082, [7970; 953]);
   (8083, [7971; 953]); (8084, [7972; 953]); (8085, [7973; 953]);
   (8086, [7974; 953]); (8087, [7975; 953]); (8088, [7968; 953]);
   (8089, [7969; 953]); (8090, [7970; 953]); (8091, [7971; 953]);
   (8092, [7972; 953]); (8093, [7973; 953]); (8094, [7974; 953]);
   (8095, [7975; 953]); (8096, [8032; 953]); (8097, [8033; 953]);
   (8098, [8034; 953]); (8099, [8035; 953]); (8100, [8036; 953]);
   (8101, [8037; 953]); (8102, [8038; 953]); (8103, [8039; 953]);
   (8104, [8032; 953]); (8105, [8033; 953]); (8106, [8034; 953]);
   (8107, [8035; 953]); (8108, [8036; 953]); (8109, [8037; 953]);
   (8110, [8038; 953]); (8111, [8039; 953]); (8114, [8048; 953]);
   (8115, [945; 953]); (8116, [940; 953]); (8118, [945; 834]);
   (8119, [945; 834; 953]); (8120, [8112]); (8121, [8113]); (8122, [8048]);
   (8123, [8049]); (8124, [945; 953]); (8126, [953]); (8130, [8052; 953]);
   (8131, [951; 953]); (8132, [942; 953]); (8134, [951; 834]);
   (8135, [951; 834; 953]); (8136, [8050]); (8137, [8051]); (8138, [8052]);
   (8139, [8053]); (8140, [951; 953]); (8146, [953; 776; 768]);
   (8147, [953; 776; 769]); (8150, [953; 834]); (8151, [953; 776; 834]);
   (8152, [8144]); (8153, [8145]); (8154, [8054]); (8155, [8055]);
   (8162, [965; 776; 768]); (8163, [965; 776; 769]); (8164, [961; 787]);
   (8166, [965; 834]); (8167, [965; 776; 834]); (8168, [8160]);
   (8169, [8161]); (8170, [8058]); (8171, [8059]); (8172, [8165]);
   (8178, [8060; 953]); (8179, [969; 953]); (8180, [974; 953]);
   (8182, [969; 834]); (8183, [969; 834; 953]); (8184, [8056]);
   (8185, [8057]); (8186, [8060]); (8187, [8061]); (8188, [969; 953]);
   (8486, [969]); (8490, [107]); (8491, [229]); (8498, [8526]);
   (8544, [8560]); (8545, [8561]); (8546, [8562]); (8547, [8563]);
   (8548, [8564]); (8549, [8565]); (8550, [8566]); (8551, [8567]);
   (8552, [8568]); (8553, [8569]); (8554, [8570]); (8555, [8571]);
   (8556, [8572]); (8557, [8573]); (8558, [8574]); (8559, [8575]);
   (8579, [8580]); (9398, [9424]); (9399, [9425]); (9400, [9426]);
   (9401, [9427]); (9402, [9428]); (9403, [9429]); (9404, [9430]);
   (9405, [9431]); (9406, [9432]); (9407, [9433]); (9408, [9434]);
   (9409, [9435]); (9410, [9436]); (9411, [9437]); (9412, [9438]);
   (9413, [9439]); (9414, [9440]); (9415, [9441]); (9416, [9442]);
   (9417, [9443]); (9418, [9444]); (9419, [9445]); (9420, [9446]);
   (9421, [9447]); (9422, [9448]); (9423, [9449]); (11264, [11312]);
   (11265, [11313]); (11266, [11314]); (11267, [11315]); (11268, [11316]);
   (11269, [11317]); (11270, [11318]); (11271, [11319]); (11272, [11320]);
   (11273, [11321]); (11274, [11322]); (11275, [11323]); (11276, [11324]);
   (11277, [11325]); (11278, [11326]); (11279, [11327]); (11280, [11328]);
   (11281, [11329]); (11282, [11330]); (11283, [11331]); (11284, [11332]);
   (11285, [11333]); (11286, [11334]); (11287, [11335]); (11288, [11336]);
   (11289, [11337]); (11290, [11338]); (11291, [11339]); (11292, [11340]);
   (11293, [11341]); (11294, [11342]); (11295, [11343]); (11296, [11344]);
   (11297, [11345]); (11298, [11346]); (11299, [11347]); (11300, [11348]);
   (11301, [11349]); (11302, [11350]); (11303, [11351]); (11304, [11352]);
   (11305, [11353]); (11306, [11354]); (11307, [11355]); (11308, [11356]);
   (11309, [11357]); (11310, [11358]); (11311, [11359]); (11360, [11361]);
   (11362, [619]); (11363, [7549]); (11364, [637]); (11367, [11368]);
   (11369, [11370]); (11371, [11372]); (11373, [593]); (11374, [625]);
   (11375, [592]); (11376, [594]); (11378, [11379]); (11381, [11382]);
   (11390, [575]); (11391, [576]); (11392, [11393]); (11394, [11395]);
   (11396, [11397]); (11398, [11399]); (11400, [11401]); (11402, [11403]);
   (11404, [11405]); (11406, [11407]); (11408, [11409]); (11410, [11411]);
   (11412, [11413]); (11414, [11415]); (11416, [11417]); (11418, [11419]);
   (11420, [11421]); (11422, [11423]); (11424, [11425]); (11426, [11427]);
   (11428, [11429]); (11430, [11431]); (11432, [11433]); (11434, [11435]);
   (11436, [11437]); (11438, [11439]); (11440, [11441]); (11442, [11443]);
   (11444, [11445]); (11446, [11447]); (11448, [11449]); (11450, [11451]);
   (11452, [11453]); (11454, [11455]); (11456, [11457]); (11458, [11459]);
   (11460, [11461]); (11462, [11463]); (11464, [11465]); (11466, [11467]);
   (11468, [11469]); (11470, [11471]); (11472, [11473]); (11474, [11475]);
   (11476, [11477]); (11478, [11479]); (11480, [11481]); (11482, [11483]);
   (11484, [11485]); (11486, [11487]); (11488, [11489]); (11490, [11491]);
   (11499, [11500]); (11501, [11502]); (11506, [11507]); (42560, [42561]);
   (42562, [42563]); (42564, [42565]); (42566, [42567]); (42568, [42569]);
   (42570, [42571]); (42572, [42573]); (42574, [42575]); (42576, [42577]);
   (42578, [42579]); (42580, [42581]); (42582, [42583]); (42584, [42585]);
   (42586, [42587]); (42588, [42589]); (42590, [42591]); (42592, [42593]);
   (42594, [42595]); (42596, [42597]); (42598, [42599]); (42600, [42601]);
   (42602, [42603]); (42604, [42605]); (42624, [42625]); (42626, [42627]);
   (42628, [42629]); (42630, [42631]); (42632, [42633]); (42634, [42635]);
   (42636, [42637]); (42638, [42639]); (42640, [42641]); (42642, [42643]);
   (42644, [42645]); (42646, [42647]); (42648, [42649]); (42650, [42651]);
   (42786, [42787]); (42788, [42789]); (42790, [42791]); (42792, [42793]);
   (42794, [42795]); (42796, [42797]); (42798, [42799]); (42802, [42803]);
   (42804, [42805]); (42806, [42807]); (42808, [42809]); (42810, [42811]);
   (42812, [42813]); (42814, [42815]); (42816, [42817]); (42818, [42819]);
   (42820, [42821]); (42822, [42823]); (42824, [42825]); (42826, [42827]);
   (42828, [42829]); (42830, [42831]); (42832, [42833]); (42834, [42835]);
   (42836, [42837]); (42838, [42839]); (42840, [42841]); (42842, [42843]);
   (42844, [42845]); (42846, [42847]); (42848, [42849]); (42850, [42851]);
   (42852, [42853]); (42854, [42855]); (42856, [42857]); (42858, [42859]);
   (42860, [42861]); (42862, [42863]); (42873, [42874]); (42875, [42876]);
   (42877, [7545]); (42878, [42879]); (42880, [42881]); (42882, [42883]);
   (42884, [42885]); (42886, [42887]); (42891, [42892]); (42893, [613]);
   (42896, [42897]); (42898, [42899]); (42902, [42903]); (42904, [42905]);
   (42906, [42907]); (42908, [42909]); (42910, [42911]); (42912, [42913]);
   (42914, [42915]); (42916, [42917]); (42918, [42919]); (42920, [42921]);
   (42922, [614]); (42923, [604]); (42924, [609]); (42925, [620]);
   (42926, [618]); (42928, [670]); (42929, [647]); (42930, [669]);
   (42931, [43859]); (42932, [42933]); (42934, [42935]); (42936, [42937]);
   (42938, [42939]); (42940, [42941]); (42942, [42943]); (42944, [42945]);
   (42946, [42947]); (42948, [42900]); (42949, [642]); (42950, [7566]);
   (42951, [42952]); (42953, [42954]); (42960, [42961]); (42966, [42967]);
   (42968, [42969]); (42997, [42998]); (43888, [5024]); (43889, [5025]);
   (43890, [5026]); (43891, [5027]); (43892, [5028]); (43893, [5029]);
   (43894, [5030]); (43895, [5031]); (43896, [5032]); (43897, [5033]);
   (43898, [5034]); (43899, [5035]); (43900, [5036]); (43901, [5037]);
   (43902, [5038]); (43903, [5039]); (43904, [5040]); (43905, [5041]);
   (43906, [5042]); (43907, [5043]); (43908, [5044]); (43909, [5045]);
   (43910, [5046]); (43911, [5047]); (43912, [5048]); (43913, [5049]);
   (43914, [5050]); (43915, [5051]); (43916, [5052]); (43917, [5053]);
   (43918, [5054]); (43919, [5055]); (43920, [5056]); (43921, [5057]);
   (43922, [5058]); (43923, [5059]); (43924, [5060]); (43925, [5061]);
   (43926, [5062]); (43927, [5063]); (43928, [5064]); (43929, [5065]);
   (43930, [5066]); (43931, [5067]); (43932, [5068]); (43933, [5069]);
   (43934, [5070]); (43935, [5071]); (43936, [5072]); (43937, [5073]);
   (43938, [5074]); (43939, [5075]); (43940, [5076]); (43941, [5077]);
   (43942, [5078]); (43943, [5079]); (43944, [5080]); (43945, [5081]);
   (43946, [5082]); (43947, [5083]); (43948, [5084]); (43949, [5085]);
   (43950, [5086]); (43951, [5087]); (43952, [5088]); (43953, [5089]);
   (43954, [5090]); (43955, [5091]); (43956, [5092]); (43957, [5093]);
   (43958, [5094]); (43959, [5095]); (43960, [5096]); (43961, [5097]);
   (43962, [5098]); (43963, [5099]); (43964, [5100]); (43965, [5101]);
   (43966, [5102]); (43967, [5103]); (64256, [102; 102]);
   (64257, [102; 105]); (64258, [102; 108]); (64259, [102; 102; 105]);
   (64260, [102; 102; 108]); (64261, [115; 116]); (64262, [115; 116]);
   (64275, [1396; 1398]); (64276, [1396; 1381]); (64277, [1396; 1387]);
   (64278, [1406; 1398]); (64279, [1396; 1389]); (65313, [65345]);
   (65314, [65346]); (65315, [65347]); (65316, [65348]); (65317, [65349]);
   (65318, [65350]); (65319, [65351]); (65320, [65352]); (65321, [65353]);
   (65322, [65354]); (65323, [65355]); (65324, [65356]); (65325, [65357]);
   (65326, [65358]); (65327, [65359]); (65328, [65360]); (65329, [65361]);
   (65330, [65362]); (65331, [65363]); (65332, [65364]); (65333, [65365]);
   (65334, [65366]); (65335, [65367]); (65336, [65368]); (65337, [65369]);
   (65338, [65370]); (66560, [66600]); (66561, [66601]); (66562, [66602]);
   (66563, [66603]); (66564, [66604]); (66565, [66605]); (66566, [66606]);
   (66567, [66607]); (66568, [66608]); (66569, [66609]); (66570, [66610]);
   (66571, [66611]); (66572, [66612]); (66573, [66613]); (66574, [66614]);
   (66575, [66615]); (66576, [66616]); (66577, [66617]); (66578, [66618]);
   (66579, [66619]); (66580, [66620]); (66581, [66621]); (66582, [66622]);
   (66583, [66623]); (66584, [66624]); (66585, [66625]); (66586, [66626]);
   (66587, [66627]); (66588, [66628]); (66589, [66629]); (66590, [66630]);
   (66591, [66631]); (66592, [66632]); (66593, [66633]); (66594, [66634]);
   (66595, [66635]); (66596, [66636]); (66597, [66637]); (66598, [66638]);
   (66599, [66639]); (66736, [66776]); (66737, [66777]); (66738, [66778]);
   (66739, [66779]); (66740, [66780]); (66741, [66781]); (66742, [66782]);
   (66743, [66783]); (66744, [66784]); (66745, [66785]); (66746, [66786]);
   (66747, [66787]); (66748, [66788]); (66749, [66789]); (66750, [66790]);
   (66751, [66791]); (66752, [66792]); (66753, [66793]); (66754, [66794]);
   (66755, [66795]); (66756, [66796]); (66757, [66797]); (66758, [66798]);
   (66759, [66799]); (66760, [66800]); (66761, [66801]); (66762, [66802]);
   (66763, [66803]); (66764, [66804]); (66765, [66805]); (66766, [66806]);
   (66767, [66807]); (66768, [66808]); (66769, [66809]); (66770, [66810]);
   (66771, [66811]); (66928, [66967]); (66929, [66968]); (66930, [66969]);
   (66931, [66970]); (66932, [66971]); (66933, [66972]); (66934, [66973]);
   (66935, [66974]); (66936, [66975]); (66937, [66976]); (66938, [66977]);
   (66940, [66979]); (66941, [66980]); (66942, [66981]); (66943, [66982]);
   (66944, [66983]); (66945, [66984]); (66946, [66985]); (66947, [66986]);
   (66948, [66987]); (66949, [66988]); (66950, [66989]); (66951, [66990]);
   (66952, [66991]); (66953, [66992]); (66954, [66993]); (66956, [66995]);
   (66957, [66996]); (66958, [66997]); (66959, [66998]); (66960, [66999]);
   (66961, [67000]); (66962, [67001]); (66964, [67003]); (66965, [67004]);
   (68736, [68800]); (68737, [68801]); (68738, [68802]); (68739, [68803]);
   (68740, [68804]); (68741, [68805]); (68742, [68806]); (68743, [68807]);
   (68744, [68808]); (68745, [68809]); (68746, [68810]); (68747, [68811]);
   (68748, [68812]); (68749, [68813]); (68750, [68814]); (68751, [68815]);
   (68752, [68816]); (68753, [68817]); (68754, [68818]); (68755, [68819]);
   (68756, [68820]); (68757, [68821]); (68758, [68822]); (68759, [68823]);
   (68760, [68824]); (68761, [68825]); (68762, [68826]); (68763, [68827]);
   (68764, [68828]); (68765, [68829]); (68766, [68830]); (68767, [68831]);
   (68768, [68832]); (68769, [68833]); (68770, [68834]); (68771, [68835]);
   (68772, [68836]); (68773, [68837]); (68774, [68838]); (68775, [68839]);
   (68776, [68840]); (68777, [68841]); (68778, [68842]); (68779, [68843]);
   (68780, [68844]); (68781, [68845]); (68782, [68846]); (68783, [68847]);
   (68784, [68848]); (68785, [68849]); (68786, [68850]); (71840, [71872]);
   (71841, [71873]); (71842, [71874]); (71843, [71875]); (71844, [71876]);
   (71845, [71877]); (71846, [71878]); (71847, [71879]); (71848, [71880]);
   (71849, [71881]); (71850, [71882]); (71851, [71883]); (71852, [71884]);
   (71853, [71885]); (71854, [71886]); (71855, [71887]); (71856, [71888]);
   (71857, [71889]); (71858, [71890]); (71859, [71891]); (71860, [71892]);
   (71861, [71893]); (71862, [71894]); (71863, [71895]); (71864, [71896]);
   (71865, [71897]); (71866, [71898]); (71867, [71899]); (71868, [71900]);
   (71869, [71901]); (71870, [71902]); (71871, [71903]); (93760, [93792]);
   (93761, [93793]); (93762, [93794]); (93763, [93795]); (93764, [93796]);
   (93765, [93797]); (93766, [93798]); (93767, [93799]); (93768, [93800]);
   (93769, [93801]); (93770, [93802]); (93771, [93803]); (93772, [93804]);
   (93773, [93805]); (93774, [93806]); (93775, [93807]); (93776, [93808]);
   (93777, [93809]); (93778, [93810]); (93779, [93811]); (93780, [93812]);
   (93781, [93813]); (93782, [93814]); (93783, [93815]); (93784, [93816]);
   (93785, [93817]); (93786, [93818]); (93787, [93819]); (93788, [93820]);
   (93789, [93821]); (93790, [93822]); (93791, [93823]); (125184, [125218]);
   (125185, [125219]); (125186, [125220]); (125187, [125221]);
   (125188, [125222]); (125189, [125223]); (125190, [125224]);
   (125191, [125225]); (125192, [125226]); (125193, [125227]);
   (125194, [125228]); (125195, [125229]); (125196, [125230]);
   (125197, [125231]); (125198, [125232]); (125199, [125233]);
   (125200, [125234]); (125201, [125235]); (125202, [125236]);
   (125203, [125237]); (125204, [125238]); (125205, [125239]);
   (125206, [125240]); (125207, [125241]); (125208, [125242]);
   (125209, [125243]); (125210, [125244]); (125211, [125245]);
   (125212, [125246]); (125213, [125247]); (125214, [125248]);
   (125215, [125249]); (125216, [125250]); (125217, [125251])
  ].

Definition casefold_char (c : Z) : string :=
  match lookup c casefold_table with
  | Some out => of_list out
  | None => String c EmptyString
  end.

Fixpoint casefold (s : string) : string :=
  match s with
  | EmptyString => EmptyString
  | String c s' => casefold_char c ++ casefold s'
  end.

(** ** Properties of the tables, as boolean tests *)

(** [str.lower] leaves the character as it is, in every context. *)
Definition fixed (x : Z) : bool :=
  negb (x =? sigma)
  && match lookup x lower_table with
     | None => true
     | Some _ => false
     end.

Definition not_space (x : Z) : bool := negb (isspace x).

(** An entry of the lower-case table puts characters that [str.lower]
    leaves as they are, none of them whitespace, and that leave the
    context of a sigma as the character itself does; their case
    folding is that of the character. *)
Definition entry_ok (kv : Z * list Z) : bool :=
  match snd kv with
  | [] => false
  | _ :: _ => true
  end
  && forallb fixed (snd kv)
  && forallb not_space (snd kv)
  && Bool.eqb (fold_left next_state (snd kv) true) (next_state true (fst kv))
  && Bool.eqb (fold_left next_state (snd kv) false) (next_state false (fst kv)).

Definition entry_folds (kv : Z * list Z) : bool :=
  String.eqb (casefold (of_list (snd kv))) (casefold_char (fst kv)).

Definition space_ok (c : Z) : bool :=
  fixed c && negb (case_ignorable c) && negb (cased c).

(** * Properties *)

(** ** Strings *)

Lemma string_eqb_eq (s t : string) : String.eqb s t = true <-> s = t.
Proof.
  revert t. induction s as [|c s IH]; intros [|d t]; simpl; try easy.
  rewrite andb_true_iff, Z.eqb_eq, IH.
  split; [intros [-> ->]; reflexivity | intros [= -> ->]; auto].
Qed.

Lemma string_eqb_refl (s : string) : String.eqb s s = true.
Proof. now apply string_eqb_eq. Qed.

Lemma string_eqb_spec (s t : string) : reflect (s = t) (String.eqb s t).
Proof. apply iff_reflect. symmetry. apply string_eqb_eq. Qed.

Lemma string_eqb_sym (s t : string) : String.eqb s t = String.eqb t s.
Proof.
  destruct (string_eqb_spec s t) as [->|E]; [now rewrite string_eqb_refl|].
  destruct (string_eqb_spec t s); congruence.
Qed.

Lemma string_eq_dec (s t : string) : {s = t} + {s <> t}.
Proof. destruct (string_eqb_spec s t); [now left | now right]. Defined.

Lemma of_list_to_list (s : string) : of_list (to_list s) = s.
Proof. induction s as [|c s IH]; simpl; [reflexivity | now rewrite IH]. Qed.

Lemma append_empty_r (s : string) : s ++ "" = s.
Proof. induction s as [|c s IH]; simpl; [reflexivity | now rewrite IH]. Qed.

Lemma append_assoc (a b c : string) : (a ++ b) ++ c = a ++ b ++ c.
Proof. induction a as [|x a IH]; simpl; [reflexivity | now rewrite IH]. Qed.

Lemma lstrip_split (s : string) :
  exists l, s = l ++ lstrip s /\ all_space l = true
            /\ no_space_at (first_char (lstrip s)).
Proof.
  induction s as [|c s (l & Hs & Hl & Hf)]; simpl.
  - exists ""; repeat split.
  - destruct (isspace c) eqn:Hc.
    + exists (String c l); simpl. rewrite Hc, Hl. repeat split; trivial.
      now rewrite <- Hs.
    + exists ""; simpl. repeat split; trivial.
Qed.

Lemma rstrip_split (s : string) :
  exists r, s = rstrip s ++ r /\ all_space r = true
            /\ no_space_at (last_char (rstrip s)).
Proof.
  induction s as [|c s (r & Hs & Hr & Hl)]; simpl.
  - exists ""; repeat split.
  - destruct (rstrip s) as [|d t] eqn:Ht.
    + simpl in Hs. destruct (isspace c) eqn:Hc.
      * exists (String c r); simpl. rewrite Hc, Hr, <- Hs. repeat split.
      * exists r; simpl. subst s. repeat split; trivial.
    + exists r. simpl. rewrite Hs at 1. repeat split; trivial.
Qed.

Lemma rstrip_first (s : string) :
  no_space_at (first_char s) -> no_space_at (first_char (rstrip s)).
Proof.
  destruct s as [|c s]; simpl; trivial.
  intros Hc. destruct (rstrip s); [rewrite Hc|]; simpl; trivial.
Qed.

Lemma strip_stripped (s : string) : stripped s (strip s).
Proof.
  unfold strip.
  destruct (lstrip_split s) as (l & Hs & Hl & Hf).
  destruct (rstrip_split (lstrip s)) as (r & Ht & Hr & Hlast).
  exists l, r. repeat split; trivial.
  - now rewrite <- Ht.
  - now apply rstrip_first.
Qed.

Lemma lstrip_all_space (l s : string) :
  all_space l = true -> lstrip (l ++ s) = lstrip s.
Proof.
  induction l as [|c l IH]; simpl; trivial.
  intros H. apply andb_prop in H as [Hc Hl]. rewrite Hc. auto.
Qed.

Lemma rstrip_all_space (r : string) : all_space r = true -> rstrip r = "".
Proof.
  induction r as [|c r IH]; simpl; trivial.
  intros H. apply andb_prop in H as [Hc Hr]. now rewrite (IH Hr), Hc.
Qed.

Lemma rstrip_append_space (t r : string) :
  all_space r = true -> rstrip (t ++ r) = rstrip t.
Proof.
  intros Hr. induction t as [|c t IH]; simpl.
  - now apply rstrip_all_space.
  - now rewrite IH.
Qed.

Lemma rstrip_fixed (t : string) :
  no_space_at (last_char t) -> rstrip t = t.
Proof.
  induction t as [|c t IH]; simpl; trivial.
  destruct t as [|d t].
  - simpl. intros Hc. now rewrite Hc.
  - intros H. rewrite (IH H). reflexivity.
Qed.

Lemma lstrip_fixed (t : string) :
  no_space_at (first_char t) -> lstrip t = t.
Proof.
  destruct t as [|c t]; simpl; trivial. intros Hc. now rewrite Hc.
Qed.

Lemma stripped_strip (s t : string) : stripped s t -> t = strip s.
Proof.
  intros (l & r & Hs & Hl & Hr & Hf & Hlast). subst s. unfold strip.
  rewrite (lstrip_all_space _ _ Hl).
  destruct t as [|c t].
  - simpl. rewrite <- (append_empty_r r), (lstrip_all_space _ _ Hr). reflexivity.
  - rewrite (lstrip_fixed (String c t ++ r)) by exact Hf.
    rewrite (rstrip_append_space _ _ Hr). symmetry. now apply rstrip_fixed.
Qed.

(** [isspace] answers for exactly the whitespace characters. *)
Lemma isspace_whitespace (c : Z) : isspace c = true <-> In c whitespace.
Proof.
  unfold isspace, whitespace. cbn [In].
  rewrite !orb_true_iff, !andb_true_iff, !Z.leb_le, !Z.eqb_eq. lia.
Qed.

Lemma isspace_not_whitespace (c : Z) : isspace c = false <-> ~ In c whitespace.
Proof.
  rewrite <- isspace_whitespace. destruct (isspace c); split; congruence.
Qed.

Lemma all_space_whitespace (s : string) : all_space s = true <-> all_whitespace s.
Proof.
  induction s as [|c s IH]; simpl; [easy|].
  now rewrite andb_true_iff, isspace_whitespace, IH.
Qed.

Lemma no_space_not_whitespace (o : option Z) : no_space_at o <-> not_whitespace o.
Proof. destruct o as [c|]; simpl; [apply isspace_not_whitespace | easy]. Qed.

Lemma trimmed_stripped (s t : string) : trimmed s t <-> stripped s t.
Proof.
  unfold trimmed, stripped. split; intros (l & r & Hs & Hl & Hr & Hf & Hlast);
    exists l, r; (split; [exact Hs|]).
  - now rewrite !all_space_whitespace, !no_space_not_whitespace.
  - now rewrite <- !all_space_whitespace, <- !no_space_not_whitespace.
Qed.

(** [strip] gives the trimmed string, and nothing else is. *)
Lemma strip_trimmed (s : string) : trimmed s (strip s).
Proof. apply trimmed_stripped, strip_stripped. Qed.

Lemma trimmed_strip (s t : string) : trimmed s t -> t = strip s.
Proof. intros H. now apply stripped_strip, trimmed_stripped. Qed.

Lemma remove_commas_none (s : string) :
  contains_char comma (remove_commas s) = false.
Proof.
  induction s as [|c s IH]; cbn [remove_commas contains_char]; trivial.
  destruct (c =? comma) eqn:Hc; cbn [contains_char]; trivial.
  rewrite Z.eqb_sym, Hc. exact IH.
Qed.

Lemma remove_commas_filter (s : string) :
  to_list (remove_commas s)
  = filter (fun c => negb (c =? comma)) (to_list s).
Proof.
  induction s as [|c s IH]; simpl; trivial.
  destruct (c =? comma); simpl; now rewrite IH.
Qed.

Lemma contains_char_append (c : Z) (a b : string) :
  contains_char c (a ++ b) = contains_char c a || contains_char c b.
Proof.
  induction a as [|x a IH]; simpl; [reflexivity|].
  now rewrite IH, orb_assoc.
Qed.

(** ** Lower case *)

Lemma lower_table_ok : forallb entry_ok lower_table = true.
Proof. vm_compute. reflexivity. Qed.

Lemma lower_table_folds : forallb entry_folds lower_table = true.
Proof. vm_compute. reflexivity. Qed.

Lemma whitespace_ok : forallb space_ok whitespace = true.
Proof. vm_compute. reflexivity. Qed.

Lemma lookup_In (c : Z) (table : list (Z * list Z)) (v : list Z) :
  lookup c table = Some v -> In (c, v) table.
Proof.
  induction table as [|[k w] table IH]; simpl; [discriminate|].
  destruct (Z.eqb_spec c k) as [->|_]; [intros [= ->]; now left | right; auto].
Qed.

Lemma isspace_facts (c : Z) :
  isspace c = true ->
  fixed c = true /\ case_ignorable c = false /\ cased c = false.
Proof.
  intros H. apply isspace_whitespace in H.
  pose proof (proj1 (forallb_forall _ _) whitespace_ok c H) as E.
  unfold space_ok in E.
  apply andb_prop in E as [E E3]. apply andb_prop in E as [E1 E2].
  apply negb_true_iff in E2, E3. auto.
Qed.

Lemma lower_at_fixed (before : bool) (x : Z) (rest : string) :
  fixed x = true -> lower_at before x rest = String x "".
Proof.
  unfold fixed, lower_at, lower_char. intros H.
  apply andb_prop in H as [H1 H2]. apply negb_true_iff in H1. rewrite H1.
  now destruct (lookup x lower_table).
Qed.

Lemma lower_from_fixed (before : bool) (out : list Z) (t : string) :
  forallb fixed out = true ->
  lower_from before (of_list out ++ t)
  = of_list out ++ lower_from (fold_left next_state out before) t.
Proof.
  revert before. induction out as [|x out IH]; intros before H; [reflexivity|].
  cbn [forallb] in H. apply andb_prop in H as [Hx Hout].
  cbn [of_list String.append lower_from fold_left].
  rewrite (lower_at_fixed _ _ _ Hx), (IH _ Hout). reflexivity.
Qed.

(** What [str.lower] puts for a character. *)
Lemma lower_at_out (before : bool) (c : Z) (rest : string) :
  exists out,
    lower_at before c rest = of_list out
    /\ out <> []
    /\ forallb fixed out = true
    /\ fold_left next_state out before = next_state before c
    /\ (isspace c = false -> forallb not_space out = true)
    /\ casefold (of_list out) = casefold_char c.
Proof.
  unfold lower_at. destruct (Z.eqb_spec c sigma) as [->|Hc].
  - destruct (before && final_after rest);
      [exists [final_sigma] | exists [small_sigma]];
      (split; [reflexivity|]); (split; [discriminate|]);
      destruct before; vm_compute; auto.
  - unfold lower_char. destruct (lookup c lower_table) as [v|] eqn:E.
    + exists v. split; [reflexivity|].
      apply lookup_In in E.
      pose proof (proj1 (forallb_forall _ _) lower_table_ok _ E) as H.
      pose proof (proj1 (forallb_forall _ _) lower_table_folds _ E) as F.
      unfold entry_ok, entry_folds in H, F. cbn [fst snd] in H, F.
      apply andb_prop in H as [H H5]. apply andb_prop in H as [H H4].
      apply andb_prop in H as [H H3]. apply andb_prop in H as [H1 H2].
      apply eqb_prop in H4, H5. apply string_eqb_eq in F.
      split; [now destruct v|]. split; [exact H2|].
      split; [now destruct before|]. split; [now intros _ | exact F].
    + exists [c]. split; [reflexivity|]. split; [discriminate|].
      split; [|split; [reflexivity|split]].
      * cbn [forallb]. unfold fixed. rewrite E.
        apply Z.eqb_neq in Hc. now rewrite Hc.
      * intros Hs. cbn [forallb]. unfold not_space. now rewrite Hs.
      * cbn [of_list casefold]. now rewrite append_empty_r.
Qed.

Lemma lower_from_idem (before : bool) (s : string) :
  lower_from before (lower_from before s) = lower_from before s.
Proof.
  revert before. induction s as [|c s IH]; intros before; [reflexivity|].
  cbn [lower_from].
  destruct (lower_at_out before c s) as (out & E & _ & Hf & Hs & _).
  rewrite E, (lower_from_fixed _ _ _ Hf), Hs, IH. reflexivity.
Qed.

Lemma lower_idem (s : string) : lower (lower s) = lower s.
Proof. apply lower_from_idem. Qed.

Lemma lower_from_space (before : bool) (r : string) :
  all_space r = true -> lower_from before r = r.
Proof.
  revert before. induction r as [|c r IH]; intros before H; [reflexivity|].
  cbn [all_space] in H. apply andb_prop in H as [Hc Hr].
  destruct (isspace_facts c Hc) as (Hf & _).
  cbn [lower_from]. rewrite (lower_at_fixed _ _ _ Hf), (IH _ Hr). reflexivity.
Qed.

Lemma final_after_space (x r : string) :
  all_space r = true -> final_after (x ++ r) = final_after x.
Proof.
  intros Hr. induction x as [|c x IH]; cbn [String.append final_after].
  - destruct r as [|w r]; [reflexivity|].
    cbn [all_space] in Hr. apply andb_prop in Hr as [Hw _].
    destruct (isspace_facts w Hw) as (_ & Hi & Hcased).
    cbn [final_after]. now rewrite Hi, Hcased.
  - now rewrite IH.
Qed.

Lemma lower_from_append_space (before : bool) (t r : string) :
  all_space r = true ->
  lower_from before (t ++ r) = lower_from before t ++ r.
Proof.
  intros Hr. revert before.
  induction t as [|c t IH]; intros before; cbn [String.append lower_from].
  - now apply lower_from_space.
  - rewrite IH, append_assoc. f_equal.
    unfold lower_at. now rewrite final_after_space.
Qed.

Lemma of_list_first (out : list Z) (t : string) :
  out <> [] -> forallb not_space out = true ->
  no_space_at (first_char (of_list out ++ t)).
Proof.
  destruct out as [|x out]; [easy|]. intros _ H. cbn [forallb] in H.
  apply andb_prop in H as [Hx _]. simpl. now apply negb_true_iff in Hx.
Qed.

Lemma of_list_last (out : list Z) :
  out <> [] -> forallb not_space out = true ->
  no_space_at (last_char (of_list out)).
Proof.
  induction out as [|x out IH]; [easy|]. intros _ H. cbn [forallb] in H.
  apply andb_prop in H as [Hx Hout].
  destruct out as [|y out]; [simpl; now apply negb_true_iff in Hx|].
  apply IH; [discriminate | exact Hout].
Qed.

Lemma last_char_append (a b : string) :
  b <> "" -> last_char (a ++ b) = last_char b.
Proof.
  intros Hb. induction a as [|x a IH]; [reflexivity|].
  cbn [String.append]. destruct (a ++ b) as [|y t] eqn:E.
  - destruct a; [simpl in E; contradiction | discriminate].
  - exact IH.
Qed.

Lemma lower_from_nonempty (before : bool) (c : Z) (s : string) :
  lower_from before (String c s) <> "".
Proof.
  cbn [lower_from].
  destruct (lower_at_out before c s) as (out & E & Hne & _).
  rewrite E. destruct out; [contradiction | discriminate].
Qed.

Lemma lower_from_last (before : bool) (t : string) :
  no_space_at (last_char t) -> no_space_at (last_char (lower_from before t)).
Proof.
  revert before. induction t as [|c t IH]; intros before; [easy|].
  destruct t as [|d t].
  - simpl last_char at 1. intros Hc. cbn [lower_from]. rewrite append_empty_r.
    destruct (lower_at_out before c "") as (out & E & Hne & _ & _ & Hs & _).
    rewrite E. apply of_list_last; auto.
  - intros H. change (last_char (String c (String d t)))
      with (last_char (String d t)) in H.
    change (lower_from before (String c (String d t)))
      with (lower_at before c (String d t)
            ++ lower_from (next_state before c) (String d t)).
    rewrite last_char_append by apply lower_from_nonempty.
    apply IH. exact H.
Qed.

Lemma lstrip_lower (s : string) : lstrip (lower s) = lower (lstrip s).
Proof.
  unfold lower. induction s as [|c s IH]; [reflexivity|].
  cbn [lower_from lstrip]. destruct (isspace c) eqn:Hc.
  - destruct (isspace_facts c Hc) as (Hf & Hi & Hcased).
    rewrite (lower_at_fixed _ _ _ Hf). cbn [String.append lstrip].
    rewrite Hc. unfold next_state. rewrite Hi, Hcased. exact IH.
  - destruct (lower_at_out false c s) as (out & E & Hne & _ & _ & Hs & _).
    cbn [lower_from]. rewrite E. apply lstrip_fixed, of_list_first; auto.
Qed.

Lemma rstrip_lower_from (before : bool) (s : string) :
  rstrip (lower_from before s) = lower_from before (rstrip s).
Proof.
  destruct (rstrip_split s) as (r & Hs & Hr & Hl).
  rewrite Hs at 1.
  rewrite (lower_from_append_space _ _ _ Hr), (rstrip_append_space _ _ Hr).
  now apply rstrip_fixed, lower_from_last.
Qed.

Lemma strip_lower (s : string) : strip (lower s) = lower (strip s).
Proof. unfold strip. rewrite lstrip_lower. apply rstrip_lower_from. Qed.

Lemma casefold_append (a b : string) :
  casefold (a ++ b) = casefold a ++ casefold b.
Proof.
  induction a as [|x a IH]; [reflexivity|].
  cbn [String.append casefold]. now rewrite IH, append_assoc.
Qed.

(** Putting a string in lower case changes nothing but the case. *)
Lemma casefold_lower_from (before : bool) (s : string) :
  casefold (lower_from before s) = casefold s.
Proof.
  revert before. induction s as [|c s IH]; intros before; [reflexivity|].
  cbn [lower_from casefold].
  destruct (lower_at_out before c s) as (out & E & _ & _ & _ & _ & F).
  now rewrite E, casefold_append, F, IH.
Qed.

(** ** Normalisers and comparator *)

(** The tolerance is the value of the literal [1e-6]. *)
Lemma eps_literal : py_float "1e-6" = Ok eps.
Proof. reflexivity. Qed.

Lemma float_of_int_literal :
  py_float "50000" = Ok (float_of_int 50000)
  /\ py_float "500.0" = Ok (float_of_int 500).
Proof. split; reflexivity. Qed.

Section ComparatorProperties.

Context {ext : Externals}.

Lemma clean_date_cases (val : value) :
  clean_date val = Ok VNone
  \/ (to_datetime (py_str val) = Ok None /\ clean_date val = Ok VNaT)
  \/ exists ts, to_datetime (py_str val) = Ok (Some ts)
                /\ clean_date val = Ok (VDate (ts_date ts)).
Proof.
  unfold clean_date. destruct (isna val); [now left|].
  destruct (to_datetime (py_str val)) as [[ts|]|e]; simpl.
  - right; right. now exists ts.
  - right; left. now split.
  - now left.
Qed.

Lemma clean_number_cases (val : value) :
  clean_number val = Ok VNone
  \/ exists f, py_float (strip (remove_commas (py_str val))) = Ok f
               /\ clean_number val = Ok (VFloat f).
Proof.
  unfold clean_number. destruct (isna val); [now left|].
  destruct (py_float _) as [f|e]; simpl.
  - right. now exists f.
  - now left.
Qed.

Lemma clean_date_total (val : value) : exists v, clean_date val = Ok v.
Proof.
  destruct (clean_date_cases val) as [H|[[_ H]|(ts & _ & H)]]; eauto.
Qed.

Lemma clean_number_total (val : value) : exists v, clean_number val = Ok v.
Proof.
  destruct (clean_number_cases val) as [H|(f & _ & H)]; eauto.
Qed.

Lemma normalize_total (col_type : string) (v : value) :
  exists v', normalize col_type v = Ok v'.
Proof.
  unfold normalize.
  destruct (String.eqb col_type "Date"); [apply clean_date_total|].
  destruct (String.eqb col_type "Number"); [apply clean_number_total|].
  eauto.
Qed.

Lemma normalize_missing (col_type : string) (v : value) :
  isna v = true -> exists v', normalize col_type v = Ok v' /\ isna v' = true.
Proof.
  intros Hv. unfold normalize, clean_date, clean_number. rewrite Hv.
  destruct (String.eqb col_type "Date"); [now exists VNone|].
  destruct (String.eqb col_type "Number"); [now exists VNone|].
  now exists v.
Qed.

Lemma compare_values_null_l (v1 v2 : value) (col_type : string) (fuzzy : bool) :
  isna v1 = true -> compare_values v1 v2 col_type fuzzy = Ok false.
Proof. intros H. unfold compare_values. now rewrite H. Qed.

Lemma compare_values_null_r (v1 v2 : value) (col_type : string) (fuzzy : bool) :
  isna v2 = true -> compare_values v1 v2 col_type fuzzy = Ok false.
Proof. intros H. unfold compare_values. now rewrite H, orb_true_r. Qed.

(** C2. A missing value never matches: whenever one of the two values is
    null ([None], [NaT] or [nan]), the other being null or not,
    [compare_values] returns [False] for every comparison type and
    fuzzy flag; a missing cell stays null through the normalisation of
    the inner loop, so the comparison of the normalised pair is [False]
    too. *)
Theorem compare_values_missing (v1 v2 : value) (col_type : string) (fuzzy : bool) :
  isna v1 = true \/ isna v2 = true ->
  compare_values v1 v2 col_type fuzzy = Ok false
  /\ (a <- normalize col_type v1 ;;
      b <- normalize col_type v2 ;;
      compare_values a b col_type fuzzy) = Ok false.
Proof.
  intros H. split.
  - destruct H as [H|H];
      [now apply compare_values_null_l | now apply compare_values_null_r].
  - destruct H as [H|H].
    + destruct (normalize_missing col_type v1 H) as (a & Ha & Hna).
      destruct (normalize_total col_type v2) as (b & Hb).
      rewrite Ha, Hb. simpl. now apply compare_values_null_l.
    + destruct (normalize_total col_type v1) as (a & Ha).
      destruct (normalize_missing col_type v2 H) as (b & Hb & Hnb).
      rewrite Ha, Hb. simpl. now apply compare_values_null_r.
Qed.

Lemma compare_dates_interior (d1 d2 : date) (fuzzy : bool) :
  min_ordinal < toordinal d2 < max_ordinal ->
  exists b,
    compare_values (VDate d1) (VDate d2) "Date" fuzzy = Ok b
    /\ (b = true <->
        toordinal d1 = toordinal d2
        \/ toordinal d1 = toordinal d2 + 1
        \/ toordinal d1 = toordinal d2 - 1).
Proof.
  destruct d1 as [o1], d2 as [o2]. unfold min_ordinal, max_ordinal. simpl.
  intros Hb.
  unfold compare_values, date_add_days, date_eqb, min_ordinal, max_ordinal.
  simpl.
  destruct (Z.eqb_spec o1 o2) as [E|E].
  - exists true. split; [reflexivity|]. split; auto.
  - replace ((1 <=? o2 + 1) && (o2 + 1 <=? 3652059)) with true
      by (symmetry; apply andb_true_intro; split; apply Z.leb_le; lia).
    simpl.
    destruct (Z.eqb_spec o1 (o2 + 1)) as [E1|E1].
    + exists true. split; [reflexivity|]. split; auto.
    + replace ((1 <=? o2 + -1) && (o2 + -1 <=? 3652059)) with true
        by (symmetry; apply andb_true_intro; split; apply Z.leb_le; lia).
      simpl. exists (o1 =? o2 + -1). split; [reflexivity|].
      rewrite Z.eqb_eq. split; [intros ->; right; right; lia | lia].
Qed.

(** C4. On the last two days of the calendar the [Date] comparison
    fails where the dates are one day apart: 9999-12-30 compared with
    9999-12-31 raises [OverflowError], while 9999-12-31 compared with
    9999-12-30 is true; and 2025-09-02 compared with 9999-12-31 raises
    the same error where the answer is false. *)
Theorem compare_dates_last_day :
  mkdate 9999 12 30 = Ok {| toordinal := 3652058 |}
  /\ mkdate 9999 12 31 = Ok {| toordinal := 3652059 |}
  /\ mkdate 2025 9 2 = Ok {| toordinal := 739496 |}
  /\ compare_values (VDate {| toordinal := 3652058 |})
       (VDate {| toordinal := 3652059 |}) "Date" false
     = Raise OverflowError
  /\ compare_values (VDate {| toordinal := 3652059 |})
       (VDate {| toordinal := 3652058 |}) "Date" false
     = Ok true
  /\ compare_values (VDate {| toordinal := 739496 |})
       (VDate {| toordinal := 3652059 |}) "Date" false
     = Raise OverflowError.
Proof. repeat split. Qed.

(** X25. Whenever the [Date] comparison of two dates returns, its answer
    is true exactly when the first date is the second, the day after it
    or the day before it; and it returns whenever the second date is
    neither the first nor the last day of the calendar. So 2025-09-02
    matches 2025-09-03 and does not match 2025-09-04. *)
Theorem compare_dates_one_day (d1 d2 : date) (fuzzy : bool) :
  (forall b,
     compare_values (VDate d1) (VDate d2) "Date" fuzzy = Ok b ->
     (b = true <->
      toordinal d1 = toordinal d2
      \/ toordinal d1 = toordinal d2 + 1
      \/ toordinal d1 = toordinal d2 - 1))
  /\ (interior d2 ->
      exists b, compare_values (VDate d1) (VDate d2) "Date" fuzzy = Ok b)
  /\ (a <- mkdate 2025 9 2 ;; b <- mkdate 2025 9 3 ;;
      compare_values (VDate a) (VDate b) "Date" false) = Ok true
  /\ (a <- mkdate 2025 9 2 ;; b <- mkdate 2025 9 4 ;;
      compare_values (VDate a) (VDate b) "Date" false) = Ok false.
Proof.
  split; [|split; [|split; reflexivity]].
  - destruct d1 as [o1], d2 as [o2]. intros b.
    unfold compare_values, date_add_days, date_eqb. simpl.
    destruct (Z.eqb_spec o1 o2) as [E|E].
    + intros [= <-]. split; auto.
    + destruct (_ && _); simpl; [|discriminate].
      destruct (Z.eqb_spec o1 (o2 + 1)) as [E1|E1].
      * intros [= <-]. split; auto.
      * destruct (_ && _); simpl; [|discriminate].
        intros [= <-]. rewrite Z.eqb_eq. lia.
  - intros H. destruct (compare_dates_interior d1 d2 fuzzy H) as (b & Hb & _).
    now exists b.
Qed.

(** C5. For a value that is not missing, [clean_number] deletes every
    comma of its string form (and nothing else), trims the whitespace
    around the rest and reads that as a float; the result is the float
    read, or [None] when the reading fails. So ["500,00"] becomes
    50000.0, not 500.0; [" 7 "], ["500"] between two no-break spaces
    and [" 1,234 "] are read as 7.0, 500.0 and 1234.0; whitespace
    inside the number is not removed, and ["12 3"], ["abc"] and the
    empty string become [None]. *)
Theorem clean_number_commas :
  (forall val : value,
     isna val = false ->
     exists t,
       trimmed (remove_commas (py_str val)) t
       /\ contains_char comma t = false
       /\ clean_number val
          = Ok match py_float t with
               | Ok f => VFloat f
               | Raise _ => VNone
               end)
  /\ (forall s,
        to_list (remove_commas s)
        = filter (fun c => negb (c =? comma)) (to_list s))
  /\ clean_number (VStr "500,00") = Ok (VFloat (float_of_int 50000))
  /\ float_of_int 50000 <> float_of_int 500
  /\ clean_number (VStr " 7 ") = Ok (VFloat (float_of_int 7))
  /\ clean_number (VStr (String 160 ("500" ++ String 160 "")))
     = Ok (VFloat (float_of_int 500))
  /\ clean_number (VStr " 1,234 ") = Ok (VFloat (float_of_int 1234))
  /\ clean_number (VStr "12 3") = Ok VNone
  /\ clean_number (VStr "abc") = Ok VNone
  /\ clean_number (VStr "") = Ok VNone.
Proof.
  split; [|split; [exact remove_commas_filter|]].
  - intros val Hval. exists (strip (remove_commas (py_str val))).
    split; [apply strip_trimmed|]. split.
    + pose proof (remove_commas_none (py_str val)) as Hs.
      destruct (strip_stripped (remove_commas (py_str val))) as (l & r & Heq & _).
      rewrite Heq, !contains_char_append in Hs.
      apply orb_false_elim in Hs as [_ Hs].
      now apply orb_false_elim in Hs as [Hs _].
    + unfold clean_number. rewrite Hval.
      destruct (py_float _); reflexivity.
  - repeat split; try reflexivity. discriminate.
Qed.

(** C6, as amended. For two values that are not missing, the exact
    [Text] comparison returns a boolean, which is true exactly when the
    two string forms, trimmed of leading and trailing whitespace and put
    in lower case as [str.lower] does, are the same string. Lower case
    changes nothing but the case, so two strings that match are the
    same after case folding. [" Alpha "] matches ["alpha"], ["ÉCOLE"]
    matches ["école"] and ["bob"] followed by a no-break space matches
    ["bob"]; ["alice"] does not match ["Zed 42"]. *)
Theorem compare_text_exact :
  (forall (v1 v2 : value) (t1 t2 : string),
     isna v1 = false -> isna v2 = false ->
     trimmed (py_str v1) t1 -> trimmed (py_str v2) t2 ->
     exists b,
       compare_values v1 v2 "Text" false = Ok b
       /\ (b = true <-> lower t1 = lower t2)
       /\ (b = true -> casefold t1 = casefold t2))
  /\ (forall s, casefold (lower s) = casefold s)
  /\ lower "ÉCOLE Straße ΟΔΟΣ" = "école straße οδος"
  /\ compare_values (VStr " Alpha ") (VStr "alpha") "Text" false = Ok true
  /\ compare_values (VStr "ÉCOLE") (VStr "école") "Text" false = Ok true
  /\ compare_values (VStr ("bob" ++ String 160 "")) (VStr "bob") "Text" false
     = Ok true
  /\ compare_values (VStr "alice") (VStr "Zed 42") "Text" false = Ok false.
Proof.
  split; [|split; [intros s; apply casefold_lower_from|]].
  - intros v1 v2 t1 t2 H1 H2 T1 T2.
    apply trimmed_strip in T1, T2. subst t1 t2.
    unfold compare_values. rewrite H1, H2. simpl.
    eexists. split; [reflexivity|]. split; [apply string_eqb_eq|].
    intros H. apply string_eqb_eq in H.
    rewrite <- (casefold_lower_from false (strip (py_str v1))).
    rewrite <- (casefold_lower_from false (strip (py_str v2))).
    unfold lower in H. now rewrite H.
  - repeat split; vm_compute; reflexivity.
Qed.

(** C10. [clean_date] and [clean_number] return on every value and never
    raise: a missing value gives [None]; a value whose date parse raises
    or yields [NaT] gives a null date; a value whose float parse raises
    gives [None]; and a null result is compared as a non-match, without
    an exception, whatever the other value and the comparison type. *)
Theorem normalizers_never_raise (val : value) :
  (exists v, clean_date val = Ok v)
  /\ (exists v, clean_number val = Ok v)
  /\ (isna val = true -> clean_date val = Ok VNone /\ clean_number val = Ok VNone)
  /\ (forall e, to_datetime (py_str val) = Raise e -> clean_date val = Ok VNone)
  /\ (to_datetime (py_str val) = Ok None ->
      exists v, clean_date val = Ok v /\ isna v = true)
  /\ (forall e, py_float (strip (remove_commas (py_str val))) = Raise e ->
      clean_number val = Ok VNone)
  /\ (forall v other col_type fuzzy,
        clean_date val = Ok v \/ clean_number val = Ok v ->
        isna v = true ->
        compare_values v other col_type fuzzy = Ok false
        /\ compare_values other v col_type fuzzy = Ok false).
Proof.
  split; [apply clean_date_total|]. split; [apply clean_number_total|].
  unfold clean_date, clean_number.
  split; [intros ->; now split|].
  split; [intros e ->; now destruct (isna val)|].
  split; [intros ->; destruct (isna val); [now exists VNone | now exists VNaT]|].
  split; [intros e ->; now destruct (isna val)|].
  intros v other col_type fuzzy _ Hv.
  split; [now apply compare_values_null_l | now apply compare_values_null_r].
Qed.

End ComparatorProperties.

(** ** The matching engine *)

Lemma getitem_combine (cols : list string) (row : list value) (c : string) :
  In c cols -> List.length row = List.length cols ->
  exists v, getitem (combine cols row) c = Ok v.
Proof.
  revert row. induction cols as [|k cols IH]; intros row Hin Hlen; [easy|].
  destruct row as [|v row]; [discriminate|]. simpl.
  destruct (string_eqb_spec c k) as [E|E]; [eauto|].
  apply IH; [|now injection Hlen]. destruct Hin; congruence.
Qed.

Lemma getitem_absent (row : Series) (c : string) :
  ~ In c (map fst row) -> getitem row c = Raise (KeyError c).
Proof.
  induction row as [|[k v] row IH]; simpl; trivial.
  intros H. destruct (string_eqb_spec c k) as [E|E]; [exfalso; auto|].
  apply IH. auto.
Qed.

Lemma combine_keys (cols : list string) (row : list value) (c : string) :
  In c (map fst (combine cols row)) -> In c cols.
Proof.
  revert row. induction cols as [|k cols IH]; intros [|v row]; simpl; try easy.
  intros [E|H]; eauto.
Qed.

Lemma enumerate_length {A : Type} (i : Z) (l : list A) :
  List.length (enumerate i l) = List.length l.
Proof. revert i. induction l as [|x l IH]; intros i; simpl; auto. Qed.

Lemma enumerate_nth {A : Type} (l : list A) (i : Z) (n : nat) (x : A) :
  nth_error l n = Some x ->
  nth_error (enumerate i l) n = Some (i + Z.of_nat n, x).
Proof.
  revert i n. induction l as [|y l IH]; intros i [|n]; simpl; try easy.
  - intros [= ->]. now rewrite Z.add_0_r.
  - intros H. rewrite (IH (i + 1) n H). f_equal. f_equal. lia.
Qed.

Section EngineProperties.

Context {ext : Externals}.

Lemma compare_values_normalized (col_type : string) (fuzzy : bool) (v1 v2 a b : value) :
  dates_interior ext ->
  normalize col_type v1 = Ok a -> normalize col_type v2 = Ok b ->
  exists r, compare_values a b col_type fuzzy = Ok r.
Proof.
  intros Hext. unfold normalize.
  destruct (String.eqb col_type "Date") eqn:Hd.
  - apply string_eqb_eq in Hd. subst col_type. intros Ha Hb.
    destruct (clean_date_cases v1) as [H1|[[_ H1]|(t1 & _ & H1)]];
      rewrite H1 in Ha; injection Ha as <-;
      try (exists false; now apply compare_values_null_l).
    destruct (clean_date_cases v2) as [H2|[[_ H2]|(t2 & P2 & H2)]];
      rewrite H2 in Hb; injection Hb as <-;
      try (exists false; now apply compare_values_null_r).
    destruct (compare_dates_interior (ts_date t1) (ts_date t2) fuzzy (Hext _ _ P2))
      as (r & Hr & _).
    now exists r.
  - destruct (String.eqb col_type "Number") eqn:Hn.
    + intros Ha Hb.
      destruct (clean_number_cases v1) as [H1|(f1 & _ & H1)];
        rewrite H1 in Ha; injection Ha as <-;
        try (exists false; now apply compare_values_null_l).
      destruct (clean_number_cases v2) as [H2|(f2 & _ & H2)];
        rewrite H2 in Hb; injection Hb as <-;
        try (exists false; now apply compare_values_null_r).
      unfold compare_values. rewrite Hd, Hn.
      destruct (isna (VFloat f1) || isna (VFloat f2)); eauto.
    + intros [= <-] [= <-]. unfold compare_values. rewrite Hd, Hn.
      destruct (isna v1 || isna v2); [eauto|].
      destruct (String.eqb col_type "Text"); [destruct fuzzy|]; eauto.
Qed.

Lemma compare_cell_total (row1 row2 : Series)
    (entry : string * (string * string * bool)) :
  dates_interior ext ->
  (exists v, getitem row1 (left_column entry) = Ok v) ->
  (exists v, getitem row2 (right_column entry) = Ok v) ->
  exists b, compare_cell row1 row2 entry = Ok b.
Proof.
  destruct entry as [col1 [[col2 col_type] fuzzy]].
  unfold left_column, right_column. simpl.
  intros Hext [v1 H1] [v2 H2]. rewrite H1, H2. simpl.
  destruct (normalize_total col_type v1) as [a Ha].
  destruct (normalize_total col_type v2) as [b Hb].
  rewrite Ha, Hb. simpl.
  exact (compare_values_normalized col_type fuzzy v1 v2 a b Hext Ha Hb).
Qed.

Lemma comparisons_total (col_map : ColumnMapping) (row1 row2 : Series) :
  dates_interior ext -> has_columns col_map row1 row2 ->
  exists cs, comparisons col_map row1 row2 = Ok cs.
Proof.
  intros Hext H. unfold comparisons.
  induction H as [|entry col_map [H1 H2] _ [cs IH]]; simpl; [eauto|].
  destruct (compare_cell_total row1 row2 entry Hext H1 H2) as [b Hb].
  rewrite Hb, IH. simpl. eauto.
Qed.

Lemma scan_total (col_map : ColumnMapping) (row1 : Series)
    (rows2 : list (Z * Series)) :
  dates_interior ext ->
  Forall (fun jr => has_columns col_map row1 (snd jr)) rows2 ->
  exists st, scan col_map row1 rows2 = Ok st.
Proof.
  intros Hext H.
  induction H as [|[j row2] rows2 H2 _ IH]; simpl; [eauto|].
  destruct (comparisons_total col_map row1 row2 Hext H2) as [cs Hcs].
  rewrite Hcs. simpl. destruct (all cs); eauto.
Qed.

Lemma match_rows_total (col_map : ColumnMapping) (rows1 rows2 : list (Z * Series)) :
  dates_interior ext ->
  Forall (fun ir =>
            Forall (fun jr => has_columns col_map (snd ir) (snd jr)) rows2) rows1 ->
  exists results, match_rows col_map rows1 rows2 = Ok results.
Proof.
  intros Hext H.
  induction H as [|[i row1] rows1 H1 _ [rs IH]]; simpl; [eauto|].
  destruct (scan_total col_map row1 rows2 Hext H1) as [st Hst].
  rewrite Hst, IH. simpl. eauto.
Qed.

(** The records follow the rows of the first sheet, one for one. *)
Lemma match_rows_records (col_map : ColumnMapping)
    (rows1 rows2 : list (Z * Series)) (results : list MatchRecord) :
  match_rows col_map rows1 rows2 = Ok results ->
  Forall2 (fun ir r =>
             Excel1_Index r = fst ir /\ Excel1_Data r = dict_of (snd ir)
             /\ exists st, scan col_map (snd ir) rows2 = Ok st
                           /\ r = record_of (fst ir) (snd ir) st)
          rows1 results.
Proof.
  revert results.
  induction rows1 as [|[i row1] rows1 IH]; simpl; intros results.
  - intros [= <-]. constructor.
  - destruct (scan col_map row1 rows2) as [st|e] eqn:Hst; simpl; [|easy].
    destruct (match_rows col_map rows1 rows2) as [rs|e]; simpl; [|easy].
    intros [= <-]. constructor; [|now apply IH].
    simpl. repeat split. now exists st.
Qed.

Lemma Forall2_nth {A B : Type} (R : A -> B -> Prop) (l : list A) (l' : list B)
    (n : nat) (x : A) :
  Forall2 R l l' -> nth_error l n = Some x ->
  exists y, nth_error l' n = Some y /\ R x y.
Proof.
  intros H. revert n. induction H as [|a b l l' Hab _ IH]; intros [|n]; simpl;
    try easy.
  - intros [= ->]. eauto.
  - apply IH.
Qed.

Lemma frames_have_columns (df1 df2 : DataFrame) (col_map : ColumnMapping) :
  well_formed df1 -> well_formed df2 -> valid_mapping df1 df2 col_map ->
  Forall (fun ir =>
            Forall (fun jr => has_columns col_map (snd ir) (snd jr))
                   (iterrows df2))
         (iterrows df1).
Proof.
  intros [_ W1] [_ W2] Hmap. unfold iterrows.
  assert (E : forall (df : DataFrame) (P : Series -> Prop) i,
             Forall (fun r => P (combine (columns df) r)) (data df) ->
             Forall (fun ir => P (snd ir))
                    (enumerate i (map (combine (columns df)) (data df)))).
  { intros df P i H. revert i.
    induction H as [|r l Hr _ IH]; intros i; simpl; constructor; auto. }
  apply (E df1 (fun row1 => Forall (fun jr => has_columns col_map row1 (snd jr)) _)).
  rewrite Forall_forall in W1 |- *. intros r1 Hr1.
  apply (E df2 (fun row2 => has_columns col_map _ row2)).
  rewrite Forall_forall in W2 |- *. intros r2 Hr2.
  unfold has_columns, valid_mapping in *.
  rewrite Forall_forall in Hmap |- *. intros entry He.
  destruct (Hmap entry He) as [H1 H2]. split.
  - apply getitem_combine; auto.
  - apply getitem_combine; auto.
Qed.

(** X24. With well-formed sheets, a mapping over their columns and
    parsed dates away from the first and last representable day,
    [run_match] returns exactly one record per row of the first sheet,
    in the order of its rows: the record at position [i] has index [i]
    and holds the data of row [i]. *)
Theorem run_match_one_record_per_row
    (df1 df2 : DataFrame) (col_map : ColumnMapping) :
  dates_interior ext ->
  well_formed df1 -> well_formed df2 -> valid_mapping df1 df2 col_map ->
  exists results,
    run_match df1 df2 col_map = Ok results
    /\ List.length results = List.length (data df1)
    /\ forall i row,
         nth_error (data df1) i = Some row ->
         exists r,
           nth_error results i = Some r
           /\ Excel1_Index r = Z.of_nat i
           /\ Excel1_Data r = dict_of (combine (columns df1) row).
Proof.
  intros Hext W1 W2 Hmap. unfold run_match.
  destruct (match_rows_total col_map _ _ Hext
              (frames_have_columns df1 df2 col_map W1 W2 Hmap)) as [results Hres].
  exists results. split; [exact Hres|].
  pose proof (match_rows_records _ _ _ _ Hres) as HF. split.
  - rewrite <- (Forall2_length HF). unfold iterrows.
    now rewrite enumerate_length, length_map.
  - intros i row Hrow.
    assert (Hi : nth_error (iterrows df1) i
                 = Some (0 + Z.of_nat i, combine (columns df1) row)).
    { unfold iterrows. apply enumerate_nth.
      rewrite nth_error_map, Hrow. reflexivity. }
    destruct (Forall2_nth _ _ _ _ _ HF Hi) as (r & Hr & Hidx & Hdata & _).
    exists r. simpl in Hidx, Hdata. auto.
Qed.

Lemma scan_first_match (col_map : ColumnMapping) (row1 row2 : Series)
    (pre post : list (Z * Series)) (j : Z) :
  Forall (fun jr => full_match col_map row1 (snd jr) = Ok false) pre ->
  full_match col_map row1 row2 = Ok true ->
  scan col_map row1 (pre ++ (j, row2) :: post)%list = Ok (true, Some row2).
Proof.
  unfold full_match. intros Hpre Hrow.
  induction Hpre as [|[j' r'] pre Hr' _ IH]; simpl in *.
  - destruct (comparisons col_map row1 row2) as [cs|e]; simpl in *; [|easy].
    injection Hrow as ->. reflexivity.
  - destruct (comparisons col_map row1 r') as [cs|e]; simpl in *; [|easy].
    injection Hr' as ->. exact IH.
Qed.

(** C3. For a row of the first sheet, the rows of the second sheet are
    examined in their order and the first one that matches on every
    mapped pair is recorded: when the rows before it fail and it
    matches, the scan ends there with that row, whatever rows follow
    (they are not examined, so a later row that matches as well is never
    selected), and the record of the run holds it. With rows
    [R0 fails, R1 matches, R2 matches] the record holds R1. *)
Theorem first_match_wins :
  (forall (col_map : ColumnMapping) (row1 row2 : Series)
          (pre post : list (Z * Series)) (j : Z),
     Forall (fun jr => full_match col_map row1 (snd jr) = Ok false) pre ->
     full_match col_map row1 row2 = Ok true ->
     scan col_map row1 (pre ++ (j, row2) :: post)%list = Ok (true, Some row2))
  /\ (forall (df1 df2 : DataFrame) (col_map : ColumnMapping)
             (results : list MatchRecord) (i : nat) (ir : Z * Series)
             (row2 : Series) (pre post : list (Z * Series)) (j : Z),
        run_match df1 df2 col_map = Ok results ->
        nth_error (iterrows df1) i = Some ir ->
        iterrows df2 = (pre ++ (j, row2) :: post)%list ->
        Forall (fun jr => full_match col_map (snd ir) (snd jr) = Ok false) pre ->
        full_match col_map (snd ir) row2 = Ok true ->
        exists r,
          nth_error results i = Some r
          /\ Matched r = yes
          /\ Excel2_Match r = Some (dict_of row2))
  /\ (let left := {| columns := ["name"]; data := [[VStr "bob"]] |} in
      let right := {| columns := ["name"];
                      data := [[VStr "alice"]; [VStr "Bob"]; [VStr "BOB"]] |} in
      run_match (ext := Sample.ext) left right [("name", ("name", "Text", false))]
      = Ok [{| Excel1_Index := 0;
               Excel1_Data := [("name", VStr "bob")];
               Matched := yes;
               Excel2_Match := Some [("name", VStr "Bob")] |}]).
Proof.
  split; [exact scan_first_match|]. split; [|reflexivity].
  intros df1 df2 col_map results i ir row2 pre post j Hrun Hi Hdf2 Hpre Hrow.
  unfold run_match in Hrun.
  destruct (Forall2_nth _ _ _ _ _ (match_rows_records _ _ _ _ Hrun) Hi)
    as (r & Hr & _ & _ & st & Hst & ->).
  exists (record_of (fst ir) (snd ir) st). split; [exact Hr|].
  rewrite Hdf2, (scan_first_match _ _ _ _ _ _ Hpre Hrow) in Hst.
  injection Hst as <-. split; reflexivity.
Qed.

Lemma match_rows_empty_mapping (rows1 rows2 : list (Z * Series))
    (j : Z) (row2 : Series) :
  match_rows [] rows1 ((j, row2) :: rows2)
  = Ok (map (fun ir => {| Excel1_Index := fst ir;
                          Excel1_Data := dict_of (snd ir);
                          Matched := yes;
                          Excel2_Match := Some (dict_of row2) |}) rows1).
Proof.
  induction rows1 as [|[i row1] rows1 IH]; [reflexivity|].
  cbn [match_rows scan comparisons mapM bind all forallb].
  rewrite IH. reflexivity.
Qed.

(** C7. With an empty mapping the conjunction over the pairs is true of
    every row of the second sheet, so every row of the first sheet is
    recorded as matched with row 0 of the second. *)
Theorem empty_mapping_matches_first
    (df1 df2 : DataFrame) (r0 : list value) (rest : list (list value)) :
  data df2 = r0 :: rest ->
  run_match df1 df2 []
  = Ok (map (fun ir => {| Excel1_Index := fst ir;
                          Excel1_Data := dict_of (snd ir);
                          Matched := yes;
                          Excel2_Match :=
                            Some (dict_of (combine (columns df2) r0)) |})
            (iterrows df1)).
Proof.
  intros H. unfold run_match. unfold iterrows at 2. rewrite H.
  apply match_rows_empty_mapping.
Qed.

Lemma match_rows_no_right (col_map : ColumnMapping) (rows1 : list (Z * Series)) :
  match_rows col_map rows1 []
  = Ok (map (fun ir => record_of (fst ir) (snd ir) (false, None)) rows1).
Proof.
  induction rows1 as [|[i row1] rows1 IH]; [reflexivity|].
  cbn [match_rows scan bind]. rewrite IH. reflexivity.
Qed.

End EngineProperties.

(** ** The result table *)

(** Two fields share a key only when one is the row index and the other
    a column of the first sheet named [Index]. *)
Lemma flat_key_collision (f g : field) :
  flat_key f = flat_key g ->
  f = g
  \/ (f = FIndex /\ g = FLeft "Index")
  \/ (f = FLeft "Index" /\ g = FIndex).
Proof.
  destruct f as [| |k|k], g as [| |k'|k']; simpl; intros H;
    try discriminate; try (injection H as ->); auto.
Qed.

Lemma dict_get_set (d : dict) (k k' : string) (v : value) :
  dict_get (dict_set d k v) k'
  = if String.eqb k' k then Some v else dict_get d k'.
Proof.
  induction d as [|[k0 v0] d IH]; simpl.
  - reflexivity.
  - destruct (string_eqb_spec k k0) as [->|E]; simpl.
    + destruct (String.eqb k' k0); reflexivity.
    + rewrite IH. destruct (string_eqb_spec k' k0) as [->|E']; trivial.
      destruct (string_eqb_spec k0 k); congruence.
Qed.

Lemma append_inj (p a b : string) : p ++ a = p ++ b -> a = b.
Proof. induction p as [|c p IH]; simpl; [auto | intros [= H]; auto]. Qed.

Lemma dict_get_absent (d : dict) (k : string) :
  ~ In k (keys d) -> dict_get d k = None.
Proof.
  induction d as [|[k0 v0] d IH]; simpl; trivial.
  intros H. destruct (string_eqb_spec k k0) as [->|E]; [exfalso; auto|].
  apply IH. auto.
Qed.

Lemma prefix_items_get (p : string) (items row : dict) (k : string) :
  NoDup (keys items) ->
  dict_get (prefix_items p items row) (p ++ k)
  = match dict_get items k with
    | Some v => Some v
    | None => dict_get row (p ++ k)
    end.
Proof.
  unfold prefix_items. revert row.
  induction items as [|[k0 v0] items IH]; intros row Hnd; simpl; trivial.
  inversion Hnd as [|? ? Hk0 Hnd']; subst.
  rewrite (IH _ Hnd'), dict_get_set.
  destruct (string_eqb_spec k k0) as [->|E].
  - rewrite string_eqb_refl, (dict_get_absent _ _ Hk0). reflexivity.
  - destruct (string_eqb_spec (p ++ k) (p ++ k0)) as [E'|_]; trivial.
    apply append_inj in E'. contradiction.
Qed.

Lemma prefix_items_other (p : string) (items row : dict) (key : string) :
  (forall k, key <> p ++ k) ->
  dict_get (prefix_items p items row) key = dict_get row key.
Proof.
  intros Hkey. unfold prefix_items. revert row.
  induction items as [|[k0 v0] items IH]; intros row; simpl; trivial.
  rewrite IH, dict_get_set.
  destruct (string_eqb_spec key (p ++ k0)) as [E|_]; trivial.
  now apply Hkey in E.
Qed.

(** What the flat record holds: the matched indicator, every column of
    the first sheet and of the matched row under its prefix, and the row
    index unless the first sheet has a column named [Index]. *)
Lemma flat_row_fields (r : MatchRecord) :
  NoDup (keys (Excel1_Data r)) ->
  (forall d, Excel2_Match r = Some d -> NoDup (keys d)) ->
  dict_get (flat_row r) (flat_key FMatched) = Some (VStr (Matched r))
  /\ (forall k v, dict_get (Excel1_Data r) k = Some v ->
                  dict_get (flat_row r) (flat_key (FLeft k)) = Some v)
  /\ (forall d k v, Excel2_Match r = Some d -> dict_get d k = Some v ->
                    dict_get (flat_row r) (flat_key (FRight k)) = Some v)
  /\ (dict_get (Excel1_Data r) "Index" = None ->
      dict_get (flat_row r) (flat_key FIndex) = Some (VInt (Excel1_Index r))).
Proof.
  intros N1 N2. unfold flat_row.
  assert (R : forall key,
             (forall k, key <> "Excel2_" ++ k) ->
             dict_get
               match Excel2_Match r with
               | Some d =>
                   if truthy d
                   then prefix_items "Excel2_" d
                          (prefix_items "Excel1_" (Excel1_Data r)
                             [("Excel1_Index", VInt (Excel1_Index r));
                              ("Matched", VStr (Matched r))])
                   else prefix_items "Excel1_" (Excel1_Data r)
                          [("Excel1_Index", VInt (Excel1_Index r));
                           ("Matched", VStr (Matched r))]
               | None => prefix_items "Excel1_" (Excel1_Data r)
                           [("Excel1_Index", VInt (Excel1_Index r));
                            ("Matched", VStr (Matched r))]
               end key
             = dict_get (prefix_items "Excel1_" (Excel1_Data r)
                           [("Excel1_Index", VInt (Excel1_Index r));
                            ("Matched", VStr (Matched r))]) key).
  { intros key Hkey. destruct (Excel2_Match r) as [d|]; trivial.
    destruct (truthy d); trivial. now apply prefix_items_other. }
  repeat split.
  - rewrite R by (intros k; discriminate).
    rewrite prefix_items_other by (intros k; discriminate). reflexivity.
  - intros k v Hk. rewrite R by (intros k'; discriminate).
    cbn [flat_key]. rewrite (prefix_items_get _ _ _ _ N1), Hk. reflexivity.
  - intros d k v Hd Hk. rewrite Hd. cbn [flat_key].
    destruct d as [|kv d]; [discriminate|]. cbn [truthy].
    rewrite (prefix_items_get _ _ _ _ (N2 _ Hd)), Hk. reflexivity.
  - intros Hidx. rewrite R by (intros k; discriminate).
    change (flat_key FIndex) with ("Excel1_" ++ "Index").
    rewrite (prefix_items_get _ _ _ _ N1), Hidx. reflexivity.
Qed.

Lemma flat_results_length (results : list MatchRecord) :
  List.length (flat_results results) = List.length results.
Proof. apply length_map. Qed.

(** C9. The keys of the flat record are not free of collisions: on a
    first sheet with a column named [Index], [flat_results] stores the
    cell of that column under [Excel1_Index], the key of the row index,
    and the row index 0 is no longer in the record. *)
Theorem flat_results_index_collision :
  let left := {| columns := ["Index"]; data := [[VStr "x"]] |} in
  let right := {| columns := ["a"]; data := [] |} in
  flat_key FIndex = flat_key (FLeft "Index")
  /\ (r <- run_match (ext := Sample.ext) left right [] ;; Ok (flat_results r))
     = Ok [[("Excel1_Index", VStr "x"); ("Matched", VStr no)]].
Proof. split; reflexivity. Qed.

(** ** Runs of the whole comparison *)

(** The numeric tolerance on the cells ["500.0"], ["500.0000001"] and
    ["500.1"]. *)
Lemma number_tolerance_examples :
  (a <- clean_number (ext := Sample.ext) (VStr "500.0") ;;
   b <- clean_number (ext := Sample.ext) (VStr "500.0000001") ;;
   compare_values (ext := Sample.ext) a b "Number" false) = Ok true
  /\ (a <- clean_number (ext := Sample.ext) (VStr "500.0") ;;
      b <- clean_number (ext := Sample.ext) (VStr "500.1") ;;
      compare_values (ext := Sample.ext) a b "Number" false) = Ok false.
Proof. split; reflexivity. Qed.

(** One row on each side, names compared as text and amounts as
    numbers: ["500,00"] and ["50000"] match. *)
Lemma end_to_end_example :
  (r <- run_match (ext := Sample.ext) Sample.df1 Sample.df2 Sample.col_map ;;
   Ok (flat_results r))
  = Ok [[("Excel1_Index", VInt 0); ("Matched", VStr yes);
         ("Excel1_id", VInt 1); ("Excel1_name", VStr "Bob");
         ("Excel1_amt", VStr "500,00"); ("Excel2_id", VInt 1);
         ("Excel2_name", VStr "bob"); ("Excel2_amt", VStr "50000")]].
Proof. reflexivity. Qed.

(** C1. A run that returns no record for a sheet that has a row: with
    the one date 2025-09-02 on the first sheet and the one date
    9999-12-31 on the second, both read as dates and compared as
    dates, the run raises [OverflowError]. *)
Theorem run_match_date_overflow :
  let left := {| columns := ["when"]; data := [[VStr "2025-09-02"]] |} in
  let right := {| columns := ["when"]; data := [[VStr "9999-12-31"]] |} in
  let col_map := [("when", ("when", "Date", false))] in
  clean_date (ext := FullRange.ext) (VStr "2025-09-02")
  = Ok (VDate {| toordinal := 739496 |})
  /\ clean_date (ext := FullRange.ext) (VStr "9999-12-31")
     = Ok (VDate {| toordinal := max_ordinal |})
  /\ List.length (data left) = 1%nat
  /\ run_match (ext := FullRange.ext) left right col_map = Raise OverflowError.
Proof. repeat split. Qed.

(** ** Inputs on which statements fail *)

(** C6. Two strings that are the same after trimming and case folding
    and that the exact [Text] comparison does not match: [str.lower]
    keeps the sharp s of ["straße"], which case folding writes
    ["ss"]. *)
Lemma compare_text_case_folding :
  trimmed "straße" "straße" /\ trimmed "STRASSE" "STRASSE"
  /\ casefold "straße" = casefold "STRASSE"
  /\ compare_values (ext := Sample.ext) (VStr "straße") (VStr "STRASSE")
       "Text" false
     = Ok false.
Proof.
  split; [|split; [|split; vm_compute; reflexivity]].
  - apply trimmed_stripped. exists "", "". repeat split.
  - apply trimmed_stripped. exists "", "". repeat split.
Qed.

(** ** Worked instances *)

Lemma sample_dates_interior : dates_interior Sample.ext.
Proof.
  intros s ts. change (to_datetime s) with (Sample.read_date s).
  unfold Sample.read_date.
  repeat match goal with
         | |- context [match ?x with _ => _ end] => destruct x eqn:?
         end; try discriminate.
  intros [= <-]. simpl.
  match goal with
  | H : (_ <=? _) && (_ <=? _) = true |- _ =>
      apply andb_prop in H as [A B]; apply Z.leb_le in A, B
  end.
  unfold Sample.timestamp_min, Sample.timestamp_max, min_ordinal, max_ordinal in *.
  lia.
Qed.

Lemma sample_well_formed (rows : list (list value)) :
  Forall (fun r => List.length r = 3%nat) rows ->
  well_formed {| columns := ["id"; "name"; "amt"]; data := rows |}.
Proof.
  intros H. split; [|exact H].
  repeat constructor; simpl; intuition discriminate.
Qed.

Lemma run_match_one_record_per_row_witness :
  let left := {| columns := ["id"; "when"];
                 data := [[VInt 1; VStr "2025-09-02"];
                          [VInt 2; VStr "2025-09-05"]] |} in
  let right := {| columns := ["id"; "when"];
                  data := [[VInt 2; VStr "2025-09-04"]] |} in
  let col_map := [("id", ("id", "Number", false));
                  ("when", ("when", "Date", false))] in
  dates_interior Sample.ext
  /\ well_formed left /\ well_formed right
  /\ valid_mapping left right col_map
  /\ exists results,
       run_match (ext := Sample.ext) left right col_map = Ok results
       /\ List.length results = List.length (data left)
       /\ forall i row,
            nth_error (data left) i = Some row ->
            exists r,
              nth_error results i = Some r
              /\ Excel1_Index r = Z.of_nat i
              /\ Excel1_Data r = dict_of (combine (columns left) row).
Proof.
  intros left right col_map.
  assert (W1 : well_formed left).
  { split; [|repeat constructor].
    repeat constructor; simpl; intuition discriminate. }
  assert (W2 : well_formed right).
  { split; [|repeat constructor].
    repeat constructor; simpl; intuition discriminate. }
  assert (M : valid_mapping left right col_map)
    by (repeat constructor; simpl; auto).
  repeat (split; [assumption || exact sample_dates_interior|]).
  exact (run_match_one_record_per_row (ext := Sample.ext)
           left right col_map sample_dates_interior W1 W2 M).
Defined.

Lemma compare_values_missing_witness :
  (isna VNone = true \/ isna VNone = true)
  /\ compare_values (ext := Sample.ext) VNone VNone "Text" false = Ok false
  /\ (a <- normalize (ext := Sample.ext) "Text" VNone ;;
      b <- normalize (ext := Sample.ext) "Text" VNone ;;
      compare_values (ext := Sample.ext) a b "Text" false) = Ok false.
Proof.
  split; [left; reflexivity|].
  apply (compare_values_missing (ext := Sample.ext) VNone VNone "Text" false).
  left; reflexivity.
Defined.

Lemma first_match_wins_witness :
  let col_map := [("name", ("name", "Text", false))] in
  let row1 := [("name", VStr "bob")] in
  let pre := [(0, [("name", VStr "alice")])] in
  let row2 := [("name", VStr "Bob")] in
  let post := [(2, [("name", VStr "BOB")])] in
  Forall (fun jr => full_match (ext := Sample.ext) col_map row1 (snd jr) = Ok false) pre
  /\ full_match (ext := Sample.ext) col_map row1 row2 = Ok true
  /\ scan (ext := Sample.ext) col_map row1 (pre ++ (1, row2) :: post)%list
     = Ok (true, Some row2).
Proof.
  intros col_map row1 pre row2 post.
  assert (P : Forall (fun jr => full_match (ext := Sample.ext) col_map row1 (snd jr)
                                = Ok false) pre)
    by (repeat constructor).
  assert (R : full_match (ext := Sample.ext) col_map row1 row2 = Ok true)
    by reflexivity.
  split; [exact P|]. split; [exact R|].
  exact (proj1 (first_match_wins (ext := Sample.ext))
           col_map row1 row2 pre post 1 P R).
Defined.

Lemma compare_dates_one_day_witness :
  compare_values (ext := Sample.ext)
    (VDate {| toordinal := 739496 |}) (VDate {| toordinal := 739497 |})
    "Date" false = Ok true
  /\ (true = true <->
      739496 = 739497 \/ 739496 = 739497 + 1 \/ 739496 = 739497 - 1).
Proof.
  split; [reflexivity|].
  exact (proj1 (compare_dates_one_day (ext := Sample.ext)
                  {| toordinal := 739496 |} {| toordinal := 739497 |} false)
           true eq_refl).
Defined.

Lemma clean_number_commas_witness :
  isna (VStr " 1,234 ") = false
  /\ exists t,
       trimmed (remove_commas (py_str (ext := Sample.ext) (VStr " 1,234 "))) t
       /\ contains_char comma t = false
       /\ clean_number (ext := Sample.ext) (VStr " 1,234 ")
          = Ok match py_float t with
               | Ok f => VFloat f
               | Raise _ => VNone
               end.
Proof.
  split; [reflexivity|].
  exact (proj1 (clean_number_commas (ext := Sample.ext)) (VStr " 1,234 ") eq_refl).
Defined.

Lemma compare_text_exact_witness :
  isna (VStr " Alpha ") = false /\ isna (VStr "alpha") = false
  /\ trimmed " Alpha " "Alpha" /\ trimmed "alpha" "alpha"
  /\ exists b,
       compare_values (ext := Sample.ext) (VStr " Alpha ") (VStr "alpha") "Text" false
       = Ok b
       /\ (b = true <-> lower "Alpha" = lower "alpha")
       /\ (b = true -> casefold "Alpha" = casefold "alpha").
Proof.
  assert (T1 : trimmed " Alpha " "Alpha")
    by (apply trimmed_stripped; exists " ", " "; repeat split).
  assert (T2 : trimmed "alpha" "alpha")
    by (apply trimmed_stripped; exists "", ""; repeat split).
  repeat (split; [reflexivity || assumption|]).
  exact (proj1 (compare_text_exact (ext := Sample.ext))
           (VStr " Alpha ") (VStr "alpha") "Alpha" "alpha" eq_refl eq_refl T1 T2).
Defined.

Lemma empty_mapping_matches_first_witness :
  data Sample.df2 = [VInt 1; VStr "bob"; VStr "50000"] :: []
  /\ run_match (ext := Sample.ext) Sample.df1 Sample.df2 []
     = Ok [{| Excel1_Index := 0;
              Excel1_Data :=
                [("id", VInt 1); ("name", VStr "Bob"); ("amt", VStr "500,00")];
              Matched := yes;
              Excel2_Match :=
                Some [("id", VInt 1); ("name", VStr "bob"); ("amt", VStr "50000")] |}].
Proof.
  split; [reflexivity|].
  exact (empty_mapping_matches_first (ext := Sample.ext) Sample.df1 Sample.df2
           [VInt 1; VStr "bob"; VStr "50000"] [] eq_refl).
Defined.

Lemma normalizers_never_raise_witness :
  to_datetime (Externals := Sample.ext) (py_str (ext := Sample.ext) (VStr "abc"))
  = Ok None
  /\ exists v, clean_date (ext := Sample.ext) (VStr "abc") = Ok v /\ isna v = true.
Proof.
  split; [reflexivity|].
  exact (proj1 (proj2 (proj2 (proj2 (proj2
           (normalizers_never_raise (ext := Sample.ext) (VStr "abc"))))))
           eq_refl).
Defined.

(** * Further properties *)

(** ** The column mapping built from the widgets *)

Lemma assoc_set_fresh {V : Type} (m : list (string * V)) (k : string) (v : V) :
  ~ In k (map fst m) -> assoc_set m k v = (m ++ [(k, v)])%list.
Proof.
  induction m as [|[k' v'] m IH]; simpl; trivial.
  intros H. destruct (string_eqb_spec k k') as [->|_]; [exfalso; auto|].
  rewrite IH; auto.
Qed.

Lemma assoc_set_Forall {V : Type} (P : string * V -> Prop)
    (m : list (string * V)) (k : string) (v : V) :
  P (k, v) -> Forall P m -> Forall P (assoc_set m k v).
Proof.
  intros Hkv H. induction H as [|[k' v'] m Hx Hm IH]; simpl.
  - repeat constructor. exact Hkv.
  - destruct (string_eqb_spec k k') as [<-|_]; constructor; auto.
Qed.

Lemma select_column_Forall (w : Widgets) (df2 : DataFrame)
    (P : string * (string * string * bool) -> Prop)
    (cols : list string) (acc : ColumnMapping) :
  (forall col, In col cols -> selected w df2 col = true -> P (entry_of w df2 col)) ->
  Forall P acc ->
  Forall P (fold_left (select_column w df2) cols acc).
Proof.
  revert acc. induction cols as [|col cols IH]; intros acc Hsel Hacc; simpl; trivial.
  apply IH; [intros c Hc; apply Hsel; now right|].
  unfold select_column.
  destruct (negb _) eqn:Hs; trivial.
  apply assoc_set_Forall; trivial.
  apply (Hsel col); [now left | exact Hs].
Qed.

Lemma select_column_fold (w : Widgets) (df2 : DataFrame)
    (cols : list string) (acc : ColumnMapping) :
  NoDup cols ->
  (forall c, In c cols -> ~ In c (map fst acc)) ->
  fold_left (select_column w df2) cols acc
  = (acc ++ map (entry_of w df2) (filter (selected w df2) cols))%list.
Proof.
  revert acc. induction cols as [|col cols IH]; intros acc Hnd Hfresh; simpl.
  - now rewrite app_nil_r.
  - inversion Hnd as [|? ? Hcol Hnd']; subst.
    unfold select_column at 2. unfold selected at 1.
    destruct (negb _) eqn:Hs.
    + rewrite assoc_set_fresh by (apply Hfresh; now left).
      rewrite IH; trivial.
      * rewrite <- app_assoc. reflexivity.
      * intros c Hc. rewrite map_app, in_app_iff. simpl.
        intros [H|[H|[]]]; [apply (Hfresh c); [now right | exact H] | congruence].
    + apply IH; trivial. intros c Hc. apply Hfresh. now right.
Qed.

Lemma selected_in_columns (w : Widgets) (df2 : DataFrame) (col : string) :
  answers_in_options w -> selected w df2 col = true ->
  In (selectbox w col (none_option :: columns df2)) (columns df2).
Proof.
  intros [Hsel _] Hs. unfold selected in Hs.
  destruct (Hsel col (none_option :: columns df2)) as [E|H];
    [discriminate | | exact H].
  rewrite <- E, string_eqb_refl in Hs. discriminate.
Qed.

Lemma build_col_map_valid_mapping (w : Widgets) (df1 df2 : DataFrame) :
  answers_in_options w -> valid_mapping df1 df2 (build_col_map w df1 df2).
Proof.
  intros Hw. unfold valid_mapping, build_col_map.
  apply select_column_Forall; [|constructor].
  intros col Hcol Hs. split; [exact Hcol|].
  now apply selected_in_columns.
Qed.

(** X1. On a first sheet with distinct column names the mapping has one
    entry per column for which a column of the second sheet was
    selected, in the order of the first sheet's columns; the columns
    left on "-- None --" have no entry. *)
Theorem build_col_map_entries (w : Widgets) (df1 df2 : DataFrame) :
  NoDup (columns df1) ->
  build_col_map w df1 df2
  = map (entry_of w df2) (filter (selected w df2) (columns df1)).
Proof.
  intros Hnd. unfold build_col_map.
  now rewrite select_column_fold.
Qed.

(** X2. When the widgets answer with one of their options, every entry
    of the mapping built names a column of the first sheet and a column
    of the second sheet. *)
Theorem build_col_map_valid (w : Widgets) (df1 df2 : DataFrame) :
  answers_in_options w -> valid_mapping df1 df2 (build_col_map w df1 df2).
Proof. apply build_col_map_valid_mapping. Qed.

(** X3. When the widgets answer with one of their options, every entry
    of the mapping built has the type Text, Number or Date, and its
    fuzzy flag is set only with the type Text. *)
Theorem build_col_map_types (w : Widgets) (df1 df2 : DataFrame) :
  answers_in_options w ->
  Forall (fun entry =>
            In (type_of entry) col_types
            /\ (fuzzy_of entry = true -> type_of entry = "Text"))
         (build_col_map w df1 df2).
Proof.
  intros [_ Hradio]. unfold build_col_map.
  apply select_column_Forall; [|constructor].
  intros col _ _. unfold entry_of, type_of, fuzzy_of. cbn [fst snd]. split.
  - apply Hradio. discriminate.
  - destruct (string_eqb_spec
                (radio w col (selectbox w col (none_option :: columns df2)) col_types)
                "Text"); [auto|discriminate].
Qed.

(** X4. Whatever the widgets answer, no entry of the mapping built pairs
    a column with a column of the second sheet named "-- None --": that
    selection stands for no column. *)
Theorem build_col_map_never_none (w : Widgets) (df1 df2 : DataFrame) :
  Forall (fun entry => right_column entry <> none_option)
         (build_col_map w df1 df2).
Proof.
  unfold build_col_map.
  apply select_column_Forall; [|constructor].
  intros col _ Hs. unfold entry_of, right_column. simpl.
  unfold selected in Hs. intros E. rewrite E, string_eqb_refl in Hs. discriminate.
Qed.

Section RunProperties.

Context {ext : Externals}.

(** X5. With well-formed sheets, widgets that answer with one of their
    options and dates away from the first and last representable day,
    the comparison run on the mapping built from the widgets returns
    its records, one per row of the first sheet. *)
Theorem run_on_built_mapping (w : Widgets) (df1 df2 : DataFrame) :
  dates_interior ext -> answers_in_options w ->
  well_formed df1 -> well_formed df2 ->
  exists results,
    run_match df1 df2 (build_col_map w df1 df2) = Ok results
    /\ List.length results = List.length (data df1).
Proof.
  intros Hext Hw W1 W2. unfold run_match.
  destruct (match_rows_total (build_col_map w df1 df2) _ _ Hext
              (frames_have_columns df1 df2 _ W1 W2
                 (build_col_map_valid_mapping w df1 df2 Hw))) as [results Hres].
  exists results. split; [exact Hres|].
  rewrite <- (Forall2_length (match_rows_records _ _ _ _ Hres)).
  unfold iterrows. now rewrite enumerate_length, length_map.
Qed.

End RunProperties.

(** ** Outcomes and errors of the comparison run *)

Lemma getitem_raise (row : Series) (k : string) (e : exn) :
  getitem row k = Raise e -> e = KeyError k.
Proof.
  induction row as [|[k' v] row IH]; simpl.
  - now intros [= <-].
  - destruct (String.eqb k k'); [discriminate | exact IH].
Qed.

Lemma getitem_raise_combine (cols : list string) (r : list value)
    (k : string) (e : exn) :
  List.length r = List.length cols ->
  getitem (combine cols r) k = Raise e -> e = KeyError k /\ ~ In k cols.
Proof.
  intros Hlen H. split; [now apply getitem_raise in H|].
  intros Hin. destruct (getitem_combine cols r k Hin Hlen) as [v Hv].
  congruence.
Qed.

Lemma mapM_raise {A B : Type} (f : A -> result B) (l : list A) (e : exn) :
  mapM f l = Raise e -> exists x, In x l /\ f x = Raise e.
Proof.
  induction l as [|a l IH]; simpl; [discriminate|].
  destruct (f a) as [b|e'] eqn:Ha; simpl.
  - destruct (mapM f l) as [bs|e'']; simpl; [discriminate|].
    intros [= <-]. destruct (IH eq_refl) as (x & Hx & Hfx). eauto.
  - intros [= <-]. eauto.
Qed.

Lemma mapM_length {A B : Type} (f : A -> result B) (l : list A) (bs : list B) :
  mapM f l = Ok bs -> List.length bs = List.length l.
Proof.
  revert bs. induction l as [|a l IH]; simpl; intros bs.
  - now intros [= <-].
  - destruct (f a); simpl; [|discriminate].
    destruct (mapM f l); simpl; [|discriminate].
    intros [= <-]. simpl. f_equal. now apply IH.
Qed.

Lemma enumerate_In {A : Type} (l : list A) (i : Z) (jx : Z * A) :
  In jx (enumerate i l) -> In (snd jx) l.
Proof.
  revert i. induction l as [|y l IH]; intros i; simpl; [easy|].
  intros [<-|H]; [now left | right; eauto].
Qed.

Lemma iterrows_In (df : DataFrame) (jr : Z * Series) :
  In jr (iterrows df) ->
  exists r, In r (data df) /\ snd jr = combine (columns df) r.
Proof.
  intros H. apply enumerate_In, in_map_iff in H as (r & Hr & Hin). eauto.
Qed.

Lemma Forall2_nth_r {A B : Type} (R : A -> B -> Prop) (l : list A) (l' : list B)
    (n : nat) (y : B) :
  Forall2 R l l' -> nth_error l' n = Some y ->
  exists x, nth_error l n = Some x /\ R x y.
Proof.
  intros H. revert n. induction H as [|a b l l' Hab _ IH]; intros [|n]; simpl;
    try easy.
  - intros [= ->]. eauto.
  - apply IH.
Qed.

Lemma yes_is_not_no : yes <> no.
Proof. discriminate. Qed.

Section ScanProperties.

Context {ext : Externals}.

Lemma compare_dates_raise (d1 d2 : date) (fuzzy : bool) (e : exn) :
  compare_values (VDate d1) (VDate d2) "Date" fuzzy = Raise e ->
  e = OverflowError.
Proof.
  unfold compare_values, date_add_days. simpl.
  destruct (date_eqb d1 d2); [discriminate|].
  destruct (_ && _); simpl; [|now intros [= <-]].
  destruct (date_eqb d1 _); [discriminate|].
  destruct (_ && _); simpl; [discriminate | now intros [= <-]].
Qed.

Lemma compare_values_raise (col_type : string) (fuzzy : bool)
    (v1 v2 a b : value) (e : exn) :
  normalize col_type v1 = Ok a -> normalize col_type v2 = Ok b ->
  compare_values a b col_type fuzzy = Raise e -> e = OverflowError.
Proof.
  unfold normalize.
  destruct (String.eqb col_type "Date") eqn:Hd.
  - apply string_eqb_eq in Hd. subst col_type. intros Ha Hb.
    destruct (clean_date_cases v1) as [H1|[[_ H1]|(t1 & _ & H1)]];
      rewrite H1 in Ha; injection Ha as <-;
      try (rewrite compare_values_null_l by reflexivity; discriminate).
    destruct (clean_date_cases v2) as [H2|[[_ H2]|(t2 & _ & H2)]];
      rewrite H2 in Hb; injection Hb as <-;
      try (rewrite compare_values_null_r by reflexivity; discriminate).
    apply compare_dates_raise.
  - destruct (String.eqb col_type "Number") eqn:Hn.
    + intros Ha Hb.
      destruct (clean_number_cases v1) as [H1|(f1 & _ & H1)];
        rewrite H1 in Ha; injection Ha as <-;
        try (rewrite compare_values_null_l by reflexivity; discriminate).
      destruct (clean_number_cases v2) as [H2|(f2 & _ & H2)];
        rewrite H2 in Hb; injection Hb as <-;
        try (rewrite compare_values_null_r by reflexivity; discriminate).
      unfold compare_values. rewrite Hd, Hn.
      destruct (isna (VFloat f1) || isna (VFloat f2)); discriminate.
    + intros [= <-] [= <-]. unfold compare_values. rewrite Hd, Hn.
      destruct (isna v1 || isna v2); [discriminate|].
      destruct (String.eqb col_type "Text"); [destruct fuzzy|]; discriminate.
Qed.

Lemma compare_cell_raise (row1 row2 : Series)
    (entry : string * (string * string * bool)) (e : exn) :
  compare_cell row1 row2 entry = Raise e ->
  (getitem row1 (left_column entry) = Raise e)
  \/ (getitem row2 (right_column entry) = Raise e)
  \/ e = OverflowError.
Proof.
  destruct entry as [col1 [[col2 col_type] fuzzy]].
  unfold left_column, right_column, compare_cell. cbn [fst snd].
  destruct (getitem row1 col1) as [v1|e1]; simpl; [|intros [= <-]; now left].
  destruct (getitem row2 col2) as [v2|e2]; simpl;
    [|intros [= <-]; right; now left].
  destruct (normalize_total col_type v1) as [a Ha].
  destruct (normalize_total col_type v2) as [b Hb].
  rewrite Ha, Hb. simpl. intros H. right; right.
  exact (compare_values_raise col_type fuzzy v1 v2 a b e Ha Hb H).
Qed.

Lemma scan_raise (col_map : ColumnMapping) (row1 : Series)
    (rows2 : list (Z * Series)) (e : exn) :
  scan col_map row1 rows2 = Raise e ->
  exists jr, In jr rows2 /\ comparisons col_map row1 (snd jr) = Raise e.
Proof.
  induction rows2 as [|[j row2] rows2 IH]; simpl; [discriminate|].
  destruct (comparisons col_map row1 row2) as [cs|e'] eqn:Hc; simpl.
  - destruct (all cs); [discriminate|].
    intros H. destruct (IH H) as (jr & Hjr & Hr). eauto.
  - intros [= <-]. exists (j, row2). auto.
Qed.

Lemma match_rows_raise (col_map : ColumnMapping)
    (rows1 rows2 : list (Z * Series)) (e : exn) :
  match_rows col_map rows1 rows2 = Raise e ->
  exists ir, In ir rows1 /\ scan col_map (snd ir) rows2 = Raise e.
Proof.
  induction rows1 as [|[i row1] rows1 IH]; simpl; [discriminate|].
  destruct (scan col_map row1 rows2) as [st|e'] eqn:Hs; simpl.
  - destruct (match_rows col_map rows1 rows2) as [rs|e'']; simpl; [discriminate|].
    intros [= <-]. destruct (IH eq_refl) as (ir & Hir & Hr). eauto.
  - intros [= <-]. exists (i, row1). auto.
Qed.

(** X6. A comparison run on well-formed sheets raises nothing but the
    [KeyError] of a column that the mapping names and its sheet does not
    have, or the [OverflowError] of the date arithmetic. *)
Theorem run_match_errors (df1 df2 : DataFrame) (col_map : ColumnMapping) (e : exn) :
  well_formed df1 -> well_formed df2 ->
  run_match df1 df2 col_map = Raise e ->
  e = OverflowError
  \/ exists entry,
       In entry col_map
       /\ ((e = KeyError (left_column entry)
            /\ ~ In (left_column entry) (columns df1))
           \/ (e = KeyError (right_column entry)
               /\ ~ In (right_column entry) (columns df2))).
Proof.
  intros [_ W1] [_ W2] H. unfold run_match in H.
  apply match_rows_raise in H as (ir & Hir & H).
  apply scan_raise in H as (jr & Hjr & H).
  apply mapM_raise in H as (entry & Hentry & H).
  apply iterrows_In in Hir as (r1 & Hr1 & E1).
  apply iterrows_In in Hjr as (r2 & Hr2 & E2).
  rewrite Forall_forall in W1, W2.
  rewrite E1, E2 in H.
  apply compare_cell_raise in H as [H|[H|H]]; [right|right|now left];
    exists entry; (split; [exact Hentry|]).
  - left. apply getitem_raise_combine in H; auto.
  - right. apply getitem_raise_combine in H; auto.
Qed.


Lemma scan_outcome (col_map : ColumnMapping) (row1 : Series)
    (rows2 : list (Z * Series)) (st : bool * option Series) :
  scan col_map row1 rows2 = Ok st ->
  (st = (false, None)
   /\ Forall (fun jr => full_match col_map row1 (snd jr) = Ok false) rows2)
  \/ exists pre j row2 post,
       rows2 = (pre ++ (j, row2) :: post)%list
       /\ st = (true, Some row2)
       /\ Forall (fun jr => full_match col_map row1 (snd jr) = Ok false) pre
       /\ full_match col_map row1 row2 = Ok true.
Proof.
  induction rows2 as [|[j row2] rows2 IH]; simpl.
  - intros [= <-]. left. split; [reflexivity | constructor].
  - unfold full_match at 1 3.
    destruct (comparisons col_map row1 row2) as [cs|e] eqn:Hc; simpl;
      [|discriminate].
    destruct (all cs) eqn:Hall.
    + intros [= <-]. right. exists [], j, row2, rows2.
      repeat split; [constructor|].
      unfold full_match. now rewrite Hc, <- Hall.
    + intros H. destruct (IH H) as [[-> HF]|(pre & j' & r' & post & -> & -> & HF & Hm)].
      * left. split; [reflexivity|]. constructor; [|exact HF].
        unfold full_match. simpl. now rewrite Hc, <- Hall.
      * right. exists ((j, row2) :: pre), j', r', post.
        repeat split; [|exact Hm]. constructor; [|exact HF].
        unfold full_match. simpl. now rewrite Hc, <- Hall.
Qed.

(** X7. Every record of a run that returns is either unmatched, with no
    row of the second sheet attached, and then no row of the second
    sheet matches its row on every mapped pair; or matched, and then the
    row attached is a row of the second sheet that matches on every
    mapped pair and no row before it does. *)
Theorem record_outcome (df1 df2 : DataFrame) (col_map : ColumnMapping)
    (results : list MatchRecord) (i : nat) (r : MatchRecord) :
  run_match df1 df2 col_map = Ok results ->
  nth_error results i = Some r ->
  exists ir,
    nth_error (iterrows df1) i = Some ir
    /\ ((Matched r = no /\ Excel2_Match r = None
         /\ Forall (fun jr => full_match col_map (snd ir) (snd jr) = Ok false)
                   (iterrows df2))
        \/ exists pre j row2 post,
             iterrows df2 = (pre ++ (j, row2) :: post)%list
             /\ Matched r = yes /\ Excel2_Match r = Some (dict_of row2)
             /\ Forall (fun jr => full_match col_map (snd ir) (snd jr) = Ok false) pre
             /\ full_match col_map (snd ir) row2 = Ok true).
Proof.
  intros Hrun Hr. unfold run_match in Hrun.
  destruct (Forall2_nth_r _ _ _ _ _ (match_rows_records _ _ _ _ Hrun) Hr)
    as (ir & Hir & _ & _ & st & Hst & ->).
  exists ir. split; [exact Hir|].
  destruct (scan_outcome _ _ _ _ Hst)
    as [[-> HF]|(pre & j & row2 & post & E & -> & HF & Hm)].
  - left. repeat split. exact HF.
  - right. exists pre, j, row2, post. repeat split; assumption.
Qed.

(** X8. The run over the rows of the first sheet split in two parts is
    the run over the first part followed by the run over the second:
    the records are appended, and an exception of either part is the
    exception of the whole, the first part's first. *)
Theorem match_rows_app (col_map : ColumnMapping)
    (rows1 rows1' rows2 : list (Z * Series)) :
  match_rows col_map (rows1 ++ rows1')%list rows2
  = (a <- match_rows col_map rows1 rows2 ;;
     b <- match_rows col_map rows1' rows2 ;;
     Ok (a ++ b)%list).
Proof.
  induction rows1 as [|[i row1] rows1 IH]; simpl.
  - destruct (match_rows col_map rows1' rows2); reflexivity.
  - destruct (scan col_map row1 rows2) as [st|e]; simpl; [|reflexivity].
    rewrite IH.
    destruct (match_rows col_map rows1 rows2) as [a|e]; simpl; [|reflexivity].
    destruct (match_rows col_map rows1' rows2) as [b|e]; reflexivity.
Qed.

(** X9. A match does not use up the row of the second sheet: two rows of
    the first sheet with the same cells get the same outcome, matched
    or not and with the same row attached. *)
Theorem equal_rows_same_outcome (df1 df2 : DataFrame) (col_map : ColumnMapping)
    (results : list MatchRecord) (i j : nat) (cells : list value)
    (r r' : MatchRecord) :
  run_match df1 df2 col_map = Ok results ->
  nth_error (data df1) i = Some cells ->
  nth_error (data df1) j = Some cells ->
  nth_error results i = Some r ->
  nth_error results j = Some r' ->
  Matched r = Matched r' /\ Excel2_Match r = Excel2_Match r'
  /\ Excel1_Data r = Excel1_Data r'.
Proof.
  intros Hrun Hi Hj Hr Hr'. unfold run_match in Hrun.
  pose proof (match_rows_records _ _ _ _ Hrun) as HF.
  assert (E : forall n, nth_error (data df1) n = Some cells ->
                        nth_error (iterrows df1) n
                        = Some (0 + Z.of_nat n, combine (columns df1) cells)).
  { intros n Hn. unfold iterrows. apply enumerate_nth.
    now rewrite nth_error_map, Hn. }
  destruct (Forall2_nth _ _ _ _ _ HF (E i Hi)) as (x & Hx & _ & _ & st & Hst & ->).
  destruct (Forall2_nth _ _ _ _ _ HF (E j Hj)) as (y & Hy & _ & _ & st' & Hst' & ->).
  rewrite Hr in Hx. rewrite Hr' in Hy.
  injection Hx as ->. injection Hy as ->.
  cbn [fst snd] in *. rewrite Hst in Hst'. injection Hst' as <-.
  repeat split.
Qed.

(** X10. All the pairs of the mapping are compared for a pair of rows,
    with no stop at the first pair that differs: the list of outcomes
    has one boolean per pair, and the exception of a pair aborts the
    comparison of the rows even when an earlier pair has already
    differed. *)
Theorem comparisons_all_pairs (row1 row2 : Series) :
  (forall col_map cs,
     comparisons col_map row1 row2 = Ok cs ->
     List.length cs = List.length col_map)
  /\ (forall pre entry post e,
        Forall (fun en => exists b, compare_cell row1 row2 en = Ok b) pre ->
        compare_cell row1 row2 entry = Raise e ->
        comparisons (pre ++ entry :: post)%list row1 row2 = Raise e).
Proof.
  split.
  - intros col_map cs. apply mapM_length.
  - intros pre entry post e Hpre He. unfold comparisons.
    induction Hpre as [|en pre [b Hb] _ IH]; simpl.
    + now rewrite He.
    + now rewrite Hb, IH.
Qed.

End ScanProperties.

(** ** The comparator as a relation *)

Lemma fabs_binary_round (s : bool) (m : positive) (e : Z) :
  fabs (binary_round prec emax s m e) = fabs (binary_round prec emax false m e).
Proof.
  unfold binary_round, binary_round_aux.
  destruct (shl_align _ _ _) as [mz ez].
  destruct (shr_fexp _ _ _ _ _) as [mrs e'].
  destruct (shr_fexp _ _ _ _ _) as [mrs' e''].
  destruct (shr_m mrs'); trivial.
  destruct (_ <=? _); reflexivity.
Qed.

Lemma fabs_binary_normalize_opp (m e : Z) :
  fabs (binary_normalize prec emax (- m) e false)
  = fabs (binary_normalize prec emax m e false).
Proof.
  destruct m as [|p|p]; simpl; trivial.
  - apply fabs_binary_round.
  - symmetry. apply fabs_binary_round.
Qed.

Lemma sub_self (z : Z) : IntDef.Z.sub z z = 0.
Proof. apply Z.sub_diag. Qed.

Lemma fabs_fsub_sym (a b : float) : fabs (fsub a b) = fabs (fsub b a).
Proof.
  unfold fsub, SFsub.
  destruct a as [sa|sa| |sa ma ea], b as [sb|sb| |sb mb eb];
    try (destruct sa, sb; reflexivity); try reflexivity;
    try (destruct sa; reflexivity); try (destruct sb; reflexivity).
  rewrite (Z.min_comm eb ea).
  rewrite <- fabs_binary_normalize_opp. f_equal. f_equal. lia.
Qed.

Section RelationProperties.

Context {ext : Externals}.

Lemma compare_number_floats (a b : float) (fuzzy : bool) :
  compare_values (VFloat a) (VFloat b) "Number" fuzzy
  = if is_nan a || is_nan b then Ok false
    else Ok (fltb (fabs (fsub a b)) eps).
Proof. reflexivity. Qed.

(** X11. The numeric comparison of two cells does not depend on their
    order: normalising and comparing the first with the second gives
    the same answer as the second with the first. *)
Theorem number_comparison_symmetric (v1 v2 : value) (fuzzy : bool) :
  (a <- clean_number v1 ;; b <- clean_number v2 ;;
   compare_values a b "Number" fuzzy)
  = (a <- clean_number v2 ;; b <- clean_number v1 ;;
     compare_values a b "Number" fuzzy).
Proof.
  destruct (clean_number_cases v1) as [H1|(f1 & _ & H1)];
    destruct (clean_number_cases v2) as [H2|(f2 & _ & H2)];
    rewrite H1, H2; cbn [bind];
    try (rewrite compare_values_null_l, compare_values_null_r by reflexivity;
         reflexivity);
    try (rewrite compare_values_null_r, compare_values_null_l by reflexivity;
         reflexivity);
    trivial.
  rewrite !compare_number_floats.
  rewrite (orb_comm (is_nan f2)), fabs_fsub_sym. reflexivity.
Qed.

(** X12. A finite number matches itself in the numeric comparison. *)
Theorem number_comparison_reflexive (a : float) (fuzzy : bool) :
  is_finite a = true ->
  compare_values (VFloat a) (VFloat a) "Number" fuzzy = Ok true.
Proof.
  destruct a as [sa|sa| |sa ma ea]; try discriminate; intros _.
  - destruct sa; reflexivity.
  - rewrite compare_number_floats. cbn [is_nan orb].
    unfold fsub, SFsub, shl_align.
    rewrite Z.min_id, !sub_self.
    reflexivity.
Qed.

(** X13. An infinite number matches nothing in the numeric comparison,
    not even itself, whichever side it is on; nor does [nan]. *)
Theorem number_comparison_non_finite (a b : float) (fuzzy : bool) :
  is_finite a = false ->
  compare_values (VFloat a) (VFloat b) "Number" fuzzy = Ok false
  /\ compare_values (VFloat b) (VFloat a) "Number" fuzzy = Ok false.
Proof.
  intros Ha.
  assert (H : compare_values (VFloat a) (VFloat b) "Number" fuzzy = Ok false).
  { destruct a as [sa|sa| |sa ma ea]; try discriminate; [|reflexivity].
    destruct b as [sb|sb| |sb mb eb]; try reflexivity;
      destruct sa, sb; reflexivity. }
  split; [exact H|].
  rewrite compare_number_floats in *.
  rewrite (orb_comm (is_nan b)), fabs_fsub_sym. exact H.
Qed.

(** X14. A date matches itself, also on the first and the last
    representable day; and between two dates that are neither of them,
    the date comparison does not depend on the order. *)
Theorem date_comparison_reflexive_symmetric :
  (forall d fuzzy, compare_values (VDate d) (VDate d) "Date" fuzzy = Ok true)
  /\ (forall d1 d2 fuzzy,
        interior d1 -> interior d2 ->
        compare_values (VDate d1) (VDate d2) "Date" fuzzy
        = compare_values (VDate d2) (VDate d1) "Date" fuzzy).
Proof.
  split.
  - intros [o] fuzzy. unfold compare_values, date_eqb. simpl.
    now rewrite Z.eqb_refl.
  - intros [o1] [o2] fuzzy. unfold interior, min_ordinal, max_ordinal. simpl.
    intros H1 H2.
    unfold compare_values, date_add_days, date_eqb, min_ordinal, max_ordinal.
    simpl.
    replace ((1 <=? o2 + 1) && (o2 + 1 <=? 3652059)) with true
      by (symmetry; apply andb_true_intro; split; apply Z.leb_le; lia).
    replace ((1 <=? o2 + -1) && (o2 + -1 <=? 3652059)) with true
      by (symmetry; apply andb_true_intro; split; apply Z.leb_le; lia).
    replace ((1 <=? o1 + 1) && (o1 + 1 <=? 3652059)) with true
      by (symmetry; apply andb_true_intro; split; apply Z.leb_le; lia).
    replace ((1 <=? o1 + -1) && (o1 + -1 <=? 3652059)) with true
      by (symmetry; apply andb_true_intro; split; apply Z.leb_le; lia).
    simpl.
    destruct (Z.eqb_spec o1 o2), (Z.eqb_spec o2 o1), (Z.eqb_spec o1 (o2 + 1)),
      (Z.eqb_spec o2 (o1 + 1)), (Z.eqb_spec o1 (o2 + -1)),
      (Z.eqb_spec o2 (o1 + -1)); simpl; trivial; lia.
Qed.

(** X15. The date comparison is not transitive: a day matches the next
    day and the next day matches the day after, and the day does not
    match the day after the next. *)
Theorem date_comparison_not_transitive (o : Z) (fuzzy : bool) :
  min_ordinal < o -> o + 2 < max_ordinal ->
  compare_values (VDate {| toordinal := o |}) (VDate {| toordinal := o + 1 |})
    "Date" fuzzy = Ok true
  /\ compare_values (VDate {| toordinal := o + 1 |}) (VDate {| toordinal := o + 2 |})
       "Date" fuzzy = Ok true
  /\ compare_values (VDate {| toordinal := o |}) (VDate {| toordinal := o + 2 |})
       "Date" fuzzy = Ok false.
Proof.
  unfold min_ordinal, max_ordinal. intros H1 H2.
  unfold compare_values, date_add_days, date_eqb, min_ordinal, max_ordinal.
  simpl.
  replace ((1 <=? o + 1 + 1) && (o + 1 + 1 <=? 3652059)) with true
    by (symmetry; apply andb_true_intro; split; apply Z.leb_le; lia).
  replace ((1 <=? o + 1 + -1) && (o + 1 + -1 <=? 3652059)) with true
    by (symmetry; apply andb_true_intro; split; apply Z.leb_le; lia).
  replace ((1 <=? o + 2 + 1) && (o + 2 + 1 <=? 3652059)) with true
    by (symmetry; apply andb_true_intro; split; apply Z.leb_le; lia).
  replace ((1 <=? o + 2 + -1) && (o + 2 + -1 <=? 3652059)) with true
    by (symmetry; apply andb_true_intro; split; apply Z.leb_le; lia).
  simpl.
  repeat split.
  - destruct (Z.eqb_spec o (o + 1)); [lia|].
    destruct (Z.eqb_spec o (o + 1 + 1)); [lia|].
    destruct (Z.eqb_spec o (o + 1 + -1)); [reflexivity | lia].
  - destruct (Z.eqb_spec (o + 1) (o + 2)); [lia|].
    destruct (Z.eqb_spec (o + 1) (o + 2 + 1)); [lia|].
    destruct (Z.eqb_spec (o + 1) (o + 2 + -1)); [reflexivity | lia].
  - destruct (Z.eqb_spec o (o + 2)); [lia|].
    destruct (Z.eqb_spec o (o + 2 + 1)); [lia|].
    destruct (Z.eqb_spec o (o + 2 + -1)); [lia | reflexivity].
Qed.

(** X16. On values that are not missing, the exact text comparison is an
    equivalence: every value matches itself, the answer does not depend
    on the order, and two values that match a third match each other. *)
Theorem text_comparison_equivalence (v1 v2 v3 : value) :
  isna v1 = false -> isna v2 = false -> isna v3 = false ->
  compare_values v1 v1 "Text" false = Ok true
  /\ compare_values v1 v2 "Text" false = compare_values v2 v1 "Text" false
  /\ (compare_values v1 v2 "Text" false = Ok true ->
      compare_values v2 v3 "Text" false = Ok true ->
      compare_values v1 v3 "Text" false = Ok true).
Proof.
  intros H1 H2 H3. unfold compare_values. rewrite H1, H2, H3. simpl.
  split; [now rewrite string_eqb_refl|].
  split; [now rewrite string_eqb_sym|].
  intros [= E12] [= E23]. apply string_eqb_eq in E12, E23.
  now rewrite E12, E23, string_eqb_refl.
Qed.

(** X17. The text comparison, exact or fuzzy, ignores the case of the
    letters: putting either string in lower case does not change the
    answer. *)
Theorem text_comparison_ignores_case (s1 s2 : string) (fuzzy : bool) :
  compare_values (VStr (lower s1)) (VStr s2) "Text" fuzzy
  = compare_values (VStr s1) (VStr s2) "Text" fuzzy
  /\ compare_values (VStr s1) (VStr (lower s2)) "Text" fuzzy
     = compare_values (VStr s1) (VStr s2) "Text" fuzzy.
Proof.
  unfold compare_values. simpl.
  destruct fuzzy; rewrite ?strip_lower, ?lower_idem; split; reflexivity.
Qed.

(** X18. On two representable dates the date comparison raises nothing
    but [OverflowError], and raises it exactly when the dates differ and
    the second is the last representable day, or the second is the
    first representable day and the first is not the day after it. *)
Theorem date_comparison_overflow (d1 d2 : date) (fuzzy : bool) :
  in_range d1 -> in_range d2 ->
  (forall e, compare_values (VDate d1) (VDate d2) "Date" fuzzy = Raise e ->
             e = OverflowError)
  /\ (compare_values (VDate d1) (VDate d2) "Date" fuzzy = Raise OverflowError
      <-> toordinal d1 <> toordinal d2
          /\ (toordinal d2 = max_ordinal
              \/ (toordinal d2 = min_ordinal
                  /\ toordinal d1 <> min_ordinal + 1))).
Proof.
  intros H1 H2. split; [intros e; apply compare_dates_raise|].
  destruct d1 as [o1], d2 as [o2].
  unfold in_range, min_ordinal, max_ordinal in *. simpl in *.
  unfold compare_values, date_add_days, date_eqb, min_ordinal, max_ordinal.
  simpl.
  destruct (Z.eqb_spec o1 o2) as [E|E]; [split; [discriminate | lia]|].
  destruct (Z.leb_spec 1 (o2 + 1)); [|lia].
  destruct (Z.leb_spec (o2 + 1) 3652059); simpl; [|split; [lia | reflexivity]].
  destruct (Z.eqb_spec o1 (o2 + 1)) as [E1|E1]; [split; [discriminate | lia]|].
  destruct (Z.leb_spec 1 (o2 + -1)); simpl.
  - destruct (Z.leb_spec (o2 + -1) 3652059); simpl; [|lia].
    split; [discriminate | lia].
  - split; [lia | reflexivity].
Qed.

End RelationProperties.

(** ** Numbers read by [clean_number] *)

Lemma digit_char_facts (c : Z) :
  isdigit c = true ->
  isspace c = false
  /\ (c =? comma) = false
  /\ (c =? underscore) = false
  /\ lower_ascii_char c = c
  /\ ascii_char c = c
  /\ isspace_ascii c = false
  /\ (c =? 105) = false
  /\ (c =? 110) = false
  /\ (forall s, take_sign (String c s) = (false, String c s)).
Proof.
  unfold isdigit. intros H. apply andb_prop in H as [L U].
  apply Z.leb_le in L, U.
  assert (E : c = 48 \/ c = 49 \/ c = 50 \/ c = 51 \/ c = 52 \/ c = 53
              \/ c = 54 \/ c = 55 \/ c = 56 \/ c = 57) by lia.
  destruct E as [->|[->|[->|[->|[->|[->|[->|[->|[->| ->]]]]]]]]];
    repeat split.
Qed.

Lemma take_digits_cons (c : Z) (s : string) :
  isdigit c = true ->
  take_digits (String c s)
  = (c - 48 :: fst (take_digits s), snd (take_digits s)).
Proof.
  intros H. cbn [take_digits]. rewrite H. now destruct (take_digits s).
Qed.

Lemma take_digits_all (t : string) :
  all_digits t = true -> snd (take_digits t) = "".
Proof.
  induction t as [|c t IH]; [reflexivity|]. cbn [all_digits].
  intros H. apply andb_prop in H as [Hc Ht].
  rewrite take_digits_cons by exact Hc. cbn [snd]. auto.
Qed.

Lemma all_digits_last (t : string) :
  all_digits t = true ->
  no_space_at (last_char t) /\ no_ascii_space_at (last_char t).
Proof.
  induction t as [|c t IH]; [easy|]. cbn [all_digits].
  intros H. apply andb_prop in H as [Hc Ht].
  destruct t as [|d t]; [|exact (IH Ht)].
  simpl. split; now apply digit_char_facts.
Qed.

Lemma all_digits_lower (t : string) : all_digits t = true -> lower_ascii t = t.
Proof.
  induction t as [|c t IH]; [reflexivity|]. cbn [all_digits lower_ascii].
  intros H. apply andb_prop in H as [Hc Ht].
  rewrite (IH Ht). f_equal. now apply digit_char_facts.
Qed.

Lemma all_digits_ascii_form (t : string) :
  all_digits t = true -> ascii_form t = t.
Proof.
  induction t as [|c t IH]; [reflexivity|]. cbn [all_digits ascii_form].
  intros H. apply andb_prop in H as [Hc Ht].
  rewrite (IH Ht). f_equal. now apply digit_char_facts.
Qed.

Lemma all_digits_no_comma (t : string) :
  all_digits t = true -> remove_commas t = t.
Proof.
  induction t as [|c t IH]; [reflexivity|]. cbn [all_digits remove_commas].
  intros H. apply andb_prop in H as [Hc Ht].
  destruct (digit_char_facts c Hc) as (_ & -> & _). now rewrite IH.
Qed.

Lemma all_digits_underscores (t : string) (prev : Z) :
  all_digits t = true -> (prev =? underscore) = false ->
  strip_underscores prev t = Some t.
Proof.
  revert prev. induction t as [|c t IH]; intros prev; cbn [all_digits strip_underscores].
  - now intros _ ->.
  - intros H Hp. apply andb_prop in H as [Hc Ht].
    destruct (digit_char_facts c Hc) as (_ & _ & Hu & _).
    rewrite Hu, Hp. cbn [andb]. now rewrite (IH c Ht Hu).
Qed.

Lemma rstrip_ascii_fixed (t : string) :
  no_ascii_space_at (last_char t) -> rstrip_ascii t = t.
Proof.
  induction t as [|c t IH]; simpl; trivial.
  destruct t as [|d t].
  - simpl. intros Hc. now rewrite Hc.
  - intros H. rewrite (IH H). reflexivity.
Qed.

Lemma parse_decimal_digits (neg : bool) (c : Z) (t : string) :
  all_digits (String c t) = true ->
  parse_decimal neg (String c t)
  = Some (float_of_decimal neg
            (digits_value (fst (take_digits (String c t)))) 0).
Proof.
  intros H. unfold parse_decimal.
  pose proof (take_digits_all _ H) as Hrest.
  cbn [all_digits] in H. apply andb_prop in H as [Hc Ht].
  rewrite take_digits_cons in * by exact Hc. cbn [fst snd] in *.
  rewrite Hrest. cbn [app parse_exponent].
  rewrite app_nil_r. reflexivity.
Qed.

Lemma parse_float_body_digits (c : Z) (t : string) :
  all_digits (String c t) = true ->
  parse_float_body (String c t)
  = Some (float_of_decimal false
            (digits_value (fst (take_digits (String c t)))) 0)
  /\ parse_float_body (String 45 (String c t))
     = Some (float_of_decimal true
               (digits_value (fst (take_digits (String c t)))) 0).
Proof.
  intros H. pose proof (parse_decimal_digits false c t H) as P.
  pose proof (parse_decimal_digits true c t H) as N.
  pose proof (all_digits_lower _ H) as L.
  cbn [all_digits] in H. apply andb_prop in H as [Hc Ht].
  destruct (digit_char_facts c Hc) as (_ & _ & _ & _ & _ & _ & Hi & Hn & Hsign).
  unfold parse_float_body. split.
  - rewrite Hsign, L. cbn [String.eqb]. rewrite Hi, Hn. exact P.
  - cbn [take_sign]. rewrite L. cbn [String.eqb]. rewrite Hi, Hn. exact N.
Qed.

Lemma uint_string_digits (u : Decimal.uint) :
  all_digits (of_ascii (NilEmpty.string_of_uint u)) = true.
Proof. induction u; simpl; trivial. Qed.

Lemma uint_value_acc (u : Decimal.uint) (acc : positive) :
  fold_left (fun a d => 10 * a + d)
            (fst (take_digits (of_ascii (NilEmpty.string_of_uint u)))) (Zpos acc)
  = Zpos (Pos.of_uint_acc u acc).
Proof.
  revert acc.
  induction u as [|u IH|u IH|u IH|u IH|u IH|u IH|u IH|u IH|u IH|u IH];
    intros acc; [reflexivity|..];
    cbn [NilEmpty.string_of_uint of_ascii];
    rewrite take_digits_cons by reflexivity;
    cbn [fst fold_left Pos.of_uint_acc]; rewrite <- IH; f_equal;
    simpl N_of_ascii; lia.
Qed.

Lemma uint_value (u : Decimal.uint) :
  digits_value (fst (take_digits (of_ascii (NilEmpty.string_of_uint u))))
  = Z.of_N (Pos.of_uint u).
Proof.
  unfold digits_value.
  induction u as [|u IH|u IH|u IH|u IH|u IH|u IH|u IH|u IH|u IH|u IH];
    [reflexivity|..];
    cbn [NilEmpty.string_of_uint of_ascii];
    rewrite take_digits_cons by reflexivity;
    cbn [fst fold_left Pos.of_uint];
    first [exact IH | apply uint_value_acc].
Qed.

Lemma uint_string_nonempty (u : Decimal.uint) :
  u <> Decimal.Nil ->
  exists c t, of_ascii (NilEmpty.string_of_uint u) = String c t
              /\ of_ascii (NilZero.string_of_uint u) = String c t.
Proof. destruct u; [easy|..]; intros _; eexists _, _; split; reflexivity. Qed.

Lemma str_int_cases (n : Z) :
  exists c t,
    all_digits (String c t) = true
    /\ digits_value (fst (take_digits (String c t))) = Z.abs n
    /\ ((0 <= n /\ str_int n = String c t)
        \/ (n < 0 /\ str_int n = String 45 (String c t))).
Proof.
  unfold str_int. destruct n as [|p|p].
  - exists 48, "". repeat split. left. split; [lia | reflexivity].
  - destruct (uint_string_nonempty _ (Unsigned.to_uint_nonnil p))
      as (c & t & E & E').
    exists c, t. rewrite <- E. split; [apply uint_string_digits|]. split.
    + rewrite uint_value, Unsigned.of_to. reflexivity.
    + left. split; [lia|]. cbn [Z.to_int NilZero.string_of_int].
      now rewrite E', E.
  - destruct (uint_string_nonempty _ (Unsigned.to_uint_nonnil p))
      as (c & t & E & E').
    exists c, t. rewrite <- E. split; [apply uint_string_digits|]. split.
    + rewrite uint_value, Unsigned.of_to. reflexivity.
    + right. split; [lia|]. cbn [Z.to_int NilZero.string_of_int of_ascii].
      change (Z.of_N (N_of_ascii "-")) with 45.
      now rewrite E', E.
Qed.

Lemma digits_strip (c : Z) (t : string) :
  all_digits (String c t) = true ->
  strip (String c t) = String c t
  /\ strip (String 45 (String c t)) = String 45 (String c t).
Proof.
  intros H. pose proof (proj1 (all_digits_last _ H)) as Hl.
  cbn [all_digits] in H. apply andb_prop in H as [Hc Ht].
  destruct (digit_char_facts c Hc) as (Hs & _).
  unfold strip. split.
  - rewrite lstrip_fixed by exact Hs. now apply rstrip_fixed.
  - rewrite lstrip_fixed by reflexivity. now apply rstrip_fixed.
Qed.

(** The text that [float] reads is the digits themselves. *)
Lemma digits_float_text (c : Z) (t : string) :
  all_digits (String c t) = true ->
  rstrip_ascii (lstrip_ascii (ascii_form (String c t))) = String c t
  /\ rstrip_ascii (lstrip_ascii (ascii_form (String 45 (String c t))))
     = String 45 (String c t).
Proof.
  intros H. pose proof (proj2 (all_digits_last _ H)) as Hl.
  pose proof (all_digits_ascii_form _ H) as Ha.
  cbn [all_digits] in H. apply andb_prop in H as [Hc Ht].
  destruct (digit_char_facts c Hc) as (_ & _ & _ & _ & _ & Hs & _).
  split.
  - rewrite Ha. cbn [lstrip_ascii]. rewrite Hs. now apply rstrip_ascii_fixed.
  - change (ascii_form (String 45 (String c t)))
      with (String 45 (ascii_form (String c t))).
    rewrite Ha. cbn [lstrip_ascii].
    change (isspace_ascii 45) with false. cbn iota.
    now apply rstrip_ascii_fixed.
Qed.

Lemma float_of_decimal_int (neg : bool) (n : Z) :
  float_of_decimal neg (Z.abs n) 0
  = match n with
    | 0 => S754_zero neg
    | Zpos p | Zneg p => binary_round prec emax neg p 0
    end.
Proof.
  destruct n as [|p|p]; [reflexivity|..]; unfold float_of_decimal;
    cbn [Z.abs Z.leb Z.compare Z.pow Z.pow_pos Pos.iter];
    rewrite Z.mul_1_r; reflexivity.
Qed.

Lemma py_float_str_int (n : Z) :
  strip (str_int n) = str_int n
  /\ remove_commas (str_int n) = str_int n
  /\ py_float (str_int n) = Ok (float_of_int n).
Proof.
  destruct (str_int_cases n) as (c & t & Hd & Hv & [[Hn ->]|[Hn ->]]);
    destruct (digits_strip c t Hd) as [S1 S2];
    destruct (digits_float_text c t Hd) as [F1 F2];
    destruct (parse_float_body_digits c t Hd) as [P1 P2];
    pose proof (all_digits_no_comma _ Hd) as C;
    unfold py_float.
  - split; [exact S1|]. split; [exact C|].
    rewrite F1, all_digits_underscores by (exact Hd || reflexivity).
    rewrite P1, Hv, float_of_decimal_int.
    destruct n as [|p|p]; [reflexivity | reflexivity | lia].
  - split; [exact S2|]. split;
      [change (remove_commas (String 45 (String c t)))
         with (String 45 (remove_commas (String c t))); now rewrite C|].
    rewrite F2.
    change (strip_underscores 0 (String 45 (String c t)))
      with (match strip_underscores 45 (String c t) with
            | Some u => Some (String 45 u)
            | None => None
            end).
    rewrite all_digits_underscores by (exact Hd || reflexivity).
    rewrite P2, Hv, float_of_decimal_int.
    destruct n as [|p|p]; [lia | lia | reflexivity].
Qed.

Lemma blank_remove_commas (s : string) :
  blank s = true -> all_space (remove_commas s) = true.
Proof.
  induction s as [|c s IH]; [reflexivity|]. cbn [blank remove_commas].
  intros H. apply andb_prop in H as [Hc Hs].
  destruct (c =? comma) eqn:E; [auto|].
  rewrite orb_false_r in Hc. cbn [all_space]. now rewrite Hc, IH.
Qed.

Lemma strip_all_space (s : string) : all_space s = true -> strip s = "".
Proof.
  intros H. unfold strip.
  rewrite <- (append_empty_r s), (lstrip_all_space _ _ H). reflexivity.
Qed.

Section NumberProperties.

Context {ext : Externals}.

(** X19. An integer cell normalises to the float nearest to it, and so
    does every string that spells the integer in decimal with commas
    put anywhere in it: the commas are thousands separators wherever
    they stand. *)
Theorem clean_number_integers (n : Z) :
  clean_number (VInt n) = Ok (VFloat (float_of_int n))
  /\ (forall s, remove_commas s = str_int n ->
                clean_number (VStr s) = Ok (VFloat (float_of_int n))).
Proof.
  destruct (py_float_str_int n) as (S & C & P).
  unfold clean_number. cbn [isna py_str]. split.
  - now rewrite C, S, P.
  - intros s ->. now rewrite S, P.
Qed.

(** X20. A string cell made of whitespace and commas only, the empty
    string included, normalises to [None]; it then matches nothing in
    the numeric comparison. *)
Theorem clean_number_blank (s : string) :
  blank s = true ->
  clean_number (VStr s) = Ok VNone
  /\ forall other fuzzy,
       (a <- clean_number (VStr s) ;; b <- clean_number other ;;
        compare_values a b "Number" fuzzy) = Ok false.
Proof.
  intros H.
  assert (E : clean_number (VStr s) = Ok VNone).
  { unfold clean_number. cbn [isna py_str].
    now rewrite (strip_all_space _ (blank_remove_commas s H)). }
  split; [exact E|]. intros other fuzzy. rewrite E.
  destruct (clean_number_total other) as [b ->]. reflexivity.
Qed.

End NumberProperties.

(** ** The flat records *)

Lemma dict_set_keys_In (d : dict) (k k' : string) (v : value) :
  In k' (keys (dict_set d k v)) <-> k' = k \/ In k' (keys d).
Proof.
  unfold keys. induction d as [|[k0 v0] d IH]; simpl.
  - intuition.
  - destruct (string_eqb_spec k k0) as [->|E]; simpl.
    + intuition.
    + rewrite IH. intuition.
Qed.

Lemma dict_set_keys_NoDup (d : dict) (k : string) (v : value) :
  NoDup (keys d) -> NoDup (keys (dict_set d k v)).
Proof.
  unfold keys. induction d as [|[k0 v0] d IH]; simpl; intros H.
  - repeat constructor. easy.
  - inversion H as [|? ? Hk0 Hd]; subst.
    destruct (string_eqb_spec k k0) as [->|E]; simpl.
    + constructor; assumption.
    + constructor; [|auto].
      intros Hin. apply (dict_set_keys_In d k k0 v) in Hin as [->|Hin]; auto.
Qed.

Lemma prefix_items_keys_NoDup (p : string) (items row : dict) :
  NoDup (keys row) -> NoDup (keys (prefix_items p items row)).
Proof.
  unfold prefix_items. revert row.
  induction items as [|[k v] items IH]; intros row H; simpl; trivial.
  apply IH. now apply dict_set_keys_NoDup.
Qed.

Lemma dict_of_keys_NoDup (row : Series) : NoDup (keys (dict_of row)).
Proof.
  unfold dict_of.
  assert (G : forall acc, NoDup (keys acc) ->
                NoDup (keys (fold_left (fun d kv => dict_set d (fst kv) (snd kv))
                                       row acc))).
  { induction row as [|[k v] row IH]; intros acc H; simpl; trivial.
    apply IH. now apply dict_set_keys_NoDup. }
  apply G. constructor.
Qed.

Lemma dict_set_fresh (d : dict) (k : string) (v : value) :
  ~ In k (keys d) -> dict_set d k v = (d ++ [(k, v)])%list.
Proof.
  unfold keys. induction d as [|[k' v'] d IH]; simpl; trivial.
  intros H. destruct (string_eqb_spec k k') as [->|_]; [exfalso; auto|].
  rewrite IH; auto.
Qed.

Lemma dict_of_unique (row : Series) : NoDup (map fst row) -> dict_of row = row.
Proof.
  unfold dict_of.
  assert (G : forall acc,
             NoDup (map fst row) ->
             (forall k, In k (map fst row) -> ~ In k (keys acc)) ->
             fold_left (fun d kv => dict_set d (fst kv) (snd kv)) row acc
             = (acc ++ row)%list).
  { induction row as [|[k v] row IH]; intros acc Hnd Hfresh; simpl.
    - now rewrite app_nil_r.
    - inversion Hnd as [|? ? Hk Hnd']; subst.
      rewrite dict_set_fresh by (apply Hfresh; now left).
      rewrite IH; trivial.
      + now rewrite <- app_assoc.
      + intros k' Hk'. unfold keys. rewrite map_app, in_app_iff. simpl.
        intros [H|[H|[]]]; [apply (Hfresh k'); [now right | exact H] | congruence]. }
  intros H. now apply (G []).
Qed.

Lemma combine_fst (cols : list string) (cells : list value) :
  List.length cells = List.length cols -> map fst (combine cols cells) = cols.
Proof.
  revert cells. induction cols as [|c cols IH]; intros [|v cells]; simpl;
    try easy.
  intros [= H]. now rewrite IH.
Qed.

Lemma getitem_dict_get (row : Series) (k : string) (v : value) :
  getitem row k = Ok v -> dict_get row k = Some v.
Proof.
  induction row as [|[k' v'] row IH]; simpl; [discriminate|].
  destruct (String.eqb k k'); [now intros [= ->] | exact IH].
Qed.

(** X21. Two fields of a match record are stored under the same key of
    the flat record exactly when they are the same field, or one is the
    row index and the other a column of the first sheet named
    [Index]. *)
Theorem flat_keys_shared (f g : field) :
  flat_key f = flat_key g
  <-> f = g
      \/ (f = FIndex /\ g = FLeft "Index")
      \/ (f = FLeft "Index" /\ g = FIndex).
Proof.
  split; [apply flat_key_collision|].
  intros [->|[[-> ->]|[-> ->]]]; reflexivity.
Qed.

(** The flat record built for a match record never holds a key twice. *)
Lemma flat_row_keys_distinct (r : MatchRecord) : NoDup (keys (flat_row r)).
Proof.
  unfold flat_row.
  assert (H : NoDup (keys (prefix_items "Excel1_" (Excel1_Data r)
                             [("Excel1_Index", VInt (Excel1_Index r));
                              ("Matched", VStr (Matched r))]))).
  { apply prefix_items_keys_NoDup. repeat constructor; simpl; intuition discriminate. }
  destruct (Excel2_Match r) as [d|]; trivial.
  destruct (truthy d); trivial. now apply prefix_items_keys_NoDup.
Qed.

(** X22. The flat record of an unmatched row holds no field of the
    second sheet: it has no value under any key that starts with
    [Excel2_]. *)
Theorem flat_row_unmatched (r : MatchRecord) (k : string) :
  Excel2_Match r = None ->
  dict_get (flat_row r) ("Excel2_" ++ k) = None.
Proof.
  intros H. unfold flat_row. rewrite H.
  rewrite prefix_items_other by (intros k' E; discriminate E).
  reflexivity.
Qed.

Section TableProperties.

Context {ext : Externals}.

(** X23. After a run on a well-formed first sheet that has no column
    named [Index], the flat record at position [i] gives back the row
    index [i] under [Excel1_Index], the matched indicator under
    [Matched], every cell of row [i] under [Excel1_] followed by its
    column name, and every cell of the row attached by the match under
    [Excel2_] followed by its column name. *)
Theorem flat_results_lookup (df1 df2 : DataFrame) (col_map : ColumnMapping)
    (results : list MatchRecord) (i : nat) (cells : list value) :
  well_formed df1 -> ~ In "Index" (columns df1) ->
  run_match df1 df2 col_map = Ok results ->
  nth_error (data df1) i = Some cells ->
  exists r flat,
    nth_error results i = Some r
    /\ nth_error (flat_results results) i = Some flat
    /\ dict_get flat "Excel1_Index" = Some (VInt (Z.of_nat i))
    /\ dict_get flat "Matched" = Some (VStr (Matched r))
    /\ (forall c v, getitem (combine (columns df1) cells) c = Ok v ->
                    dict_get flat ("Excel1_" ++ c) = Some v)
    /\ (forall d c v, Excel2_Match r = Some d -> dict_get d c = Some v ->
                      dict_get flat ("Excel2_" ++ c) = Some v).
Proof.
  intros [Hnd Hlen] Hidx Hrun Hcells. unfold run_match in Hrun.
  assert (Hi : nth_error (iterrows df1) i
               = Some (0 + Z.of_nat i, combine (columns df1) cells)).
  { unfold iterrows. apply enumerate_nth. now rewrite nth_error_map, Hcells. }
  destruct (Forall2_nth _ _ _ _ _ (match_rows_records _ _ _ _ Hrun) Hi)
    as (r & Hr & Hri & Hrd & st & _ & Hst).
  cbn [fst snd] in *.
  assert (Hl : List.length cells = List.length (columns df1)).
  { rewrite Forall_forall in Hlen. apply Hlen. eapply nth_error_In. exact Hcells. }
  assert (Hkeys : map fst (combine (columns df1) cells) = columns df1)
    by now apply combine_fst.
  rewrite dict_of_unique in Hrd by now rewrite Hkeys.
  assert (N1 : NoDup (keys (Excel1_Data r)))
    by (rewrite Hrd; unfold keys; now rewrite Hkeys).
  assert (N2 : forall d, Excel2_Match r = Some d -> NoDup (keys d)).
  { intros d Hd. rewrite Hst in Hd. simpl in Hd.
    destruct (snd st) as [row2|]; [|discriminate].
    injection Hd as <-. apply dict_of_keys_NoDup. }
  destruct (flat_row_fields r N1 N2) as (FM & FL & FR & FI).
  exists r, (flat_row r). split; [exact Hr|]. split.
  { unfold flat_results. now rewrite nth_error_map, Hr. }
  split.
  { change "Excel1_Index" with (flat_key FIndex). rewrite FI.
    - now rewrite Hri.
    - apply dict_get_absent. rewrite Hrd. unfold keys. now rewrite Hkeys. }
  split; [exact FM|]. split.
  - intros c v Hc. apply (FL c v). rewrite Hrd. now apply getitem_dict_get.
  - intros d c v Hd Hc. exact (FR d c v Hd Hc).
Qed.

End TableProperties.

(** ** Worked instances of the further properties *)

Lemma same_name_answers : answers_in_options SampleUI.same_name.
Proof.
  split.
  - intros col options Hne. simpl.
    destruct (existsb (String.eqb col) options) eqn:E.
    + apply existsb_exists in E as (x & Hx & Hcx).
      apply string_eqb_eq in Hcx. now subst.
    + destruct options; [contradiction | now left].
  - intros col matched options Hne. simpl.
    destruct options; [contradiction | now left].
Qed.

Lemma sample_columns_distinct : NoDup (columns Sample.df1).
Proof. repeat constructor; simpl; intuition discriminate. Qed.

Lemma build_col_map_entries_witness :
  NoDup (columns Sample.df1)
  /\ build_col_map SampleUI.same_name Sample.df1 Sample.df2
     = map (entry_of SampleUI.same_name Sample.df2)
           (filter (selected SampleUI.same_name Sample.df2) (columns Sample.df1)).
Proof.
  split; [exact sample_columns_distinct|].
  exact (build_col_map_entries SampleUI.same_name Sample.df1 Sample.df2
           sample_columns_distinct).
Defined.

Lemma build_col_map_valid_witness :
  answers_in_options SampleUI.same_name
  /\ valid_mapping Sample.df1 Sample.df2
       (build_col_map SampleUI.same_name Sample.df1 Sample.df2).
Proof.
  split; [exact same_name_answers|].
  exact (build_col_map_valid SampleUI.same_name Sample.df1 Sample.df2
           same_name_answers).
Defined.

Lemma build_col_map_types_witness :
  answers_in_options SampleUI.same_name
  /\ Forall (fun entry =>
               In (type_of entry) col_types
               /\ (fuzzy_of entry = true -> type_of entry = "Text"))
            (build_col_map SampleUI.same_name Sample.df1 Sample.df2).
Proof.
  split; [exact same_name_answers|].
  exact (build_col_map_types SampleUI.same_name Sample.df1 Sample.df2
           same_name_answers).
Defined.

Lemma run_on_built_mapping_witness :
  dates_interior Sample.ext /\ answers_in_options SampleUI.same_name
  /\ well_formed Sample.df1 /\ well_formed Sample.df2
  /\ exists results,
       run_match (ext := Sample.ext) Sample.df1 Sample.df2
         (build_col_map SampleUI.same_name Sample.df1 Sample.df2) = Ok results
       /\ List.length results = List.length (data Sample.df1).
Proof.
  assert (W1 : well_formed Sample.df1)
    by (apply sample_well_formed; repeat constructor).
  assert (W2 : well_formed Sample.df2)
    by (apply sample_well_formed; repeat constructor).
  split; [exact sample_dates_interior|]. split; [exact same_name_answers|].
  split; [exact W1|]. split; [exact W2|].
  exact (run_on_built_mapping (ext := Sample.ext) SampleUI.same_name
           Sample.df1 Sample.df2 sample_dates_interior same_name_answers W1 W2).
Defined.

Lemma run_match_errors_witness :
  let col_map := [("ghost", ("name", "Text", false))] in
  well_formed Sample.df1 /\ well_formed Sample.df2
  /\ run_match (ext := Sample.ext) Sample.df1 Sample.df2 col_map
     = Raise (KeyError "ghost")
  /\ (KeyError "ghost" = OverflowError
      \/ exists entry,
           In entry col_map
           /\ ((KeyError "ghost" = KeyError (left_column entry)
                /\ ~ In (left_column entry) (columns Sample.df1))
               \/ (KeyError "ghost" = KeyError (right_column entry)
                   /\ ~ In (right_column entry) (columns Sample.df2)))).
Proof.
  intros col_map.
  assert (W1 : well_formed Sample.df1)
    by (apply sample_well_formed; repeat constructor).
  assert (W2 : well_formed Sample.df2)
    by (apply sample_well_formed; repeat constructor).
  split; [exact W1|]. split; [exact W2|]. split; [reflexivity|].
  exact (run_match_errors (ext := Sample.ext) Sample.df1 Sample.df2 col_map
           (KeyError "ghost") W1 W2 eq_refl).
Defined.

Lemma record_outcome_witness :
  let r := {| Excel1_Index := 0;
              Excel1_Data :=
                [("id", VInt 1); ("name", VStr "Bob"); ("amt", VStr "500,00")];
              Matched := yes;
              Excel2_Match :=
                Some [("id", VInt 1); ("name", VStr "bob"); ("amt", VStr "50000")] |} in
  run_match (ext := Sample.ext) Sample.df1 Sample.df2 Sample.col_map = Ok [r]
  /\ nth_error [r] 0 = Some r
  /\ exists ir,
       nth_error (iterrows Sample.df1) 0 = Some ir
       /\ ((Matched r = no /\ Excel2_Match r = None
            /\ Forall (fun jr => full_match (ext := Sample.ext) Sample.col_map
                                   (snd ir) (snd jr) = Ok false)
                      (iterrows Sample.df2))
           \/ exists pre j row2 post,
                iterrows Sample.df2 = (pre ++ (j, row2) :: post)%list
                /\ Matched r = yes /\ Excel2_Match r = Some (dict_of row2)
                /\ Forall (fun jr => full_match (ext := Sample.ext) Sample.col_map
                                       (snd ir) (snd jr) = Ok false) pre
                /\ full_match (ext := Sample.ext) Sample.col_map (snd ir) row2
                   = Ok true).
Proof.
  intros r. split; [reflexivity|]. split; [reflexivity|].
  exact (record_outcome (ext := Sample.ext) Sample.df1 Sample.df2 Sample.col_map
           [r] 0 r eq_refl eq_refl).
Defined.

Lemma equal_rows_same_outcome_witness :
  let left := {| columns := ["name"]; data := [[VStr "bob"]; [VStr "bob"]] |} in
  let right := {| columns := ["name"]; data := [[VStr "Bob"]] |} in
  let col_map := [("name", ("name", "Text", false))] in
  let r0 := {| Excel1_Index := 0; Excel1_Data := [("name", VStr "bob")];
               Matched := yes; Excel2_Match := Some [("name", VStr "Bob")] |} in
  let r1 := {| Excel1_Index := 1; Excel1_Data := [("name", VStr "bob")];
               Matched := yes; Excel2_Match := Some [("name", VStr "Bob")] |} in
  run_match (ext := Sample.ext) left right col_map = Ok [r0; r1]
  /\ nth_error (data left) 0 = Some [VStr "bob"]
  /\ nth_error (data left) 1 = Some [VStr "bob"]
  /\ Matched r0 = Matched r1 /\ Excel2_Match r0 = Excel2_Match r1
  /\ Excel1_Data r0 = Excel1_Data r1.
Proof.
  intros left right col_map r0 r1.
  split; [reflexivity|]. split; [reflexivity|]. split; [reflexivity|].
  exact (equal_rows_same_outcome (ext := Sample.ext) left right col_map
           [r0; r1] 0 1 [VStr "bob"] r0 r1
           eq_refl eq_refl eq_refl eq_refl eq_refl).
Defined.

Lemma number_comparison_reflexive_witness :
  is_finite (float_of_int 500) = true
  /\ compare_values (ext := Sample.ext)
       (VFloat (float_of_int 500)) (VFloat (float_of_int 500)) "Number" false
     = Ok true.
Proof.
  split; [reflexivity|].
  exact (number_comparison_reflexive (ext := Sample.ext) (float_of_int 500)
           false eq_refl).
Defined.

Lemma number_comparison_non_finite_witness :
  is_finite (S754_infinity false) = false
  /\ compare_values (ext := Sample.ext)
       (VFloat (S754_infinity false)) (VFloat (S754_infinity false)) "Number" false
     = Ok false
  /\ compare_values (ext := Sample.ext)
       (VFloat (S754_infinity false)) (VFloat (S754_infinity false)) "Number" false
     = Ok false.
Proof.
  split; [reflexivity|].
  exact (number_comparison_non_finite (ext := Sample.ext)
           (S754_infinity false) (S754_infinity false) false eq_refl).
Defined.

Lemma date_comparison_not_transitive_witness :
  min_ordinal < 739496 /\ 739496 + 2 < max_ordinal
  /\ compare_values (ext := Sample.ext)
       (VDate {| toordinal := 739496 |}) (VDate {| toordinal := 739496 + 1 |})
       "Date" false = Ok true
  /\ compare_values (ext := Sample.ext)
       (VDate {| toordinal := 739496 + 1 |}) (VDate {| toordinal := 739496 + 2 |})
       "Date" false = Ok true
  /\ compare_values (ext := Sample.ext)
       (VDate {| toordinal := 739496 |}) (VDate {| toordinal := 739496 + 2 |})
       "Date" false = Ok false.
Proof.
  assert (H1 : min_ordinal < 739496) by (unfold min_ordinal; lia).
  assert (H2 : 739496 + 2 < max_ordinal) by (unfold max_ordinal; lia).
  split; [exact H1|]. split; [exact H2|].
  exact (date_comparison_not_transitive (ext := Sample.ext) 739496 false H1 H2).
Defined.

Lemma text_comparison_equivalence_witness :
  isna (VStr "a") = false /\ isna (VStr " A") = false /\ isna (VStr "A ") = false
  /\ compare_values (ext := Sample.ext) (VStr "a") (VStr "a") "Text" false = Ok true
  /\ compare_values (ext := Sample.ext) (VStr "a") (VStr " A") "Text" false
     = compare_values (ext := Sample.ext) (VStr " A") (VStr "a") "Text" false
  /\ (compare_values (ext := Sample.ext) (VStr "a") (VStr " A") "Text" false = Ok true ->
      compare_values (ext := Sample.ext) (VStr " A") (VStr "A ") "Text" false = Ok true ->
      compare_values (ext := Sample.ext) (VStr "a") (VStr "A ") "Text" false = Ok true).
Proof.
  split; [reflexivity|]. split; [reflexivity|]. split; [reflexivity|].
  exact (text_comparison_equivalence (ext := Sample.ext)
           (VStr "a") (VStr " A") (VStr "A ") eq_refl eq_refl eq_refl).
Defined.

Lemma date_comparison_overflow_witness :
  let d1 := {| toordinal := 739496 |} in
  let d2 := {| toordinal := 3652059 |} in
  in_range d1 /\ in_range d2
  /\ (forall e, compare_values (ext := Sample.ext) (VDate d1) (VDate d2) "Date" false
                = Raise e -> e = OverflowError)
  /\ (compare_values (ext := Sample.ext) (VDate d1) (VDate d2) "Date" false
      = Raise OverflowError
      <-> toordinal d1 <> toordinal d2
          /\ (toordinal d2 = max_ordinal
              \/ (toordinal d2 = min_ordinal
                  /\ toordinal d1 <> min_ordinal + 1))).
Proof.
  intros d1 d2.
  assert (H1 : in_range d1)
    by (unfold in_range, min_ordinal, max_ordinal; simpl; lia).
  assert (H2 : in_range d2)
    by (unfold in_range, min_ordinal, max_ordinal; simpl; lia).
  split; [exact H1|]. split; [exact H2|].
  exact (date_comparison_overflow (ext := Sample.ext) d1 d2 false H1 H2).
Defined.

Lemma clean_number_blank_witness :
  blank " , " = true
  /\ clean_number (ext := Sample.ext) (VStr " , ") = Ok VNone
  /\ forall other fuzzy,
       (a <- clean_number (ext := Sample.ext) (VStr " , ") ;;
        b <- clean_number (ext := Sample.ext) other ;;
        compare_values (ext := Sample.ext) a b "Number" fuzzy) = Ok false.
Proof.
  split; [reflexivity|].
  exact (clean_number_blank (ext := Sample.ext) " , " eq_refl).
Defined.

Lemma flat_row_unmatched_witness :
  let r := {| Excel1_Index := 0; Excel1_Data := [("name", VStr "bob")];
              Matched := no; Excel2_Match := None |} in
  Excel2_Match r = None
  /\ dict_get (flat_row r) ("Excel2_" ++ "name") = None.
Proof.
  intros r. split; [reflexivity|].
  exact (flat_row_unmatched r "name" eq_refl).
Defined.

Lemma flat_results_lookup_witness :
  let r := {| Excel1_Index := 0;
              Excel1_Data :=
                [("id", VInt 1); ("name", VStr "Bob"); ("amt", VStr "500,00")];
              Matched := yes;
              Excel2_Match :=
                Some [("id", VInt 1); ("name", VStr "bob"); ("amt", VStr "50000")] |} in
  let cells := [VInt 1; VStr "Bob"; VStr "500,00"] in
  well_formed Sample.df1 /\ ~ In "Index" (columns Sample.df1)
  /\ run_match (ext := Sample.ext) Sample.df1 Sample.df2 Sample.col_map = Ok [r]
  /\ nth_error (data Sample.df1) 0 = Some cells
  /\ exists r' flat,
       nth_error [r] 0 = Some r'
       /\ nth_error (flat_results [r]) 0 = Some flat
       /\ dict_get flat "Excel1_Index" = Some (VInt (Z.of_nat 0))
       /\ dict_get flat "Matched" = Some (VStr (Matched r'))
       /\ (forall c v, getitem (combine (columns Sample.df1) cells) c = Ok v ->
                       dict_get flat ("Excel1_" ++ c) = Some v)
       /\ (forall d c v, Excel2_Match r' = Some d -> dict_get d c = Some v ->
                         dict_get flat ("Excel2_" ++ c) = Some v).
Proof.
  intros r cells.
  assert (W1 : well_formed Sample.df1)
    by (apply sample_well_formed; repeat constructor).
  assert (N : ~ In "Index" (columns Sample.df1))
    by (simpl; intros [H|[H|[H|[]]]]; discriminate).
  split; [exact W1|]. split; [exact N|]. split; [reflexivity|].
  split; [reflexivity|].
  exact (flat_results_lookup (ext := Sample.ext) Sample.df1 Sample.df2
           Sample.col_map [r] 0 cells W1 N eq_refl eq_refl).
Defined.


